(** * mizeni: point of sale, inventory and reports

    A shallow embedding of the cart and checkout workflow ([pages/Pos.tsx],
    [components/ui/Cart.tsx]), of the backend helpers ([lib/supabase.ts]),
    of the product form, of the inventory filter and of the finance
    report, with the properties the specification states about them.

    Conventions of the embedding.
    - A JavaScript [number] that holds a count (quantity, stock, identifier,
      time value in milliseconds) is a [Z].  A price or an amount stored in
      a record is the exact rational value [Q] of the number.  The sums and
      products that make the totals of the cart, of the sale and of the
      best-selling table are computed as the language does, rounded to
      binary64 ([JsNumber]); their results are [number]s.  The margins of
      the finance report and of the inventory are computed over [Q], and
      only guards, signs and bounds are stated of them.
    - React state is threaded explicitly: a handler is a function from the
      component state to the next one.
    - A backend call that can fail returns a [result]. *)

From Stdlib Require Import ZArith QArith Qround List Bool Lia String Ascii.
From Stdlib Require Import Permutation Sorted.
From Stdlib Require Import Lqa.
From Stdlib Require Floats.SpecFloat.
From stdpp Require Import gmap.

Import ListNotations.
Local Open Scope Z_scope.

(** ** Errors *)

Inductive result (E A : Type) : Type :=
| Ok (a : A)
| Err (e : E).
Arguments Ok {E A} a.
Arguments Err {E A} e.

(** ** Numbers

    The Number type of the language: the binary64 values.  A finite value
    is given by the rational it stands for; the two zeros are not told
    apart (a sum that starts from [+0] is never [-0]).  The operations
    compute the exact result and take the Number value for it: the nearest
    binary64 value, the one with the even significand when two are as
    near, and an infinity from [2^1024 - 2^970] on. *)

Module JsNumber.

Inductive number : Type :=
| NaN
| Infinity (negative : bool)
| Finite (x : Q).

(** The integer nearest to [u / v], for [v > 0]; the even one when two are
    as near. *)
Definition roundTiesToEven (u v : Z) : Z :=
  let q := u / v in
  let r := u mod v in
  if 2 * r <? v then q
  else if v <? 2 * r then q + 1
  else if Z.even q then q else q + 1.

(** The largest [k] with [2^k <= a / d], for [a > 0] and [d > 0]. *)
Definition floorLog2 (a d : Z) : Z :=
  let k := Z.log2 a - Z.log2 d in
  if a * 2 ^ Z.max 0 (- k) <? d * 2 ^ Z.max 0 k then k - 1 else k.

(** The Number value for [x]: with [e] the exponent of the last place of
    the significand (53 bits, and not below [-1074]), the significand is
    [x / 2^e] rounded to an integer. *)
Definition number64 (x : Q) : number :=
  let n := Qnum (Qred x) in
  let d := Zpos (Qden (Qred x)) in
  if n =? 0 then Finite 0
  else
    let a := Z.abs n in
    let e := Z.max (floorLog2 a d - 52) (-1074) in
    let m := roundTiesToEven (a * 2 ^ Z.max 0 (- e)) (d * 2 ^ Z.max 0 e) in
    if 2 ^ 1024 <=? m * 2 ^ Z.max 0 e then Infinity (n <? 0)
    else
      Finite
        (Qred ((if n <? 0 then - (m * 2 ^ Z.max 0 e) else m * 2 ^ Z.max 0 e)
               # Z.to_pos (2 ^ Z.max 0 (- e)))).

(** [x + y] *)
Definition jsAdd (x y : number) : number :=
  match x, y with
  | NaN, _ | _, NaN => NaN
  | Infinity s, Infinity s' => if Bool.eqb s s' then Infinity s else NaN
  | Infinity s, Finite _ | Finite _, Infinity s => Infinity s
  | Finite a, Finite b => number64 (a + b)
  end.

(** [x * y] *)
Definition jsMul (x y : number) : number :=
  match x, y with
  | NaN, _ | _, NaN => NaN
  | Infinity s, Infinity s' => Infinity (xorb s s')
  | Infinity s, Finite a | Finite a, Infinity s =>
    if Qeq_bool a 0 then NaN else Infinity (xorb s (Qle_bool a 0))
  | Finite a, Finite b => number64 (a * b)
  end.

(** [- x] *)
Definition jsNeg (x : number) : number :=
  match x with
  | NaN => NaN
  | Infinity s => Infinity (negb s)
  | Finite a => Finite (- a)
  end.

(** [x - y] *)
Definition jsSub (x y : number) : number := jsAdd x (jsNeg y).

(** The number of a count. *)
Definition ofZ (n : Z) : number := Finite (inject_Z n).

(** The binary64 value nearest to [x], for the prices of the sample data:
    [double (1 # 10)] is the number that the literal [0.1] denotes. *)
Definition double (x : Q) : Q :=
  match number64 x with
  | Finite y => y
  | _ => 0%Q
  end.

(** The rational is a whole number. *)
Definition whole (x : Q) : Prop := (x == inject_Z (Qfloor x))%Q.

(** The values of the Standard Library's specification of binary64
    arithmetic, for the comparison of the two on sample values. *)
Definition ofSpecFloat (f : SpecFloat.spec_float) : number :=
  match f with
  | SpecFloat.S754_zero _ => Finite 0
  | SpecFloat.S754_infinity s => Infinity s
  | SpecFloat.S754_nan => NaN
  | SpecFloat.S754_finite s m e =>
    Finite
      (Qred ((if s then Z.neg m else Z.pos m) * 2 ^ Z.max 0 e
             # Z.to_pos (2 ^ Z.max 0 (- e))))
  end.

Definition sameNumber (x y : number) : bool :=
  match x, y with
  | NaN, NaN => true
  | Infinity s, Infinity s' => Bool.eqb s s'
  | Finite a, Finite b => Qeq_bool a b
  | _, _ => false
  end.

(** The quotient [n / d] of two integers below [2^53], as the Standard
    Library rounds it. *)
Definition specQuotient (n d : Z) : SpecFloat.spec_float :=
  SpecFloat.SFdiv 53 1024 (SpecFloat.binary_normalize 53 1024 n 0 false)
    (SpecFloat.binary_normalize 53 1024 d 0 false).

(** Sample values: fractions, the largest finite value, the smallest
    positive one and values around the least normal one. *)
Definition specSamples : list SpecFloat.spec_float :=
  List.map (fun p => specQuotient (fst p) (snd p))
    [(1, 10); (2, 10); (3, 10); (1, 3); (-1, 3); (7, 1); (123456789, 1000);
     (9007199254740991, 2); (-5, 7); (1, 9007199254740991); (100, 7)] ++
  [SpecFloat.S754_finite false 9007199254740991 971;
   SpecFloat.S754_finite true 9007199254740991 971;
   SpecFloat.S754_finite false 1 (-1074);
   SpecFloat.S754_finite false 3 (-1074);
   SpecFloat.S754_finite false 4503599627370496 (-1074);
   SpecFloat.S754_finite false 4503599627370497 (-1022)].

Definition agreesOn (f : SpecFloat.spec_float) (g : SpecFloat.spec_float)
    : bool :=
  sameNumber (ofSpecFloat (SpecFloat.SFadd 53 1024 f g))
    (jsAdd (ofSpecFloat f) (ofSpecFloat g)) &&
  sameNumber (ofSpecFloat (SpecFloat.SFmul 53 1024 f g))
    (jsMul (ofSpecFloat f) (ofSpecFloat g)).

End JsNumber.

(** ** lib/supabase.ts: the data model *)

Module Supabase.

(** [interface Product]; [id] and [created_at] are optional fields. *)
Record Product : Type := mkProduct {
  id : option Z;
  name : string;
  image_url : string;
  selling_price : Q;
  cost_price : Q;
  stock : Z;
  low_stock_threshold : Z;
  created_at : option Z
}.

Definition with_stock (p : Product) (s : Z) : Product :=
  mkProduct (id p) (name p) (image_url p) (selling_price p) (cost_price p)
    s (low_stock_threshold p) (created_at p).

(** *** The backend as [createSale] sees it

    The tables [sales] and [sale_items], and the [stock] column of
    [products] keyed by the product identifier.  [sale_seq] is the
    identifier the backend gives to the next inserted sale. *)

Record SaleRow : Type := mkSaleRow {
  sale_id : Z;
  sale_user_id : string;
  total_amount : JsNumber.number;
  total_cost : JsNumber.number
}.

Record Db (Item : Type) : Type := mkDb {
  sales : list SaleRow;
  sale_items : list (Item * Z);
  product_stock : gmap Z Z;
  sale_seq : Z
}.
Arguments mkDb {Item} _ _ _ _.
Arguments sales {Item} _.
Arguments sale_items {Item} _.
Arguments product_stock {Item} _.
Arguments sale_seq {Item} _.

(** Which requests of one [createSale] call the backend answers with an
    error.  The requests of the stock loop are numbered by the position of
    the sale item they serve. *)
Record Faults : Type := mkFaults {
  sale_insert_fails : bool;
  items_insert_fails : bool;
  product_fetch_fails : nat -> bool;
  stock_update_fails : nat -> bool
}.

Definition no_faults : Faults :=
  mkFaults false false (fun _ => false) (fun _ => false).

Inductive PostgrestError : Type := saleError | itemsError.

(** [console.log(`Updated stock for product ${productId} from
    ${product.stock} to ${newStock}`)]: one entry per persisted stock. *)
Record StockLog : Type := mkStockLog {
  log_product : Z;
  log_quantity : Z;
  log_from : Z;
  log_to : Z
}.

(** A logged stock is the stock read less the quantity sold, and not less
    than 0. *)
Definition clamped (w : StockLog) : Prop :=
  log_to w = Z.max 0 (log_from w - log_quantity w).

Section CreateSale.

(** [saleItems: any[]]: only [product_id] and [quantity] are read. *)
Variable Item : Type.
Variable item_product_id : Item -> Z.
Variable item_quantity : Item -> Z.

(** [select('stock').eq('id', productId).single()] *)
Definition fetchStock (f : Faults) (i : nat) (productId : Z)
    (tbl : gmap Z Z) : option Z :=
  if product_fetch_fails f i then None else tbl !! productId.

(** The loop [for (const item of saleItems)] of [createSale]. *)
Fixpoint updateStocks (f : Faults) (i : nat) (saleItems : list Item)
    (acc : gmap Z Z * list StockLog) : gmap Z Z * list StockLog :=
  match saleItems with
  | [] => acc
  | item :: rest =>
    let productId := item_product_id item in
    let quantity := item_quantity item in
    match fetchStock f i productId (fst acc) with
    | None => updateStocks f (S i) rest acc
    | Some stock =>
      let newStock := Z.max 0 (stock - quantity) in
      if stock_update_fails f i then updateStocks f (S i) rest acc
      else
        updateStocks f (S i) rest
          (<[productId := newStock]> (fst acc),
           snd acc ++ [mkStockLog productId quantity stock newStock])
    end
  end.

Definition createSale (f : Faults) (userId : string) (saleItems : list Item)
    (total cost : JsNumber.number) (db : Db Item)
    : Db Item * list StockLog * result PostgrestError SaleRow :=
  if sale_insert_fails f then (db, [], Err saleError)
  else
    let sale := mkSaleRow (sale_seq db) userId total cost in
    let db1 := mkDb (sales db ++ [sale]) (sale_items db)
                 (product_stock db) (sale_seq db + 1) in
    if items_insert_fails f then (db1, [], Err itemsError)
    else
      let saleId := sale_id sale in
      let saleItemsWithSaleId :=
        List.map (fun item => (item, saleId)) saleItems in
      let '(tbl, log) :=
        updateStocks f 0 saleItems (product_stock db1, []) in
      (mkDb (sales db1) (sale_items db1 ++ saleItemsWithSaleId) tbl
         (sale_seq db1),
       log, Ok sale).

End CreateSale.

(** *** Product images *)

(** [s.includes(sub)] *)
Fixpoint includes (s sub : string) : bool :=
  String.prefix sub s ||
  match s with
  | EmptyString => false
  | String _ rest => includes rest sub
  end.

(** [!s] for a string *)
Definition falsy (s : string) : bool :=
  match s with EmptyString => true | String _ _ => false end.

(** [encodeURIComponent] on a string given by its UTF-8 bytes: letters,
    digits and [- _ . ! ~ * ' ( )] are kept, every other byte becomes
    [%XX]. *)
Definition unreserved (c : ascii) : bool :=
  let n := nat_of_ascii c in
  ((65 <=? n) && (n <=? 90) || (97 <=? n) && (n <=? 122) ||
   (48 <=? n) && (n <=? 57) ||
   existsb (Ascii.eqb c)
     (list_ascii_of_string "-_.!~*'()"))%nat.

Definition hexDigit (n : nat) : ascii :=
  nth n (list_ascii_of_string "0123456789ABCDEF") "0"%char.

Fixpoint encodeURIComponent (s : string) : string :=
  match s with
  | EmptyString => EmptyString
  | String c rest =>
    if unreserved c then String c (encodeURIComponent rest)
    else
      let n := nat_of_ascii c in
      String "%"
        (String (hexDigit (n / 16)%nat)
           (String (hexDigit (n mod 16)%nat) (encodeURIComponent rest)))
  end.

Record JsError : Type := mkJsError {
  message : string;
  code : string
}.

Record File : Type := mkFile {
  file_name : string;
  file_size : Z
}.

(** What the storage bucket answers to [upload] and [getPublicUrl]:
    [upload] returns an error, [upload] throws, or the file is stored and
    [getPublicUrl] returns [urlData] ([None]: no [urlData]). *)
Inductive StorageReply : Type :=
| uploadError
| uploadThrew
| uploaded (publicUrl : option string).

Definition bgColor : string := "e2e8f0".
Definition textColor : string := "64748b".
Definition placeholderText : string := "Product+Image".

(** The file extension is computed and not used. *)
Definition getPlaceholderImageUrl (filename : string) : string :=
  ("https://placehold.co/300x300/" ++ bgColor ++ "/" ++ textColor ++
   "?text=" ++ placeholderText)%string.

Definition maxRetries : nat := 2.

(** One pass through the body of [uploadWithRetry]: [Err] is an exception
    that reaches its outer [catch].  [file] is never null here, and the
    [getBucket] probe only writes to the console. *)
Definition uploadAttempt (userId : string) (file : File)
    (reply : StorageReply) : result JsError string :=
  if falsy userId then
    Err (mkJsError "User ID is required for image upload" EmptyString)
  else if file_size file >? 5242880 then
    Err (mkJsError "File size exceeds 5MB limit" EmptyString)
  else
    match reply with
    | uploadError => Ok (getPlaceholderImageUrl (file_name file))
    | uploadThrew => Ok (getPlaceholderImageUrl (file_name file))
    | uploaded None => Ok (getPlaceholderImageUrl (file_name file))
    | uploaded (Some publicUrl) =>
      if falsy publicUrl then Ok (getPlaceholderImageUrl (file_name file))
      else Ok publicUrl
    end.

Definition permission_related (e : JsError) : bool :=
  includes (message e) "permission" || String.eqb (code e) "42501" ||
  includes (message e) "not authorized".

(** [uploadWithRetry], by the number of retries left
    ([maxRetries - retryCount]). *)
Fixpoint uploadWithRetry (retriesLeft : nat) (userId : string) (file : File)
    (reply : StorageReply) : result JsError string :=
  match uploadAttempt userId file reply with
  | Ok url => Ok url
  | Err e =>
    match retriesLeft with
    | S n => uploadWithRetry n userId file reply
    | O =>
      if permission_related e then
        Err (mkJsError
               ("Permission denied: " ++ message e ++
                ". Please check storage bucket policies.")%string
               EmptyString)
      else Err e
    end
  end.

(** The upload did not yield a public URL: a check before the upload
    rejects it, the bucket answers with an error or an exception, or no
    public URL comes back. *)
Definition uploadFailed (userId : string) (file : File)
    (reply : StorageReply) : bool :=
  falsy userId || (file_size file >? 5242880) ||
  match reply with
  | uploadError | uploadThrew | uploaded None => true
  | uploaded (Some publicUrl) => falsy publicUrl
  end.

Definition uploadProductImage (userId : string) (file : File)
    (reply : StorageReply) : string :=
  match uploadWithRetry maxRetries userId file reply with
  | Ok url => url
  | Err finalError =>
    let errorMsg :=
      encodeURIComponent
        (if falsy (message finalError) then "Unknown error"
         else message finalError) in
    ("https://placehold.co/300x300/e2e8f0/64748b?text=Upload+Failed:+" ++
     String.substring 0 50 errorMsg)%string
  end.

(** The three addresses a failed upload can return. *)
Definition tooLargeUrl : string :=
  "https://placehold.co/300x300/e2e8f0/64748b?text=Upload+Failed:+File%20size%20exceeds%205MB%20limit".

Definition noUserUrl : string :=
  "https://placehold.co/300x300/e2e8f0/64748b?text=Upload+Failed:+User%20ID%20is%20required%20for%20image%20upload".

Definition productImageUrl : string :=
  "https://placehold.co/300x300/e2e8f0/64748b?text=Product+Image".

End Supabase.

(** ** pages/Pos.tsx: the cart *)

Module Pos.
Import Supabase.

Record CartItem : Type := mkCartItem {
  product_id : Z;
  quantity : Z;
  price_at_sale : Q;
  cost_at_sale : Q
}.

(** The keys of the [translations] table that the handlers pass to [t];
    [no_message] is the empty message of the initial state. *)
Inductive TranslationKey : Type :=
| no_message
| sale_completed
| error_completing_sale
| insufficient_stock
| max_stock_reached.

Inductive modal_type : Type := success | error | info.

Record ModalContent : Type := mkModal {
  modal_message : TranslationKey;
  modal_kind : modal_type
}.

(** The [useState] cells of the [POS] component. *)
Record State : Type := mkState {
  user : option string;
  products : list Product;
  cart : list CartItem;
  modalOpen : bool;
  modalContent : ModalContent
}.

Definition initial (u : option string) (ps : list Product) : State :=
  mkState u ps [] false (mkModal no_message info).

Definition setCart (f : list CartItem -> list CartItem) (st : State) : State :=
  mkState (user st) (products st) (f (cart st)) (modalOpen st) (modalContent st).

Definition setProducts (ps : list Product) (st : State) : State :=
  mkState (user st) ps (cart st) (modalOpen st) (modalContent st).

(** [setModalContent({...}); setModalOpen(true)] *)
Definition showModal (m : TranslationKey) (k : modal_type) (st : State) : State :=
  mkState (user st) (products st) (cart st) true (mkModal m k).

(** [p.id === productId] *)
Definition has_id (productId : Z) (p : Product) : bool :=
  match id p with
  | Some i => i =? productId
  | None => false
  end.

(** [item.product_id === productId] *)
Definition is_line (productId : Z) (item : CartItem) : bool :=
  product_id item =? productId.

Definition with_quantity (item : CartItem) (q : Z) : CartItem :=
  mkCartItem (product_id item) q (price_at_sale item) (cost_at_sale item).

Definition handleAddToCart (productId : Z) (st : State) : State :=
  match List.find (has_id productId) (products st) with
  | None => st
  | Some product =>
    let existingItem := List.find (is_line productId) (cart st) in
    let currentQuantity :=
      match existingItem with Some e => quantity e | None => 0 end in
    if currentQuantity + 1 >? stock product then
      showModal max_stock_reached error st
    else
      setCart (fun prevCart =>
        match existingItem with
        | Some _ =>
          List.map (fun item =>
            if is_line productId item
            then with_quantity item (quantity item + 1)
            else item) prevCart
        | None =>
          prevCart ++ [mkCartItem productId 1
                         (selling_price product) (cost_price product)]
        end) st
  end.

Definition handleUpdateQuantity (productId quantity : Z) (st : State) : State :=
  if quantity <=? 0 then
    setCart (fun prevCart =>
      List.filter (fun item => negb (is_line productId item)) prevCart) st
  else
    let product := List.find (has_id productId) (products st) in
    if match product with
       | Some product => quantity >? stock product
       | None => false
       end
    then showModal insufficient_stock error st
    else
      setCart (fun prevCart =>
        List.map (fun item =>
          if is_line productId item then with_quantity item quantity
          else item) prevCart) st.

(** [cart.reduce((sum, item) => sum + (item.price_at_sale * item.quantity), 0)] *)
Definition totalAmount (c : list CartItem) : JsNumber.number :=
  fold_left (fun sum item =>
    JsNumber.jsAdd sum
      (JsNumber.jsMul (JsNumber.Finite (price_at_sale item))
         (JsNumber.ofZ (quantity item)))) c (JsNumber.Finite 0).

Definition totalCost (c : list CartItem) : JsNumber.number :=
  fold_left (fun sum item =>
    JsNumber.jsAdd sum
      (JsNumber.jsMul (JsNumber.Finite (cost_at_sale item))
         (JsNumber.ofZ (quantity item)))) c (JsNumber.Finite 0).

(** [item.product_id === product.id] *)
Definition line_of (product : Product) (item : CartItem) : bool :=
  match id product with
  | Some i => product_id item =? i
  | None => false
  end.

(** The outcome of [handleCheckout]: the component state, the backend and
    the lines written to the console by the stock loop. *)
Definition handleCheckout (f : Faults) (st : State) (db : Db CartItem)
    : State * Db CartItem * list StockLog :=
  match user st with
  | None => (st, db, [])
  | Some userId =>
    if (List.length (cart st) =? 0)%nat then (st, db, [])
    else
      let totalAmount := totalAmount (cart st) in
      let totalCost := totalCost (cart st) in
      match createSale CartItem product_id quantity f userId (cart st)
              totalAmount totalCost db with
      | (db', log, Ok _) =>
        let updatedProducts :=
          List.map (fun product =>
            match List.find (line_of product) (cart st) with
            | Some cartItem =>
              with_stock product (stock product - quantity cartItem)
            | None => product
            end) (products st) in
        (showModal sale_completed success
           (setCart (fun _ => []) (setProducts updatedProducts st)),
         db', log)
      | (db', log, Err _) =>
        (showModal error_completing_sale error st, db', log)
      end
  end.

(** *** The cart as a state machine

    The two cart operations as actions, a run of actions, and the
    invariant of a cart line in the data model: the line belongs to a
    product of the catalog, and its quantity is at least 1 and at most the
    stock of that product. *)

Inductive Action : Type :=
| addProduct (productId : Z)
| setQuantity (productId quantity : Z).

Definition step (st : State) (a : Action) : State :=
  match a with
  | addProduct productId => handleAddToCart productId st
  | setQuantity productId q => handleUpdateQuantity productId q st
  end.

Definition run (actions : list Action) (st : State) : State :=
  fold_left step actions st.

Definition line_ok (ps : list Product) (l : CartItem) : Prop :=
  exists P, List.find (has_id (product_id l)) ps = Some P /\
            1 <= quantity l <= stock P.

Definition cart_ok (ps : list Product) (c : list CartItem) : Prop :=
  List.NoDup (List.map product_id c) /\ Forall (line_ok ps) c.

(** The specification's words: the sum over the cart lines of
    quantity x [value], for [value] the price or the cost of the line. *)
Fixpoint sum_over (value : CartItem -> Q) (c : list CartItem) : Q :=
  match c with
  | [] => 0%Q
  | item :: rest =>
    (inject_Z (quantity item) * value item + sum_over value rest)%Q
  end.

(** The sum over the cart lines of |quantity| x |[value]|, for a [value]
    in whole numbers: a bound on every partial sum of a total. *)
Fixpoint gross (value : CartItem -> Q) (c : list CartItem) : Z :=
  match c with
  | [] => 0
  | item :: rest =>
    Z.abs (quantity item) * Z.abs (Qfloor (value item)) + gross value rest
  end.

(** The sum over the cart lines of quantity x [value], for a [value] in
    whole numbers. *)
Fixpoint wholeSum (value : CartItem -> Q) (c : list CartItem) : Z :=
  match c with
  | [] => 0
  | item :: rest =>
    quantity item * Qfloor (value item) + wholeSum value rest
  end.

(** The [value]s of the cart lines are whole numbers and the amounts stay
    below [2^53] taken together: every product and every partial sum of
    the total is then a binary64 value. *)
Definition exact_amounts (value : CartItem -> Q) (c : list CartItem)
    : Prop :=
  Forall (fun item => JsNumber.whole (value item)) c /\
  gross value c < 2 ^ 53.

(** The quantity a cart holds of a product: the sum over its lines. *)
Definition cartQuantity (c : list CartItem) (p : Product) : Z :=
  fold_right Z.add 0 (List.map quantity (List.filter (line_of p) c)).

(** [new] is [old] with the quantity [q] when [old] is a line of
    [productId], and [old] itself otherwise. *)
Definition requantified (productId q : Z) (old new : CartItem) : Prop :=
  if is_line productId old then
    product_id new = product_id old /\ quantity new = q /\
    price_at_sale new = price_at_sale old /\
    cost_at_sale new = cost_at_sale old
  else new = old.

(** [new] is [old] with one unit more when [old] is a line of
    [productId], and [old] itself otherwise. *)
Definition incremented (productId : Z) (old new : CartItem) : Prop :=
  if is_line productId old then
    product_id new = product_id old /\ quantity new = quantity old + 1 /\
    price_at_sale new = price_at_sale old /\
    cost_at_sale new = cost_at_sale old
  else new = old.

(** The cart of the specification's checkout example, and a catalog with
    its two products. *)
Definition example_cart : list CartItem :=
  [mkCartItem 1 2 (10 # 1) (6 # 1); mkCartItem 2 1 (5 # 1) (3 # 1)].

Definition example_products (stock1 stock2 : Z) : list Product :=
  [mkProduct (Some 1) "A" EmptyString (10 # 1) (6 # 1) stock1 5 (Some 0);
   mkProduct (Some 2) "B" EmptyString (5 # 1) (3 # 1) stock2 5 (Some 0)].

(** The [map] of both handlers: the lines of [productId] get the quantity
    [f item]. *)
Definition requantify (productId : Z) (f : CartItem -> Z) (c : list CartItem)
    : list CartItem :=
  List.map (fun item =>
    if is_line productId item then with_quantity item (f item) else item) c.

End Pos.

(** ** components/ui/Cart.tsx *)

Module Cart.
Import Pos.

(** [const total = useMemo(() => cart.reduce(...), [cart])] *)
Definition total (cart : list CartItem) : JsNumber.number :=
  fold_left (fun sum item =>
    JsNumber.jsAdd sum
      (JsNumber.jsMul (JsNumber.Finite (price_at_sale item))
         (JsNumber.ofZ (quantity item)))) cart (JsNumber.Finite 0).

End Cart.

(** ** components/ui/ProductForm.tsx *)

Module ProductForm.
Import Supabase.

(** The form fields, the numeric ones as [parseFloat] and [parseInt] read
    them. *)
Record FormData : Type := mkFormData {
  fd_name : string;
  fd_selling_price : Q;
  fd_cost_price : Q;
  fd_stock : Z;
  fd_low_stock_threshold : Z;
  fd_image_url : string
}.

Inductive FormError : Type :=
| error_image_upload
| error_permission
| error_general (detail : string).

(** What [handleSubmit] leaves behind: [formError] and the product passed
    to [onSubmit]. *)
Record Outcome : Type := mkOutcome {
  formError : option FormError;
  submitted : option Product
}.

Section HandleSubmit.

(** The two backend writes, as functions of their arguments. *)
Variable createProduct : Product -> string -> result JsError Product.
Variable updateProduct : option Z -> Product -> result JsError Product.

Definition productData (product : option Product) (formData : FormData)
    (imageUrl : string) : Product :=
  mkProduct
    (match product with Some p => id p | None => None end)
    (fd_name formData)
    imageUrl
    (fd_selling_price formData)
    (fd_cost_price formData)
    (fd_stock formData)
    (fd_low_stock_threshold formData)
    (match product with Some p => created_at p | None => None end).

Definition save (userId : string) (product : option Product)
    (data : Product) : Outcome :=
  let saved :=
    match product with
    | Some p => updateProduct (id p) data
    | None => createProduct data userId
    end in
  match saved with
  | Ok p => mkOutcome None (Some p)
  | Err e =>
    if includes (message e) "permission" || String.eqb (code e) "42501"
    then mkOutcome (Some error_permission) None
    else mkOutcome (Some (error_general (message e))) None
  end.

(** [valid] is the result of [validate()]. *)
Definition handleSubmit (valid : bool) (user : option string)
    (product : option Product) (formData : FormData)
    (imageFile : option File) (reply : StorageReply) : Outcome :=
  match user with
  | Some userId =>
    if negb valid then mkOutcome None None
    else
      match imageFile with
      | Some file =>
        let imageUrl := uploadProductImage userId file reply in
        if falsy imageUrl || includes imageUrl "placeholder" then
          mkOutcome (Some error_image_upload) None
        else save userId product (productData product formData imageUrl)
      | None =>
        save userId product
          (productData product formData (fd_image_url formData))
      end
  | None => mkOutcome None None
  end.

End HandleSubmit.

End ProductForm.

(** ** pages/Inventory.tsx: the product filter *)

Module Inventory.
Import Supabase.

Inductive FilterType : Type := all | low_stock | new.

(** [new Date(a.created_at || '').getTime()]: [None] is [NaN]. *)
Definition getTime (p : Product) : option Z := created_at p.

(** [Array.prototype.sort] for a comparator that returns a number for
    every pair of elements and orders them consistently, as the difference
    of two numeric keys does: the sort is stable, an element stays in front
    of those it compares at most [0] with.  For a comparator that returns
    [NaN] the order is implementation-defined, and this definition does not
    apply (see [sortByDate]). *)
Section Sort.
Variable A : Type.
Variable comparefn : A -> A -> Z.

Fixpoint sort_insert (x : A) (l : list A) : list A :=
  match l with
  | [] => [x]
  | y :: rest =>
    if comparefn x y <=? 0 then x :: y :: rest
    else y :: sort_insert x rest
  end.

Definition sort (l : list A) : list A := fold_right sort_insert [] l.

End Sort.
Arguments sort {A} comparefn l.
Arguments sort_insert {A} comparefn x l.

(** The products with the numbers that [getTime] gives for them, when it
    gives a number for each. *)
Fixpoint timed (l : list Product) : option (list (Z * Product)) :=
  match l with
  | [] => Some []
  | p :: rest =>
    match getTime p, timed rest with
    | Some t, Some l' => Some ((t, p) :: l')
    | _, _ => None
    end
  end.

(** [[...allProducts].sort((a, b) => dateB - dateA)].  When every product
    has a creation time the comparator is the difference of two numbers
    and the result is the stable sort by descending time.  When a product
    has none the comparator returns [NaN] for it, it is not a consistent
    comparator, and the order is implementation-defined: [engine] stands
    for what the engine makes of the array then. *)
Definition sortByDate (engine : list Product -> list Product)
    (allProducts : list Product) : list Product :=
  match timed allProducts with
  | Some l => List.map snd (sort (fun a b => fst b - fst a) l)
  | None => engine allProducts
  end.

(** The product carries its creation time. *)
Definition dated (p : Product) : Prop := created_at p <> None.

(** [a] was created at the time of [b] or later. *)
Definition newer_or_same (a b : Product) : Prop :=
  exists ta tb, created_at a = Some ta /\ created_at b = Some tb /\ tb <= ta.

(** [Math.max(Math.ceil(sortedByDate.length * 0.2), 5)], with 0.2 as the
    exact fraction 2/10: for the length of an array the rounded product has
    the same ceiling. *)
Definition newCount (n : nat) : Z :=
  Z.max (Qceiling (inject_Z (Z.of_nat n) * (2 # 10))) 5.

(** [arr.slice(0, count)] *)
Definition slice0 {A : Type} (count : Z) (l : list A) : list A :=
  firstn (Z.to_nat count) l.

(** The effect run on [filterType] and [allProducts]; the result is the new
    value of [products]. *)
Definition applyFilter (engine : list Product -> list Product)
    (filterType : FilterType) (allProducts products : list Product)
    : list Product :=
  if (List.length allProducts =? 0)%nat then products
  else
    match filterType with
    | low_stock =>
      List.filter (fun p => stock p <=? low_stock_threshold p) allProducts
    | new =>
      let sortedByDate := sortByDate engine allProducts in
      slice0 (newCount (List.length sortedByDate)) sortedByDate
    | all => allProducts
    end.

End Inventory.

(** ** The [Date] object

    Time values are milliseconds since the epoch; the functions are those
    of the ECMAScript specification (sections Time Values and Time Range to
    MakeDate).  The time zone is given by its offset [LocalTZA t isUTC]:
    for [isUTC = true] the offset of local time from UTC in effect at the
    time value [t]; for [isUTC = false] the offset for the local time value
    [t], which is the offset before the change for a local time that a
    change of the offset skips or repeats.  The range limit of [TimeClip]
    is outside the model. *)

Module JsDate.

Definition msPerDay : Z := 86400000.

Definition Day (t : Z) : Z := t / msPerDay.
Definition TimeWithinDay (t : Z) : Z := t mod msPerDay.

Definition DaysInYear (y : Z) : Z :=
  if negb (y mod 4 =? 0) then 365
  else if negb (y mod 100 =? 0) then 366
  else if negb (y mod 400 =? 0) then 365
  else 366.

Definition DayFromYear (y : Z) : Z :=
  365 * (y - 1970) + (y - 1969) / 4 - (y - 1901) / 100 + (y - 1601) / 400.

(** The largest [y] with [DayFromYear y <= Day t]: the estimate from the
    mean length of a year is corrected by at most one. *)
Definition YearFromTime (t : Z) : Z :=
  let d := Day t in
  let y := 1970 + (400 * d) / 146097 in
  if d <? DayFromYear y then y - 1
  else if DayFromYear (y + 1) <=? d then y + 1
  else y.

(** [InLeapYear], as a number of days. *)
Definition leapDays (y : Z) : Z := DaysInYear y - 365.

Definition DayWithinYear (t : Z) : Z := Day t - DayFromYear (YearFromTime t).

(** The number of days of the year before month [m] (0 = January). *)
Definition daysBeforeMonth (leap m : Z) : Z :=
  match m with
  | 0 => 0
  | 1 => 31
  | 2 => 59 + leap
  | 3 => 90 + leap
  | 4 => 120 + leap
  | 5 => 151 + leap
  | 6 => 181 + leap
  | 7 => 212 + leap
  | 8 => 243 + leap
  | 9 => 273 + leap
  | 10 => 304 + leap
  | _ => 334 + leap
  end.

Definition MonthFromTime (t : Z) : Z :=
  let d := DayWithinYear t in
  let leap := leapDays (YearFromTime t) in
  if d <? 31 then 0
  else if d <? 59 + leap then 1
  else if d <? 90 + leap then 2
  else if d <? 120 + leap then 3
  else if d <? 151 + leap then 4
  else if d <? 181 + leap then 5
  else if d <? 212 + leap then 6
  else if d <? 243 + leap then 7
  else if d <? 273 + leap then 8
  else if d <? 304 + leap then 9
  else if d <? 334 + leap then 10
  else 11.

Definition DateFromTime (t : Z) : Z :=
  DayWithinYear t
  - daysBeforeMonth (leapDays (YearFromTime t)) (MonthFromTime t) + 1.

Definition WeekDay (t : Z) : Z := (Day t + 4) mod 7.

Definition MakeTime (hour min sec ms : Z) : Z :=
  hour * 3600000 + min * 60000 + sec * 1000 + ms.

Definition MakeDay (year month date : Z) : Z :=
  let ym := year + month / 12 in
  let mn := month mod 12 in
  DayFromYear ym + daysBeforeMonth (leapDays ym) mn + date - 1.

Definition MakeDate (day time : Z) : Z := day * msPerDay + time.

(** The time value of the midnight that starts the local day of [t], for
    the local offset [tza]. *)
Definition midnight (tza t : Z) : Z := Day (t + tza) * msPerDay - tza.

(** A time zone without daylight saving: the same offset at all times. *)
Definition fixed (tza : Z) : Z -> bool -> Z := fun _ _ => tza.

Section LocalTime.

Variable LocalTZA : Z -> bool -> Z.

Definition LocalTime (t : Z) : Z := t + LocalTZA t true.
Definition UTC (t : Z) : Z := t - LocalTZA t false.

(** The time values at which the local day number [d] starts and at which
    its last millisecond starts. *)
Definition startOfDay (d : Z) : Z := UTC (d * msPerDay).
Definition endOfDay (d : Z) : Z := UTC (d * msPerDay + (msPerDay - 1)).

(** No change of the offset skips the midnight that starts a local day:
    the time value of that midnight reads as that midnight. *)
Definition keeps_midnights : Prop :=
  forall d, LocalTime (startOfDay d) = d * msPerDay.

(** The local days follow one another: a day starts before its last
    millisecond, which comes before the start of the next day. *)
Definition days_in_order : Prop :=
  forall d, startOfDay d <= endOfDay d < startOfDay (d + 1).

(** [new Date(year, month, date, hours, minutes, seconds, ms)]; a year from
    0 to 99 stands for 1900 + year. *)
Definition newDate (year month date hours minutes seconds ms : Z) : Z :=
  let yr := if (0 <=? year) && (year <=? 99) then 1900 + year else year in
  UTC (MakeDate (MakeDay yr month date) (MakeTime hours minutes seconds ms)).

Definition getFullYear (t : Z) : Z := YearFromTime (LocalTime t).
Definition getMonth (t : Z) : Z := MonthFromTime (LocalTime t).
Definition getDate (t : Z) : Z := DateFromTime (LocalTime t).
Definition getDay (t : Z) : Z := WeekDay (LocalTime t).

Definition setDate (t date : Z) : Z :=
  let lt := LocalTime t in
  UTC (MakeDate (MakeDay (YearFromTime lt) (MonthFromTime lt) date)
         (TimeWithinDay lt)).

Definition setHours (t hour min sec ms : Z) : Z :=
  UTC (MakeDate (Day (LocalTime t)) (MakeTime hour min sec ms)).

End LocalTime.

End JsDate.

(** ** The finance report: period filter and financial metrics *)

Module Finance.
Import JsDate.

Record SaleItem : Type := mkSaleItem {
  item_id : Z;
  product_id : Z;
  quantity : Z;
  price_at_sale : Q;
  cost_at_sale : Q
}.

(** [created_at] is the time value of [new Date(sale.created_at)];
    [None] is an invalid date. *)
Record Sale : Type := mkSale {
  id : Z;
  total_amount : Q;
  total_cost : Q;
  created_at : option Z;
  sale_items : list SaleItem
}.

(** The values of [selectedPeriod]; [other] is any string that is not an
    option of the selector. *)
Inductive Period : Type :=
| today
| yesterday
| this_week
| last_week
| this_month
| last_month
| other.

Section Report.

Variable LocalTZA : Z -> bool -> Z.

(** [now] is the value of [new Date()].  The result is [(start, end)]. *)
Definition getDateRange (now : Z) (period : Period) : Z * Z :=
  let today :=
    newDate LocalTZA (getFullYear LocalTZA now) (getMonth LocalTZA now)
      (getDate LocalTZA now) 0 0 0 0 in
  let yesterday := setDate LocalTZA today (getDate LocalTZA today - 1) in
  match period with
  | Finance.today => (today, now)
  | Finance.yesterday =>
    let endOfYesterday := setHours LocalTZA yesterday 23 59 59 999 in
    (yesterday, endOfYesterday)
  | this_week =>
    let startOfWeek :=
      setDate LocalTZA today
        (getDate LocalTZA today - getDay LocalTZA today) in
    (startOfWeek, now)
  | last_week =>
    let startOfLastWeek :=
      setDate LocalTZA today
        (getDate LocalTZA today - getDay LocalTZA today - 7) in
    let endOfLastWeek :=
      setDate LocalTZA startOfLastWeek
        (getDate LocalTZA startOfLastWeek + 6) in
    let endOfLastWeek := setHours LocalTZA endOfLastWeek 23 59 59 999 in
    (startOfLastWeek, endOfLastWeek)
  | this_month =>
    let startOfMonth :=
      newDate LocalTZA (getFullYear LocalTZA today)
        (getMonth LocalTZA today) 1 0 0 0 0 in
    (startOfMonth, now)
  | last_month =>
    let startOfLastMonth :=
      newDate LocalTZA (getFullYear LocalTZA today)
        (getMonth LocalTZA today - 1) 1 0 0 0 0 in
    let endOfLastMonth :=
      newDate LocalTZA (getFullYear LocalTZA today)
        (getMonth LocalTZA today) 0 23 59 59 999 in
    (startOfLastMonth, endOfLastMonth)
  | other => (today, now)
  end.

(** [saleDate >= start && saleDate <= end]; a comparison with an invalid
    date is false. *)
Definition inRange (range : Z * Z) (sale : Sale) : bool :=
  match created_at sale with
  | Some saleDate => (fst range <=? saleDate) && (saleDate <=? snd range)
  | None => false
  end.

Definition filteredSales (now : Z) (selectedPeriod : Period)
    (sales : list Sale) : list Sale :=
  List.filter (inRange (getDateRange now selectedPeriod)) sales.

End Report.

(** The sum over the sales of [value], in the specification's words. *)
Fixpoint sum_sales (value : Sale -> Q) (sales : list Sale) : Q :=
  match sales with
  | [] => 0%Q
  | sale :: rest => (value sale + sum_sales value rest)%Q
  end.

Record Metrics : Type := mkMetrics {
  totalRevenue : Q;
  totalCost : Q;
  totalProfit : Q;
  profitMargin : Q
}.

(** [x > 0] *)
Definition positive (x : Q) : bool := negb (Qle_bool x 0).

Definition financialMetrics (filteredSales : list Sale) : Metrics :=
  let totalRevenue :=
    fold_left (fun sum sale => (sum + total_amount sale)%Q)
      filteredSales 0%Q in
  let totalCost :=
    fold_left (fun sum sale => (sum + total_cost sale)%Q)
      filteredSales 0%Q in
  let totalProfit := (totalRevenue - totalCost)%Q in
  let profitMargin :=
    if positive totalRevenue
    then (totalProfit / totalRevenue * inject_Z 100)%Q
    else 0%Q in
  mkMetrics totalRevenue totalCost totalProfit profitMargin.

End Finance.

(** ** A session at the register

    The events of the POS page in the order they happen: a cart operation,
    or a checkout with the answers the backend gives to its requests.  A
    catalog is keyed when looking up the identifier of one of its products
    finds that product. *)

Module Session.
Import Supabase Pos.

Inductive Event : Type :=
| cartAction (a : Action)
| checkout (f : Faults).

Definition play1 (s : State * Db CartItem) (e : Event) : State * Db CartItem :=
  match e with
  | cartAction a => (step (fst s) a, snd s)
  | checkout f => fst (handleCheckout f (fst s) (snd s))
  end.

Definition play (events : list Event) (s : State * Db CartItem)
    : State * Db CartItem :=
  fold_left play1 events s.

Definition keyed (ps : list Product) : Prop :=
  forall p i, In p ps -> id p = Some i ->
    List.find (has_id i) ps = Some p.

Definition in_stock (ps : list Product) : Prop :=
  Forall (fun p => 0 <= stock p) ps.

(** The cache and the backend show the same stock for every product. *)
Definition agree (ps : list Product) (tbl : gmap Z Z) : Prop :=
  forall p i, In p ps -> id p = Some i -> tbl !! i = Some (stock p).

(** What the stock update of [handleCheckout] makes of one product. *)
Definition upd (c : list CartItem) (product : Product) : Product :=
  match List.find (line_of product) c with
  | Some cartItem => with_stock product (stock product - quantity cartItem)
  | None => product
  end.

(** The invariant of the page during a session. *)
Definition inv (st : State) : Prop :=
  keyed (products st) /\ in_stock (products st) /\
  cart_ok (products st) (cart st).

Definition no_loop_faults (f : Faults) : Prop :=
  (forall k, product_fetch_fails f k = false) /\
  (forall k, stock_update_fails f k = false).

End Session.

(** ** lib/supabase.ts: [deleteSales] *)

Module SalesHistory.
Import Supabase.

(** Which of the three requests of [deleteSales] the backend answers with
    an error. *)
Record DeleteFaults : Type := mkDeleteFaults {
  sales_fetch_fails : bool;
  items_delete_fails : bool;
  sales_delete_fails : bool
}.

Definition no_delete_faults : DeleteFaults :=
  mkDeleteFaults false false false.

Inductive DeleteError : Type := fetchError | itemsDeleteError | salesDeleteError.

(** [ids.includes(i)], as the filter [.in(column, ids)] uses it. *)
Definition among (ids : list Z) (i : Z) : bool := existsb (Z.eqb i) ids.

(** [.eq('user_id', userId)] *)
Definition of_user (userId : string) (s : SaleRow) : bool :=
  String.eqb (sale_user_id s) userId.

Section DeleteSales.

Variable Item : Type.

Definition deleteSales (f : DeleteFaults) (userId : string) (db : Db Item)
    : Db Item * result DeleteError bool :=
  if sales_fetch_fails f then (db, Err fetchError)
  else
    let sales :=
      List.filter (fun s => String.eqb (sale_user_id s) userId) (sales db) in
    if (List.length sales =? 0)%nat then (db, Ok true)
    else
      let saleIds := List.map sale_id sales in
      if items_delete_fails f then (db, Err itemsDeleteError)
      else
        let db1 :=
          mkDb (Supabase.sales db)
            (List.filter (fun row => negb (among saleIds (snd row)))
               (sale_items db))
            (product_stock db) (sale_seq db) in
        if sales_delete_fails f then (db1, Err salesDeleteError)
        else
          (mkDb
             (List.filter (fun s => negb (among saleIds (sale_id s)))
                (Supabase.sales db1))
             (sale_items db1) (product_stock db1) (sale_seq db1),
           Ok true).

(** Every item row belongs to a sale of the table. *)
Definition items_have_sales (db : Db Item) : Prop :=
  forall row, In row (sale_items db) ->
    In (snd row) (List.map sale_id (Supabase.sales db)).

End DeleteSales.
Arguments deleteSales {Item} f userId db.
Arguments items_have_sales {Item} db.

End SalesHistory.

(** ** pages/Reports.tsx: the sales history *)

Module Reports.
Import Supabase SalesHistory.

Definition salesPerPage : Z := 10.

(** [arr.slice(start, end)] *)
Definition slice {A : Type} (start end_ : Z) (l : list A) : list A :=
  let len := Z.of_nat (List.length l) in
  let k := if start <? 0 then Z.max (len + start) 0 else Z.min start len in
  let final := if end_ <? 0 then Z.max (len + end_) 0 else Z.min end_ len in
  firstn (Z.to_nat (Z.max (final - k) 0)) (skipn (Z.to_nat k) l).

Inductive Notice : Type :=
| history_cleared
| failure (e : DeleteError).

(** The [useState] cells of the [Reports] component that its handlers
    write. *)
Record State : Type := mkState {
  sales : list Finance.Sale;
  currentPage : Z;
  clearHistoryModalOpen : bool;
  clearingHistory : bool;
  modalOpen : bool;
  modalContent : option Notice
}.

Definition currentSales (st : State) : list Finance.Sale :=
  let indexOfLastSale := currentPage st * salesPerPage in
  let indexOfFirstSale := indexOfLastSale - salesPerPage in
  slice indexOfFirstSale indexOfLastSale (sales st).

(** [Math.ceil(sales.length / salesPerPage)] *)
Definition totalPages (st : State) : Z :=
  Qceiling (inject_Z (Z.of_nat (List.length (sales st)))
            / inject_Z salesPerPage).

Definition setCurrentPage (f : Z -> Z) (st : State) : State :=
  mkState (sales st) (f (currentPage st)) (clearHistoryModalOpen st)
    (clearingHistory st) (modalOpen st) (modalContent st).

(** The buttons "previous" and "next". *)
Definition prevPage (st : State) : State :=
  setCurrentPage (fun p => Z.max 1 (p - 1)) st.

Definition nextPage (st : State) : State :=
  setCurrentPage (fun p => Z.min (totalPages st) (p + 1)) st.

(** The page with [p] as its current page. *)
Definition at_page (st : State) (p : Z) : State :=
  setCurrentPage (fun _ => p) st.

(** The elements number [10 i] to [10 i + 9] of a list. *)
Definition chunk {A : Type} (l : list A) (i : nat) : list A :=
  firstn 10 (skipn (10 * i) l).

Definition handleClearHistory {Item : Type} (user : option string)
    (f : DeleteFaults) (st : State) (db : Db Item) : State * Db Item :=
  match user with
  | None => (st, db)
  | Some userId =>
    match deleteSales f userId db with
    | (db', Ok _) =>
      (mkState [] (currentPage st) false false true (Some history_cleared),
       db')
    | (db', Err e) =>
      (mkState (sales st) (currentPage st) false false true
         (Some (failure e)), db')
    end
  end.

End Reports.

(** ** pages/Inventory.tsx: the page and its handlers *)

Module InventoryPage.
Import Supabase Inventory.

Inductive NotificationKey : Type := delete_success | delete_error.

(** The [useState] cells of the [Inventory] component. *)
Record State : Type := mkState {
  products : list Product;
  allProducts : list Product;
  isFormOpen : bool;
  editingProduct : option Product;
  notification : option NotificationKey;
  filterType : FilterType
}.

(** [p.id === q.id] for two optional identifiers. *)
Definition same_id (i j : option Z) : bool :=
  match i, j with
  | Some a, Some b => a =? b
  | None, None => true
  | _, _ => false
  end.

Definition filter_eqb (a b : FilterType) : bool :=
  match a, b with
  | all, all | low_stock, low_stock | new, new => true
  | _, _ => false
  end.

(** A click on a filter button: [setFilterType], then the effect on
    [filterType] when its value has changed. *)
Definition selectFilter (engine : list Product -> list Product)
    (ft : FilterType) (st : State) : State :=
  if filter_eqb ft (filterType st) then st
  else
    mkState (applyFilter engine ft (allProducts st) (products st))
      (allProducts st)
      (isFormOpen st) (editingProduct st) (notification st) ft.

(** [getProfitMargin] *)
Definition getProfitMargin (p : Product) : Q :=
  if Finance.positive (selling_price p)
  then ((selling_price p - cost_price p) / selling_price p * inject_Z 100)%Q
  else 0%Q.

Definition handleEdit (product : Product) (st : State) : State :=
  mkState (products st) (allProducts st) true (Some product)
    (notification st) (filterType st).

Definition handleFormClose (st : State) : State :=
  mkState (products st) (allProducts st) false None (notification st)
    (filterType st).

(** [confirmed] is the answer to [window.confirm], [deleted] the outcome
    of [deleteProduct].  The timer that clears the notification is not
    part of the model. *)
Definition handleDelete (confirmed : bool) (deleted : result JsError bool)
    (productId : Z) (st : State) : State :=
  if confirmed then
    match deleted with
    | Ok _ =>
      mkState
        (List.filter (fun p => negb (same_id (id p) (Some productId)))
           (products st))
        (allProducts st) (isFormOpen st) (editingProduct st)
        (Some delete_success) (filterType st)
    | Err _ =>
      mkState (products st) (allProducts st) (isFormOpen st)
        (editingProduct st) (Some delete_error) (filterType st)
    end
  else st.

Definition handleProductSubmit (newProduct : Product) (st : State) : State :=
  match editingProduct st with
  | Some _ =>
    mkState
      (List.map (fun p => if same_id (id p) (id newProduct) then newProduct
                          else p) (products st))
      (allProducts st) false None (notification st) (filterType st)
  | None =>
    mkState (newProduct :: products st) (allProducts st) false None
      (notification st) (filterType st)
  end.

End InventoryPage.

(** ** Objects with numbers as property keys

    The entries of the object in the order in which the properties were
    created.  [Object.values] lists first the properties whose key is an
    array index (an integer from 0 to 2^32 - 2) by ascending key, then the
    other properties in the order of their creation. *)

Module JsObject.

Definition t (V : Type) : Type := list (Z * V).

Fixpoint get {V : Type} (k : Z) (o : t V) : option V :=
  match o with
  | [] => None
  | (k', v) :: rest => if k' =? k then Some v else get k rest
  end.

(** [o[k] = v]: an existing property keeps its place. *)
Fixpoint set {V : Type} (k : Z) (v : V) (o : t V) : t V :=
  match o with
  | [] => [(k, v)]
  | (k', v') :: rest =>
    if k' =? k then (k, v) :: rest else (k', v') :: set k v rest
  end.

Definition isArrayIndex (k : Z) : bool := (0 <=? k) && (k <=? 4294967294).

Definition byKey {V : Type} (a b : Z * V) : Z := fst a - fst b.

Definition ownProperties {V : Type} (o : t V) : t V :=
  Inventory.sort byKey (List.filter (fun e => isArrayIndex (fst e)) o) ++
  List.filter (fun e => negb (isArrayIndex (fst e))) o.

Definition values {V : Type} (o : t V) : list V :=
  List.map snd (ownProperties o).

End JsObject.

(** ** The finance report: the best-selling products *)

Module TopSelling.
Import Supabase.

(** An entry of [productSales]. *)
Record ProductSales : Type := mkProductSales {
  productId : Z;
  quantity : Z;
  revenue : JsNumber.number;
  profit : JsNumber.number
}.

(** An entry of the result: the aggregate and the name to show. *)
Record TopProduct : Type := mkTopProduct {
  sales_of : ProductSales;
  shown_name : string
}.

(** The label of a product that is no longer in the catalog. *)
Definition deletedProduct : string := "منتج محذوف".

(** [productsMap]: the catalog as an object keyed by identifier; a later
    product replaces an earlier one with the same identifier. *)
Definition productsMap (productsData : list Product) : gmap Z Product :=
  fold_left (fun m product =>
    match id product with
    | Some i => <[i := product]> m
    | None => m
    end) productsData ∅.

(** The body of the inner [forEach]. *)
Definition addItem (productSales : JsObject.t ProductSales)
    (item : Finance.SaleItem) : JsObject.t ProductSales :=
  let pid := Finance.product_id item in
  let productSales :=
    match JsObject.get pid productSales with
    | None =>
      JsObject.set pid
        (mkProductSales pid 0 (JsNumber.Finite 0) (JsNumber.Finite 0))
        productSales
    | Some _ => productSales
    end in
  let revenue :=
    JsNumber.jsMul (JsNumber.ofZ (Finance.quantity item))
      (JsNumber.Finite (Finance.price_at_sale item)) in
  let cost :=
    JsNumber.jsMul (JsNumber.ofZ (Finance.quantity item))
      (JsNumber.Finite (Finance.cost_at_sale item)) in
  match JsObject.get pid productSales with
  | Some e =>
    JsObject.set pid
      (mkProductSales (productId e) (quantity e + Finance.quantity item)
         (JsNumber.jsAdd (TopSelling.revenue e) revenue)
         (JsNumber.jsAdd (profit e) (JsNumber.jsSub revenue cost)))
      productSales
  | None => productSales
  end.

Definition aggregate (filteredSales : list Finance.Sale)
    : JsObject.t ProductSales :=
  fold_left (fun productSales sale =>
    fold_left addItem (Finance.sale_items sale) productSales)
    filteredSales [].

(** The comparator [(a, b) => b.quantity - a.quantity]. *)
Definition byQuantityDesc (a b : ProductSales) : Z :=
  quantity b - quantity a.

Definition nameOf (products : gmap Z Product) (product : ProductSales)
    : string :=
  match products !! productId product with
  | Some p => if falsy (name p) then deletedProduct else name p
  | None => deletedProduct
  end.

Definition topSellingProducts (products : gmap Z Product)
    (filteredSales : list Finance.Sale) : list TopProduct :=
  if (List.length filteredSales =? 0)%nat then []
  else
    let productSales := aggregate filteredSales in
    List.map (fun product => mkTopProduct product (nameOf products product))
      (Inventory.slice0 5
         (Inventory.sort byQuantityDesc (JsObject.values productSales))).

(** In the words of the specification: the items sold in the period, and
    the sums over those of one product. *)
Definition itemsSold (filteredSales : list Finance.Sale)
    : list Finance.SaleItem :=
  List.flat_map Finance.sale_items filteredSales.

Definition ofProduct (pid : Z) (item : Finance.SaleItem) : bool :=
  Finance.product_id item =? pid.

Fixpoint unitsSold (pid : Z) (items : list Finance.SaleItem) : Z :=
  match items with
  | [] => 0
  | item :: rest =>
    (if ofProduct pid item then Finance.quantity item else 0)
    + unitsSold pid rest
  end.

Fixpoint amountSold (value : Finance.SaleItem -> Q) (pid : Z)
    (items : list Finance.SaleItem) : Q :=
  match items with
  | [] => 0%Q
  | item :: rest =>
    ((if ofProduct pid item
      then inject_Z (Finance.quantity item) * value item else 0)
     + amountSold value pid rest)%Q
  end.

(** What [productSales] satisfies throughout the aggregation: no key
    twice, and the entry under a key carries that key as [productId]. *)
Definition wf (o : JsObject.t ProductSales) : Prop :=
  List.NoDup (List.map fst o) /\
  forall k e, JsObject.get k o = Some e -> productId e = k.

(** The entry of the product [k], as the loop body reads it after the
    initialisation of a missing entry. *)
Definition entry (o : JsObject.t ProductSales) (k : Z) : ProductSales :=
  match JsObject.get k o with
  | Some e => e
  | None => mkProductSales k 0 (JsNumber.Finite 0) (JsNumber.Finite 0)
  end.

(** The revenue and the margin of one item, as the loop body computes
    them. *)
Definition itemRevenue (item : Finance.SaleItem) : JsNumber.number :=
  JsNumber.jsMul (JsNumber.ofZ (Finance.quantity item))
    (JsNumber.Finite (Finance.price_at_sale item)).

Definition itemCost (item : Finance.SaleItem) : JsNumber.number :=
  JsNumber.jsMul (JsNumber.ofZ (Finance.quantity item))
    (JsNumber.Finite (Finance.cost_at_sale item)).

Definition itemProfit (item : Finance.SaleItem) : JsNumber.number :=
  JsNumber.jsSub (itemRevenue item) (itemCost item).

(** The three [+=] of the loop body on one entry. *)
Definition added (e : ProductSales) (item : Finance.SaleItem)
    : ProductSales :=
  mkProductSales (productId e) (quantity e + Finance.quantity item)
    (JsNumber.jsAdd (revenue e) (itemRevenue item))
    (JsNumber.jsAdd (profit e) (itemProfit item)).

(** The binary64 sum, from [acc] on and in the order of the list, of what
    [amount] gives for the items of the product [pid]. *)
Definition runningSum (amount : Finance.SaleItem -> JsNumber.number)
    (pid : Z) (items : list Finance.SaleItem) (acc : JsNumber.number)
    : JsNumber.number :=
  fold_left (fun sum item =>
    if ofProduct pid item then JsNumber.jsAdd sum (amount item) else sum)
    items acc.

(** The prices and the costs of the items are whole numbers, and the
    amounts stay below [2^53] taken together: every product, difference
    and partial sum of the aggregation is then a binary64 value. *)
Definition wholePrices (items : list Finance.SaleItem) : Prop :=
  Forall (fun item =>
    JsNumber.whole (Finance.price_at_sale item) /\
    JsNumber.whole (Finance.cost_at_sale item)) items.

Fixpoint grossSold (items : list Finance.SaleItem) : Z :=
  match items with
  | [] => 0
  | item :: rest =>
    Z.abs (Finance.quantity item)
    * (Z.abs (Qfloor (Finance.price_at_sale item))
       + Z.abs (Qfloor (Finance.cost_at_sale item)))
    + grossSold rest
  end.

End TopSelling.

(** ** The cart summary of the small-screen layout

    The cart lines grouped by product, and the three controls of a tile.
    The handlers of a tile close over the group [g] of the render that
    shows it; a group without a product is not rendered and has no
    control. *)

Module MobileCart.
Import Supabase.

Record Group : Type := mkGroup {
  product_id : Z;
  quantity : Z;
  price_at_sale : Q;
  product : option Product
}.

(** The callback of [cart.reduce]. *)
Definition groupItem (products : list Product) (acc : JsObject.t Group)
    (item : Pos.CartItem) : JsObject.t Group :=
  match List.find (Pos.has_id (Pos.product_id item)) products with
  | None => acc
  | Some product =>
    match JsObject.get (Pos.product_id item) acc with
    | Some g =>
      JsObject.set (Pos.product_id item)
        (mkGroup (product_id g) (quantity g + Pos.quantity item)
           (price_at_sale g) (MobileCart.product g)) acc
    | None =>
      JsObject.set (Pos.product_id item)
        (mkGroup (Pos.product_id item) (Pos.quantity item)
           (Pos.price_at_sale item) (Some product)) acc
    end
  end.

Definition groups (st : Pos.State) : list Group :=
  JsObject.values
    (fold_left (groupItem (Pos.products st)) (Pos.cart st) []).

(** The button [-]. *)
Definition minus (g : Group) (st : Pos.State) : Pos.State :=
  match product g with
  | None => st
  | Some _ =>
    if quantity g >? 1
    then Pos.handleUpdateQuantity (product_id g) (quantity g - 1) st
    else st
  end.

(** The quantity field; [newQty] is [parseInt(e.target.value, 10)], [None]
    when it is not a number. *)
Definition input (g : Group) (newQty : option Z) (st : Pos.State)
    : Pos.State :=
  match product g, newQty with
  | Some product, Some newQty =>
    if (newQty >=? 1) && (newQty <=? stock product)
    then Pos.handleUpdateQuantity (product_id g) newQty st
    else st
  | _, _ => st
  end.

(** The button [+]. *)
Definition plus (g : Group) (st : Pos.State) : Pos.State :=
  match product g with
  | None => st
  | Some product =>
    if quantity g <? stock product
    then Pos.handleUpdateQuantity (product_id g) (quantity g + 1) st
    else st
  end.

Inductive Control : Type :=
| pressMinus
| pressPlus
| typeQuantity (newQty : option Z).

Definition press (c : Control) (g : Group) (st : Pos.State) : Pos.State :=
  match c with
  | pressMinus => minus g st
  | pressPlus => plus g st
  | typeQuantity n => input g n st
  end.

(** The units of the product [k] in the cart: the sum over its lines. *)
Definition lineQuantity (k : Z) (c : list Pos.CartItem) : Z :=
  fold_right Z.add 0
    (List.map Pos.quantity (List.filter (Pos.is_line k) c)).

(** [g] with [n] more units. *)
Definition bump (g : Group) (n : Z) : Group :=
  mkGroup (product_id g) (quantity g + n) (price_at_sale g) (product g).

End MobileCart.

(** ** Writing products

    [createProduct] with the clock, the random number and the answer of
    the database as arguments. *)

Module ProductWrites.
Import Supabase.

(** [s.trim() === ''] for a string given by its UTF-8 bytes: every
    character is white space or a line terminator of ECMAScript, that is
    U+0009 to U+000D, U+0020, U+00A0, U+1680, U+2000 to U+200A, U+2028,
    U+2029, U+202F, U+205F, U+3000 or U+FEFF. *)
Definition space1 (b : N) : bool :=
  ((9 <=? b) && (b <=? 13) || (b =? 32))%N.

Definition space2 (b1 b2 : N) : bool :=
  ((b1 =? 194) && (b2 =? 160))%N.

Definition space3 (b1 b2 b3 : N) : bool :=
  ((b1 =? 225) && (b2 =? 154) && (b3 =? 128)
   || (b1 =? 226) && (b2 =? 128)
      && ((128 <=? b3) && (b3 <=? 138) || (b3 =? 168) || (b3 =? 169)
          || (b3 =? 175))
   || (b1 =? 226) && (b2 =? 129) && (b3 =? 159)
   || (b1 =? 227) && (b2 =? 128) && (b3 =? 128)
   || (b1 =? 239) && (b2 =? 187) && (b3 =? 191))%N.

Fixpoint blank (s : string) : bool :=
  match s with
  | EmptyString => true
  | String c1 s1 =>
    if space1 (N_of_ascii c1) then blank s1
    else
      match s1 with
      | EmptyString => false
      | String c2 s2 =>
        if space2 (N_of_ascii c1) (N_of_ascii c2) then blank s2
        else
          match s2 with
          | EmptyString => false
          | String c3 s3 =>
            if space3 (N_of_ascii c1) (N_of_ascii c2) (N_of_ascii c3)
            then blank s3
            else false
          end
      end
  end.

(** The answer of [insert(...).select()]: an error, or [data], which may
    be null. *)
Inductive InsertReply : Type :=
| insertError (e : JsError)
| inserted (data : option (list Product)).

(** [timestamp * 100 + randomPart]; [randomPart] is
    [Math.floor(Math.random() * 10000)]. *)
Definition generatedId (timestamp randomPart : Z) : Z :=
  timestamp * 100 + randomPart.

(** The row handed to [insert]; [now] is the clock read for
    [created_at]. *)
Definition productToInsert (timestamp randomPart now : Z)
    (product : Product) : Product :=
  mkProduct (Some (generatedId timestamp randomPart))
    (name product)
    (image_url product)
    (selling_price product)
    (if Qeq_bool (cost_price product) 0 then 0%Q else cost_price product)
    (if stock product =? 0 then 0 else stock product)
    (if low_stock_threshold product =? 0 then 5
     else low_stock_threshold product)
    (Some now).

(** The error thrown for an error of the database. *)
Definition insertFailure (e : JsError) : JsError :=
  if String.eqb (code e) "23505" then
    mkJsError
      ("A product with this name already exists: " ++ message e)%string
      EmptyString
  else if String.eqb (code e) "42501" || includes (message e) "permission"
  then
    mkJsError
      ("Permission denied: " ++ message e ++
       ". Please check RLS policies.")%string
      EmptyString
  else e.

(** The [catch] of [createProduct]: a new [Error], without a code. *)
Definition rethrown (e : JsError) : JsError :=
  mkJsError
    ("Failed to create product: " ++
     (if falsy (message e) then "Unknown error" else message e))%string
    EmptyString.

(** The row sent to the database, if the call gets that far, and the
    result of the call. *)
Definition createProduct (timestamp randomPart now : Z)
    (reply : InsertReply) (product : Product) (userId : string)
    : option Product * result JsError Product :=
  if falsy userId then
    (None, Err (mkJsError "User ID is required" EmptyString))
  else if falsy (name product) || blank (name product) then
    (None, Err (mkJsError "Product name is required" EmptyString))
  else if Qle_bool (selling_price product) 0 then
    (None,
     Err (mkJsError "Selling price must be a positive number" EmptyString))
  else
    let productToInsert :=
      productToInsert timestamp randomPart now product in
    (Some productToInsert,
     match reply with
     | insertError e => Err (rethrown (insertFailure e))
     | inserted None | inserted (Some []) =>
       Err (rethrown
              (mkJsError
                 "Failed to create product. No data returned from database."
                 EmptyString))
     | inserted (Some (p :: _)) => Ok p
     end).

End ProductWrites.


(** ** Sample data *)

Module Examples.
Import Supabase Pos.

Definition tea : Product :=
  mkProduct (Some 1) "tea" EmptyString (10 # 1) (6 # 1) 3 5 (Some 0).

Definition teaLine : CartItem := mkCartItem 1 2 (10 # 1) (6 # 1).

(** A shop with one product and two units of it in the cart. *)
Definition shop : State :=
  mkState (Some "owner"%string) [tea] [teaLine] false
    (mkModal no_message info).

(** The same cart after the product has left the catalog. *)
Definition shopWithoutTea : State :=
  mkState (Some "owner"%string) [] [teaLine] false (mkModal no_message info).

(** The checkout example of the specification, with 10 and 4 units in the
    catalog cache and 1 and 4 units in the backend. *)
Definition checkoutShop : State :=
  mkState (Some "owner"%string) (example_products 10 4) example_cart false
    (mkModal no_message info).

Definition backend : Db CartItem :=
  mkDb [] [] (<[1 := 1]> (<[2 := 4]> (∅ : gmap Z Z))) 1.

Definition largeFile : File := mkFile "photo.png" 6000000.

Definition accept (p : Product) (userId : string)
    : result JsError Product := Ok p.

Definition acceptUpdate (i : option Z) (p : Product)
    : result JsError Product := Ok p.

Definition blankForm : ProductForm.FormData :=
  ProductForm.mkFormData "tea" (10 # 1) (6 # 1) 3 5 EmptyString.

(** Twenty products, created at the times 1 to 20. *)
Definition catalog20 : list Product :=
  List.map (fun i =>
    mkProduct (Some i) "item" EmptyString (1 # 1) (1 # 1) 1 5 (Some i))
    [1; 2; 3; 4; 5; 6; 7; 8; 9; 10; 11; 12; 13; 14; 15; 16; 17; 18; 19; 20].

(** 2026-11-02 10:00 UTC, one hour east of Greenwich. *)
Definition nowSample : Z := 1793613600000.
Definition tzaSample : Z := 3600000.

Definition oneSale : list Finance.Sale :=
  [Finance.mkSale 1 (25 # 1) (15 # 1) (Some nowSample) []].

(** A cart of three products priced 0.1, 0.2 and 0.3, which cost 0.05,
    0.1 and 0.2: the prices are the binary64 values that these literals
    denote. *)
Definition decimalCart : list CartItem :=
  [mkCartItem 1 1 (JsNumber.double (1 # 10)) (JsNumber.double (5 # 100));
   mkCartItem 2 1 (JsNumber.double (2 # 10)) (JsNumber.double (1 # 10));
   mkCartItem 3 1 (JsNumber.double (3 # 10)) (JsNumber.double (2 # 10))].

Definition decimalShop : State :=
  mkState (Some "owner"%string)
    [mkProduct (Some 1) "A" EmptyString (JsNumber.double (1 # 10))
       (JsNumber.double (5 # 100)) 9 5 (Some 0);
     mkProduct (Some 2) "B" EmptyString (JsNumber.double (2 # 10))
       (JsNumber.double (1 # 10)) 9 5 (Some 0);
     mkProduct (Some 3) "C" EmptyString (JsNumber.double (3 # 10))
       (JsNumber.double (2 # 10)) 9 5 (Some 0)]
    decimalCart false (mkModal no_message info).

(** A time zone five hours west of Greenwich that is on daylight saving
    time, four hours west, until 2026-11-01 06:00 UTC, when its clocks go
    back from 02:00 to 01:00: that local day has 25 hours. *)
Definition fallBack2026 (t : Z) (isUTC : bool) : Z :=
  if isUTC then
    if t <? 1793512800000 then -14400000 else -18000000
  else
    if t <? 1793512800000 - 14400000 then -14400000 else -18000000.

(** Sales made in that zone at the first and at the last millisecond of
    2026-11-01, one millisecond before and one millisecond after. *)
Definition saleAt (i t : Z) : Finance.Sale :=
  Finance.mkSale i (25 # 1) (15 # 1) (Some t) [].

Definition salesAroundYesterday : list Finance.Sale :=
  [saleAt 1 1793505599999; saleAt 2 1793505600000;
   saleAt 3 1793595599999; saleAt 4 1793595600000].

End Examples.

(** ** Sample data of the further properties *)

Module MoreExamples.
Import Supabase Pos Examples.

(** A backend that refuses the sale, and one that accepts the sale and
    refuses its items. *)
Definition refuseSale : Faults :=
  mkFaults true false (fun _ => false) (fun _ => false).

Definition refuseItems : Faults :=
  mkFaults false true (fun _ => false) (fun _ => false).

(** The stock of the second item cannot be fetched. *)
Definition secondFetchFails : Faults :=
  mkFaults false false (fun k => Nat.eqb k 1) (fun _ => false).

(** A backend with the stocks of the catalog cache of [checkoutShop]. *)
Definition backendInSync : Db CartItem :=
  mkDb [] [] (<[1 := 10]> (<[2 := 4]> (∅ : gmap Z Z))) 1.

Definition aSession : list Session.Event :=
  [Session.cartAction (addProduct 1); Session.checkout no_faults;
   Session.cartAction (addProduct 2)].

(** A backend with a sale of the owner and a sale of another user, one
    item each. *)
Definition twoUsers : Db CartItem :=
  mkDb [mkSaleRow 1 "owner" (JsNumber.ofZ 25) (JsNumber.ofZ 15);
        mkSaleRow 2 "other" (JsNumber.ofZ 5) (JsNumber.ofZ 3)]
       [(teaLine, 1); (teaLine, 2)] ∅ 3.

Definition salesDeleteFails : SalesHistory.DeleteFaults :=
  SalesHistory.mkDeleteFaults false false true.

(** The history page with twelve sales, on its first page. *)
Definition twelveSales : Reports.State :=
  Reports.mkState
    (List.map (fun i => Finance.mkSale i (1 # 1) (1 # 1) (Some 0) [])
       [1; 2; 3; 4; 5; 6; 7; 8; 9; 10; 11; 12])
    1 false false false None.

(** An engine that leaves the array as it is when the comparator is not
    consistent. *)
Definition lazyEngine (l : list Product) : list Product := l.

(** The inventory page showing the new products of [catalog20]. *)
Definition inventoryOfNew : InventoryPage.State :=
  InventoryPage.mkState
    (Inventory.applyFilter lazyEngine Inventory.new catalog20 [])
    catalog20 false None None Inventory.new.

(** A sale of two units of tea and one unit of a product that has left the
    catalog, and a second sale of one unit of tea. *)
Definition teaSales : list Finance.Sale :=
  [Finance.mkSale 1 (25 # 1) (15 # 1) (Some nowSample)
     [Finance.mkSaleItem 1 1 2 (10 # 1) (6 # 1);
      Finance.mkSaleItem 2 7 1 (5 # 1) (3 # 1)];
   Finance.mkSale 2 (10 # 1) (6 # 1) (Some nowSample)
     [Finance.mkSaleItem 3 1 1 (10 # 1) (6 # 1)]].

Definition teaRow : TopSelling.ProductSales :=
  TopSelling.mkProductSales 1 3 (JsNumber.ofZ 30) (JsNumber.ofZ 12).

(** The tile of the tea in the cart summary of [shop]. *)
Definition teaTile : MobileCart.Group :=
  MobileCart.mkGroup 1 2 (10 # 1) (Some tea).

(** A new product with the low-stock threshold 0. *)
Definition newTea : Product :=
  mkProduct None "tea" EmptyString (10 # 1) (6 # 1) 3 0 None.

(** The answer of the database to a row that violates a policy. *)
Definition policyViolation : JsError :=
  mkJsError "new row violates row-level security policy" "42501".

Definition smallFile : File := mkFile "placeholder.png" 1000.

Definition storedUrl : string :=
  "https://cdn.example/product-images/owner/placeholder.png".

End MoreExamples.


(** * Properties *)

(** ** The cart operations *)

Lemma gtb_false (n m : Z) : (n >? m) = false -> n <= m.
Proof. rewrite Z.gtb_ltb. apply Z.ltb_ge. Qed.

Lemma gtb_true (n m : Z) : (n >? m) = true -> m < n.
Proof. rewrite Z.gtb_ltb. apply Z.ltb_lt. Qed.

(** Settles the comparisons a handler branches on, in the goal. *)
Ltac settle_guards :=
  repeat match goal with
         | |- context [?a <=? ?b] =>
           destruct (Z.leb_spec a b); try lia
         | |- context [?a >? ?b] =>
           let E := fresh "E" in
           destruct (a >? b) eqn:E;
           [apply gtb_true in E | apply gtb_false in E]; try lia
         end.

Module PosSpec.
Import Supabase Pos.

Lemma find_is_line_none (productId : Z) (c : list CartItem) :
  List.find (is_line productId) c = None ->
  ~ In productId (List.map product_id c).
Proof.
  induction c as [|l c IH]; simpl; intros H; [tauto|].
  unfold is_line in H at 1.
  destruct (product_id l =? productId) eqn:E; [discriminate|].
  apply Z.eqb_neq in E. intros [H1 | H1]; [congruence | exact (IH H H1)].
Qed.

Lemma find_is_line_some (productId : Z) (c : list CartItem) (e : CartItem) :
  List.find (is_line productId) c = Some e ->
  In e c /\ product_id e = productId.
Proof.
  intros H. apply find_some in H. destruct H as [H1 H2].
  split; [exact H1 | now apply Z.eqb_eq in H2].
Qed.

Lemma requantify_ids (productId : Z) (f : CartItem -> Z) (c : list CartItem) :
  List.map product_id (requantify productId f c) = List.map product_id c.
Proof.
  unfold requantify. rewrite List.map_map. apply List.map_ext.
  intros l. now destruct (is_line productId l).
Qed.

Lemma requantify_requantified (productId q : Z) (c : list CartItem) :
  Forall2 (requantified productId q) c (requantify productId (fun _ => q) c).
Proof.
  induction c as [|l c IH]; simpl; constructor; [|exact IH].
  unfold requantified. destruct (is_line productId l); simpl; auto.
Qed.

Lemma requantify_incremented (productId : Z) (c : list CartItem) :
  Forall2 (incremented productId) c
    (requantify productId (fun i => quantity i + 1) c).
Proof.
  induction c as [|l c IH]; simpl; constructor; [|exact IH].
  unfold incremented. destruct (is_line productId l); simpl; auto.
Qed.

Lemma filter_other_ids (productId : Z) (c : list CartItem) :
  List.NoDup (List.map product_id c) ->
  List.NoDup (List.map product_id
           (List.filter (fun item => negb (is_line productId item)) c)).
Proof.
  induction c as [|l c IH]; simpl; intros H; [constructor|].
  inversion H as [|? ? Hn Hd]; subst.
  destruct (negb (is_line productId l)); simpl; [|now apply IH].
  constructor; [|now apply IH].
  intros Hin. apply Hn. apply in_map_iff in Hin.
  destruct Hin as [x [Hx Hin]]. apply filter_In in Hin.
  apply in_map_iff. exists x. tauto.
Qed.

(** The data-model invariant of the cart is kept by [handleAddToCart]. *)
Lemma handleAddToCart_ok (productId : Z) (st : State) :
  cart_ok (products st) (cart st) ->
  products (handleAddToCart productId st) = products st /\
  cart_ok (products st) (cart (handleAddToCart productId st)).
Proof.
  intros [Hnd Hall]. unfold handleAddToCart.
  destruct (List.find (has_id productId) (products st)) as [P|] eqn:HP;
    [|now repeat split].
  destruct (List.find (is_line productId) (cart st)) as [e|] eqn:He.
  - destruct (quantity e + 1 >? stock P) eqn:Hq; [now repeat split|].
    simpl. split; [reflexivity|]. split.
    + fold (requantify productId (fun i => quantity i + 1) (cart st)).
      now rewrite requantify_ids.
    + apply List.Forall_forall. intros l Hl. apply in_map_iff in Hl.
      destruct Hl as [o [Ho Hin]].
      pose proof (proj1 (List.Forall_forall _ _) Hall o Hin) as [Q [HQ Hb]].
      destruct (is_line productId o) eqn:Eo; subst l; [|now exists Q].
      apply find_is_line_some in He. destruct He as [Hine Hide].
      apply Z.eqb_eq in Eo.
      assert (o = e) as ->.
      { clear - Hnd Hin Hine Eo Hide. revert Hnd Hin Hine.
        induction (cart st) as [|x c IH]; simpl; [tauto|].
        intros Hnd [-> | Ho] [-> | Hi]; inversion Hnd; subst; auto.
        - exfalso. apply H1. apply in_map_iff. exists e. split; congruence.
        - exfalso. apply H1. apply in_map_iff. exists o. split; congruence. }
      exists P. unfold line_ok, with_quantity. simpl. rewrite Hide.
      split; [exact HP|]. apply gtb_false in Hq. lia.
  - destruct (0 + 1 >? stock P) eqn:Hq; [now repeat split|].
    simpl. split; [reflexivity|]. split.
    + rewrite List.map_app. simpl. apply List.NoDup_app; [exact Hnd| |].
      * repeat constructor; simpl; tauto.
      * intros x Hx [<- | []]. now apply find_is_line_none in He.
    + apply List.Forall_app. split; [exact Hall|]. constructor; [|constructor].
      exists P. simpl. split; [exact HP|].
      apply gtb_false in Hq. lia.
Qed.

(** The invariant is kept by [handleUpdateQuantity] as well. *)
Lemma handleUpdateQuantity_ok (productId q : Z) (st : State) :
  cart_ok (products st) (cart st) ->
  products (handleUpdateQuantity productId q st) = products st /\
  cart_ok (products st) (cart (handleUpdateQuantity productId q st)).
Proof.
  intros [Hnd Hall]. unfold handleUpdateQuantity.
  assert (Hset : forall P,
    List.find (has_id productId) (products st) = Some P ->
    0 < q <= stock P ->
    cart_ok (products st) (requantify productId (fun _ => q) (cart st))).
  { intros P HP Hq. split; [now rewrite requantify_ids|].
    apply List.Forall_forall. intros l Hl. apply in_map_iff in Hl.
    destruct Hl as [o [Ho Hin]].
    pose proof (proj1 (List.Forall_forall _ _) Hall o Hin) as [Q [HQ Hb]].
    destruct (is_line productId o) eqn:Eo; subst l; [|now exists Q].
    apply Z.eqb_eq in Eo. exists P. simpl. rewrite Eo.
    split; [exact HP | lia]. }
  destruct (q <=? 0) eqn:Hq0.
  - simpl. split; [reflexivity|]. split; [now apply filter_other_ids|].
    apply List.Forall_forall. intros l Hl. apply filter_In in Hl.
    exact (proj1 (List.Forall_forall _ _) Hall l (proj1 Hl)).
  - apply Z.leb_gt in Hq0.
    destruct (List.find (has_id productId) (products st)) as [P|] eqn:HP.
    + destruct (q >? stock P) eqn:Hq; [now repeat split|].
      apply gtb_false in Hq.
      simpl. split; [reflexivity|]. apply (Hset P eq_refl). lia.
    + simpl. split; [reflexivity|]. split.
      * fold (requantify productId (fun _ => q) (cart st)).
        now rewrite requantify_ids.
      * apply List.Forall_forall. intros l Hl. apply in_map_iff in Hl.
        destruct Hl as [o [Ho Hin]].
        pose proof (proj1 (List.Forall_forall _ _) Hall o Hin) as [Q [HQ Hb]].
        destruct (is_line productId o) eqn:Eo; subst l; [|now exists Q].
        apply Z.eqb_eq in Eo. rewrite Eo in HQ. congruence.
Qed.

Lemma run_ok (actions : list Action) (st : State) :
  cart_ok (products st) (cart st) ->
  products (run actions st) = products st /\
  cart_ok (products st) (cart (run actions st)).
Proof.
  revert st. induction actions as [|a actions IH]; intros st H; [now split|].
  simpl. assert (Hs : products (step st a) = products st /\
                      cart_ok (products st) (cart (step st a))).
  { destruct a; simpl;
      [now apply handleAddToCart_ok | now apply handleUpdateQuantity_ok]. }
  destruct Hs as [Hp Hc]. rewrite <- Hp in Hc.
  destruct (IH _ Hc) as [Hp' Hc']. rewrite Hp in Hp', Hc'. now split.
Qed.

Lemma requantified_line (productId q : Z) (c c' : list CartItem)
    (l : CartItem) :
  Forall2 (requantified productId q) c c' ->
  In l c -> product_id l = productId ->
  exists l', In l' c' /\ product_id l' = productId /\ quantity l' = q /\
             price_at_sale l' = price_at_sale l /\
             cost_at_sale l' = cost_at_sale l.
Proof.
  intros HF Hin Hid. induction HF as [|o n c c' Hon HF IH]; [destruct Hin|].
  destruct Hin as [-> | Hin].
  - exists n. unfold requantified, is_line in Hon.
    rewrite Hid, Z.eqb_refl in Hon. simpl. intuition congruence.
  - destruct (IH Hin) as [l' Hl']. exists l'. simpl. tauto.
Qed.

(** C2.  [setQuantity] on a product [P] of the catalog (whose stock, as
    the data model has it, is not negative) and a cart with a line for [P]:
    with [q <= 0] the lines of [P] are removed and the other lines stay;
    with [q > stock P] the cart is unchanged and the insufficient-stock
    notice is opened; with [0 < q <= stock P] the line of [P] holds the
    quantity [q] with its price and cost snapshots, and the other lines
    are unchanged. *)
Theorem handleUpdateQuantity_spec (st : State) (productId q : Z)
    (P : Product) (l : CartItem) :
  List.find (has_id productId) (products st) = Some P ->
  0 <= stock P ->
  In l (cart st) -> product_id l = productId ->
  let st' := handleUpdateQuantity productId q st in
  (q <= 0 ->
     (forall l', In l' (cart st') <->
                 In l' (cart st) /\ product_id l' <> productId) /\
     modalOpen st' = modalOpen st) /\
  (q > stock P ->
     cart st' = cart st /\ modalOpen st' = true /\
     modalContent st' = mkModal insufficient_stock error) /\
  (0 < q <= stock P ->
     Forall2 (requantified productId q) (cart st) (cart st') /\
     (exists l', In l' (cart st') /\ product_id l' = productId /\
                 quantity l' = q /\
                 price_at_sale l' = price_at_sale l /\
                 cost_at_sale l' = cost_at_sale l) /\
     modalOpen st' = modalOpen st /\ modalContent st' = modalContent st).
Proof.
  intros HP Hs Hin Hid st'. subst st'. unfold handleUpdateQuantity.
  rewrite HP. split; [|split]; intros Hq; settle_guards; simpl.
  - split; [|reflexivity]. intros l'. rewrite filter_In. unfold is_line.
    destruct (Z.eqb_spec (product_id l') productId); simpl;
      intuition congruence.
  - repeat split.
  - split; [apply requantify_requantified|].
    split; [|split; reflexivity].
    apply (requantified_line productId q (cart st)); auto.
    apply requantify_requantified.
Qed.

(** C10.  When no product of the catalog has the identifier of a cart
    line, [setQuantity] with a positive [q] makes no stock check: the line
    gets the quantity [q], whatever [q] is, and no notice is opened. *)
Theorem handleUpdateQuantity_unknown_product (st : State) (productId q : Z)
    (l : CartItem) :
  List.find (has_id productId) (products st) = None ->
  In l (cart st) -> product_id l = productId ->
  0 < q ->
  let st' := handleUpdateQuantity productId q st in
  Forall2 (requantified productId q) (cart st) (cart st') /\
  In (with_quantity l q) (cart st') /\
  modalOpen st' = modalOpen st /\ modalContent st' = modalContent st.
Proof.
  intros HP Hin Hid Hq st'. subst st'. unfold handleUpdateQuantity.
  rewrite HP. destruct (Z.leb_spec q 0); [lia|]. simpl.
  split; [apply requantify_requantified|].
  split; [|split; reflexivity].
  apply in_map_iff. exists l. split; [|exact Hin].
  unfold is_line. now rewrite Hid, Z.eqb_refl.
Qed.

(** C3.  [addProduct] on a product [P] of the catalog: without a line for
    [P] and with stock for one unit, a line of quantity 1 with the selling
    and cost price of [P] is appended; with a line of quantity [n] and
    stock for [n + 1], that line gets the quantity [n + 1]; when the stock
    does not allow the new quantity, the cart is unchanged and the
    max-stock notice is opened.  Hence, in every cart reached from the
    empty one by cart operations, no two lines have the same product and
    every line has a quantity from 1 to the stock of its product, so that
    a product with stock 0 has no line. *)
Theorem handleAddToCart_spec (st : State) (productId : Z) (P : Product) :
  List.find (has_id productId) (products st) = Some P ->
  let st' := handleAddToCart productId st in
  (List.find (is_line productId) (cart st) = None -> 1 <= stock P ->
     cart st' =
       cart st ++ [mkCartItem productId 1 (selling_price P) (cost_price P)]
     /\ modalOpen st' = modalOpen st) /\
  (forall e, List.find (is_line productId) (cart st) = Some e ->
     quantity e + 1 <= stock P ->
     Forall2 (incremented productId) (cart st) (cart st') /\
     In (with_quantity e (quantity e + 1)) (cart st') /\
     modalOpen st' = modalOpen st) /\
  (match List.find (is_line productId) (cart st) with
   | Some e => quantity e + 1
   | None => 1
   end > stock P ->
     cart st' = cart st /\ modalOpen st' = true /\
     modalContent st' = mkModal max_stock_reached error) /\
  (forall (u : option string) (ps : list Product) (actions : list Action),
     let c := cart (run actions (initial u ps)) in
     List.NoDup (List.map product_id c) /\
     Forall (line_ok ps) c /\
     forall Q line, stock Q <= 0 -> In line c ->
       List.find (has_id (product_id line)) ps <> Some Q).
Proof.
  intros HP st'. subst st'. unfold handleAddToCart. rewrite HP.
  split; [|split; [|split]].
  - intros He Hs. rewrite He.
    destruct (0 + 1 >? stock P) eqn:E; [apply gtb_true in E; lia|].
    now split.
  - intros e He Hs. rewrite He.
    destruct (quantity e + 1 >? stock P) eqn:E; [apply gtb_true in E; lia|].
    simpl. split; [|split; [|reflexivity]].
    + apply requantify_incremented.
    + apply find_some in He. destruct He as [Hin Hl].
      apply in_map_iff. exists e. now rewrite Hl.
  - destruct (List.find (is_line productId) (cart st)) as [e|]; intros Hs.
    + destruct (quantity e + 1 >? stock P) eqn:E;
        [now repeat split | apply gtb_false in E; lia].
    + destruct (0 + 1 >? stock P) eqn:E;
        [now repeat split | apply gtb_false in E; lia].
  - intros u ps actions.
    assert (H0 : cart_ok (products (initial u ps)) (cart (initial u ps))).
    { split; simpl; constructor. }
    destruct (run_ok actions _ H0) as [_ [Hnd Hall]]. simpl in Hnd, Hall.
    split; [exact Hnd|]. split; [exact Hall|].
    intros Q line HQ Hin HF.
    destruct (proj1 (List.Forall_forall _ _) Hall line Hin) as [R [HR Hb]].
    assert (R = Q) by congruence. subst R. lia.
Qed.

End PosSpec.

(** ** Numbers *)

Module JsNumberSpec.
Import JsNumber.

(** Equal rationals have the same Number value. *)
Lemma number64_Qeq (x y : Q) : (x == y)%Q -> number64 x = number64 y.
Proof. intros H. unfold number64. now rewrite (Qred_complete x y H). Qed.

Lemma Qred_Z (n : Z) : Qred (inject_Z n) = inject_Z n.
Proof.
  unfold Qred, inject_Z.
  pose proof (Z.ggcd_gcd n 1) as Hg.
  pose proof (Z.ggcd_correct_divisors n 1) as Hd.
  destruct (Z.ggcd n 1) as [g [nn dd]]. cbn [fst snd] in *.
  rewrite Z.gcd_1_r in Hg. subst g. destruct Hd as [H1 H2].
  rewrite !Z.mul_1_l in *. now subst.
Qed.

Lemma roundTiesToEven_1 (u : Z) : roundTiesToEven u 1 = u.
Proof.
  unfold roundTiesToEven. rewrite Z.div_1_r, Z.mod_1_r. reflexivity.
Qed.

Lemma floorLog2_1 (a : Z) : 0 < a -> floorLog2 a 1 = Z.log2 a.
Proof.
  intros H. unfold floorLog2. change (Z.log2 1) with 0. rewrite Z.sub_0_r.
  pose proof (Z.log2_nonneg a) as Hn. pose proof (Z.log2_spec a H) as [H1 _].
  rewrite (Z.max_l 0 (- Z.log2 a)) by lia.
  rewrite (Z.max_r 0 (Z.log2 a)) by lia.
  destruct (Z.ltb_spec (a * 2 ^ 0) (1 * 2 ^ (Z.log2 a))) as [H2|H2];
    [|reflexivity].
  change (2 ^ 0) with 1 in H2. lia.
Qed.

(** An integer below [2^53] in absolute value is a binary64 value. *)
Lemma number64_Z (n : Z) :
  Z.abs n < 2 ^ 53 -> number64 (inject_Z n) = ofZ n.
Proof.
  intros Hb. unfold number64, ofZ. rewrite Qred_Z. cbn [Qnum Qden inject_Z].
  destruct (Z.eqb_spec n 0) as [->|Hn]; [reflexivity|].
  assert (Ha : 0 < Z.abs n) by lia.
  rewrite (floorLog2_1 _ Ha).
  pose proof (Z.log2_nonneg (Z.abs n)) as Hl0.
  assert (Hl : Z.log2 (Z.abs n) < 53) by (apply Z.log2_lt_pow2; lia).
  set (p := Z.log2 (Z.abs n)) in *.
  rewrite (Z.max_l (p - 52) (-1074)) by lia.
  rewrite (Z.max_l 0 (p - 52)) by lia.
  rewrite (Z.max_r 0 (- (p - 52))) by lia.
  change (2 ^ 0) with 1. rewrite !Z.mul_1_r, roundTiesToEven_1.
  assert (Hp : 0 < 2 ^ (- (p - 52))) by (apply Z.pow_pos_nonneg; lia).
  assert (Hp' : 2 ^ (- (p - 52)) <= 2 ^ 52) by (apply Z.pow_le_mono_r; lia).
  destruct (Z.leb_spec (2 ^ 1024) (Z.abs n * 2 ^ (- (p - 52)))) as [H|_].
  { exfalso.
    assert (Z.abs n * 2 ^ (- (p - 52)) < 2 ^ 53 * 2 ^ 52) by nia.
    assert (2 ^ 53 * 2 ^ 52 < 2 ^ 1024) by reflexivity. lia. }
  f_equal. transitivity (Qred (inject_Z n)); [|apply Qred_Z].
  apply Qred_complete.
  unfold Qeq. cbn [Qnum Qden inject_Z]. rewrite Z2Pos.id by exact Hp.
  destruct (Z.ltb_spec n 0); lia.
Qed.

Lemma jsAdd_Z (a b : Z) :
  Z.abs (a + b) < 2 ^ 53 -> jsAdd (ofZ a) (ofZ b) = ofZ (a + b).
Proof.
  intros H. unfold ofZ at 1 2. cbn [jsAdd].
  rewrite <- inject_Z_plus. now apply number64_Z.
Qed.

Lemma jsMul_whole (x : Q) (q : Z) :
  whole x -> Z.abs (q * Qfloor x) < 2 ^ 53 ->
  jsMul (Finite x) (ofZ q) = ofZ (q * Qfloor x) /\
  jsMul (ofZ q) (Finite x) = ofZ (q * Qfloor x).
Proof.
  intros Hw H. unfold ofZ at 1 3. cbn [jsMul].
  assert (E : (x * inject_Z q == inject_Z (q * Qfloor x))%Q).
  { rewrite inject_Z_mult. unfold whole in Hw. rewrite Hw at 1. ring. }
  assert (E' : (inject_Z q * x == inject_Z (q * Qfloor x))%Q).
  { rewrite <- E. ring. }
  rewrite (number64_Qeq _ _ E), (number64_Qeq _ _ E').
  split; now apply number64_Z.
Qed.

Lemma jsSub_Z (a b : Z) :
  Z.abs (a - b) < 2 ^ 53 -> jsSub (ofZ a) (ofZ b) = ofZ (a - b).
Proof.
  intros H. unfold ofZ at 1 2. cbn [jsSub jsNeg jsAdd].
  rewrite <- inject_Z_opp, <- inject_Z_plus. now apply number64_Z.
Qed.

(** On the sample values the operations give what the Standard Library's
    specification of binary64 arithmetic gives. *)
Lemma agrees_with_SpecFloat :
  forallb (fun f => forallb (agreesOn f) specSamples) specSamples = true.
Proof. vm_compute. reflexivity. Qed.

End JsNumberSpec.

(** ** The cart total *)

Module CartSpec.
Import Supabase Pos JsNumber JsNumberSpec.

(** The exact sums of the specification. *)
Lemma sum_over_perm (value : CartItem -> Q) (c c' : list CartItem) :
  Permutation c c' -> (sum_over value c == sum_over value c')%Q.
Proof.
  induction 1 as [|x c c' _ IH|x y c|c c' c'' _ IH1 _ IH2]; simpl.
  - reflexivity.
  - now rewrite IH.
  - ring.
  - now rewrite IH1.
Qed.

Lemma wholeSum_perm (value : CartItem -> Q) (c c' : list CartItem) :
  Permutation c c' -> wholeSum value c = wholeSum value c'.
Proof. induction 1; simpl; lia. Qed.

Lemma gross_perm (value : CartItem -> Q) (c c' : list CartItem) :
  Permutation c c' -> gross value c = gross value c'.
Proof. induction 1; simpl; lia. Qed.

Lemma gross_nonneg (value : CartItem -> Q) (c : list CartItem) :
  0 <= gross value c.
Proof. induction c; simpl; nia. Qed.

Lemma wholeSum_sum_over (value : CartItem -> Q) (c : list CartItem) :
  Forall (fun item => whole (value item)) c ->
  (inject_Z (wholeSum value c) == sum_over value c)%Q.
Proof.
  induction 1 as [|l c Hl _ IH]; simpl; [reflexivity|].
  rewrite inject_Z_plus, inject_Z_mult, IH. unfold whole in Hl.
  rewrite Hl at 2. reflexivity.
Qed.

(** On whole amounts below [2^53] no step of the reduce rounds. *)
Lemma reduce_exact (value : CartItem -> Q) (c : list CartItem) (a : Z) :
  Forall (fun item => whole (value item)) c ->
  Z.abs a + gross value c < 2 ^ 53 ->
  fold_left (fun sum item =>
    jsAdd sum (jsMul (Finite (value item)) (ofZ (quantity item)))) c (ofZ a)
  = ofZ (a + wholeSum value c).
Proof.
  revert a. induction c as [|l c IH]; intros a Hw Hb;
    cbn [fold_left wholeSum].
  - now rewrite Z.add_0_r.
  - inversion Hw as [|? ? Hl Hc]; subst. cbn [gross] in Hb.
    pose proof (gross_nonneg value c) as Hg.
    pose proof (Z.abs_mul (quantity l) (Qfloor (value l))) as Habs.
    rewrite (proj1 (jsMul_whole (value l) (quantity l) Hl ltac:(lia))).
    rewrite jsAdd_Z by lia.
    rewrite IH; [f_equal; lia | exact Hc | lia].
Qed.

Lemma total_exact (value : CartItem -> Q) (c : list CartItem) :
  exact_amounts value c ->
  exists t,
    fold_left (fun sum item =>
      jsAdd sum (jsMul (Finite (value item)) (ofZ (quantity item)))) c
      (Finite 0) = Finite t /\
    (t == sum_over value c)%Q.
Proof.
  intros [Hw Hb]. exists (inject_Z (wholeSum value c)). split.
  - change (Finite 0) with (ofZ 0). rewrite reduce_exact by (auto; lia).
    reflexivity.
  - now apply wholeSum_sum_over.
Qed.

Lemma total_perm (value : CartItem -> Q) (c c' : list CartItem) :
  exact_amounts value c -> Permutation c c' ->
  fold_left (fun sum item =>
    jsAdd sum (jsMul (Finite (value item)) (ofZ (quantity item)))) c'
    (Finite 0)
  = fold_left (fun sum item =>
      jsAdd sum (jsMul (Finite (value item)) (ofZ (quantity item)))) c
      (Finite 0).
Proof.
  intros [Hw Hb] Hp. change (Finite 0) with (ofZ 0).
  assert (Hw' : Forall (fun item => whole (value item)) c')
    by apply (Permutation_Forall Hp Hw).
  assert (Hb' : gross value c' < 2 ^ 53)
    by (rewrite <- (gross_perm value c c' Hp); exact Hb).
  rewrite (reduce_exact value c' 0 Hw') by lia.
  rewrite (reduce_exact value c 0 Hw) by lia.
  now rewrite (wholeSum_perm value c c' Hp).
Qed.

(** C5, as the code has it.  The total shown by the cart is the total
    amount computed at checkout: the sum of price_at_sale x quantity over
    the lines from the first to the last, every product and every partial
    sum rounded to binary64.  When the prices are whole numbers and the
    amounts stay below 2^53 taken together, nothing is rounded: the total
    is the exact sum, and two carts with the same lines in another order
    have the same total. *)
Theorem cart_total_order_independent (c : list CartItem) :
  Cart.total c = totalAmount c /\
  Cart.total [] = Finite 0 /\
  (forall l,
     Cart.total (c ++ [l])
     = jsAdd (Cart.total c)
         (jsMul (Finite (price_at_sale l)) (ofZ (quantity l)))) /\
  (exact_amounts price_at_sale c ->
   (exists t, Cart.total c = Finite t /\
              (t == sum_over price_at_sale c)%Q) /\
   forall c', Permutation c c' -> Cart.total c' = Cart.total c).
Proof.
  split; [reflexivity|]. split; [reflexivity|]. split.
  - intros l. unfold Cart.total. now rewrite fold_left_app.
  - intros H. split; [now apply total_exact|].
    intros c' Hp. now apply total_perm.
Qed.

(** C5, as the specification words it, does not hold.  For the lines
    priced 0.1, 0.2 and 0.3 the cart shows 0.6000000000000001, and 0.6
    with the lines in the reverse order; neither is the exact sum of the
    three prices. *)
Lemma cart_total_depends_on_order :
  Permutation Examples.decimalCart (List.rev Examples.decimalCart) /\
  Cart.total Examples.decimalCart
  = Finite (1351079888211149 # 2251799813685248) /\
  Cart.total (List.rev Examples.decimalCart)
  = Finite (5404319552844595 # 9007199254740992) /\
  Cart.total (List.rev Examples.decimalCart)
  <> Cart.total Examples.decimalCart /\
  ~ (1351079888211149 # 2251799813685248
     == sum_over price_at_sale Examples.decimalCart)%Q /\
  ~ (5404319552844595 # 9007199254740992
     == sum_over price_at_sale Examples.decimalCart)%Q.
Proof.
  split; [apply Permutation_rev|].
  split; [vm_compute; reflexivity|].
  split; [vm_compute; reflexivity|].
  split; [vm_compute; discriminate|].
  split; intros H; vm_compute in H; discriminate.
Qed.

End CartSpec.

(** ** Checkout *)

Module CheckoutSpec.
Import Supabase Pos.

Lemma no_other_line (p : Product) (c : list CartItem) (i : Z) :
  id p = Some i -> ~ In i (List.map product_id c) ->
  List.filter (line_of p) c = [].
Proof.
  intros Hi. induction c as [|l c IH]; simpl; intros H; [reflexivity|].
  unfold line_of at 1. rewrite Hi.
  destruct (Z.eqb_spec (product_id l) i) as [E|E]; [tauto|].
  apply IH. tauto.
Qed.

Lemma cartQuantity_find (p : Product) (c : list CartItem) :
  List.NoDup (List.map product_id c) ->
  cartQuantity c p =
    match List.find (line_of p) c with
    | Some cartItem => quantity cartItem
    | None => 0
    end.
Proof.
  unfold cartQuantity.
  induction c as [|l c IH]; simpl; intros H; [reflexivity|].
  inversion H as [|? ? Hn Hd]; subst.
  destruct (line_of p l) eqn:E; [|now apply IH].
  unfold line_of in E. destruct (id p) as [i|] eqn:Hi; [|discriminate].
  apply Z.eqb_eq in E. rewrite E in Hn.
  rewrite (no_other_line p c i Hi Hn). simpl. lia.
Qed.

Lemma with_stock_same (p : Product) (s : Z) :
  s = stock p -> with_stock p s = p.
Proof. intros ->. now destruct p. Qed.

Lemma updatedProducts_quantity (c : list CartItem) (ps : list Product) :
  List.NoDup (List.map product_id c) ->
  Forall2 (fun p p' => p' = with_stock p (stock p - cartQuantity c p)) ps
    (List.map (fun product =>
       match List.find (line_of product) c with
       | Some cartItem => with_stock product (stock product - quantity cartItem)
       | None => product
       end) ps).
Proof.
  intros Hnd. induction ps as [|p ps IH]; simpl; constructor; [|exact IH].
  rewrite (cartQuantity_find p c Hnd).
  destruct (List.find (line_of p) c); [reflexivity|].
  symmetry. apply with_stock_same. lia.
Qed.

Lemma Forall2_graph {A B : Type} (g : A -> B) (l : list A) (l' : list B) :
  Forall2 (fun a b => b = g a) l l' -> l' = List.map g l.
Proof. induction 1; simpl; congruence. Qed.

(** What [handleCheckout] does once the backend has accepted the sale and
    its items. *)
Lemma handleCheckout_success (f : Faults) (st : State) (db : Db CartItem)
    (userId : string) :
  user st = Some userId -> cart st <> [] ->
  sale_insert_fails f = false -> items_insert_fails f = false ->
  exists tbl log,
    handleCheckout f st db =
      (mkState (user st)
         (List.map (fun product =>
            match List.find (line_of product) (cart st) with
            | Some cartItem =>
              with_stock product (stock product - quantity cartItem)
            | None => product
            end) (products st))
         [] true (mkModal sale_completed success),
       mkDb (sales db ++
               [mkSaleRow (sale_seq db) userId (totalAmount (cart st))
                  (totalCost (cart st))])
         (sale_items db ++ List.map (fun l => (l, sale_seq db)) (cart st))
         tbl (sale_seq db + 1),
       log).
Proof.
  intros Hu Hc Hs Hi. unfold handleCheckout.
  rewrite Hu. destruct (cart st) as [|l0 c0] eqn:Ec; [congruence|].
  change (List.length (l0 :: c0) =? 0)%nat with false. cbv iota.
  unfold createSale. rewrite Hs, Hi.
  destruct (updateStocks CartItem product_id quantity f 0 (l0 :: c0) _)
    as [tbl log].
  exists tbl, log. unfold showModal, setCart, setProducts. simpl.
  now rewrite Hu.
Qed.

(** C1, as the code has it.  With a signed-in user and a cart that is not
    empty, when the backend accepts the sale and its items:
    [handleCheckout] adds one sale for that user whose total_amount is the
    total the cart shows, the sum of price_at_sale x quantity over the cart
    lines from the first to the last in binary64 arithmetic, and whose
    total_cost is the same sum of cost_at_sale x quantity; when the prices
    (the costs) are whole numbers and the amounts stay below 2^53 taken
    together, it is the exact sum.  The checkout records the cart lines
    under that sale, empties the cart, opens the success notice, and (the
    cart holding one line per product) leaves every product of the catalog
    cache with its stock lowered by the quantity the cart held of it.  For
    the cart of the example the sale has total_amount 25 and total_cost 15,
    product 1 loses 2 units and product 2 loses 1. *)
Theorem handleCheckout_spec :
  (forall (f : Faults) (st : State) (db : Db CartItem) (userId : string),
     user st = Some userId -> cart st <> [] ->
     sale_insert_fails f = false -> items_insert_fails f = false ->
     let st' := fst (fst (handleCheckout f st db)) in
     let db' := snd (fst (handleCheckout f st db)) in
     exists sale,
       sales db' = sales db ++ [sale] /\
       sale_user_id sale = userId /\
       total_amount sale = totalAmount (cart st) /\
       total_cost sale = totalCost (cart st) /\
       (forall c l, cart st = c ++ [l] ->
          total_amount sale
          = JsNumber.jsAdd (totalAmount c)
              (JsNumber.jsMul (JsNumber.Finite (price_at_sale l))
                 (JsNumber.ofZ (quantity l))) /\
          total_cost sale
          = JsNumber.jsAdd (totalCost c)
              (JsNumber.jsMul (JsNumber.Finite (cost_at_sale l))
                 (JsNumber.ofZ (quantity l)))) /\
       (exact_amounts price_at_sale (cart st) ->
        exists t, total_amount sale = JsNumber.Finite t /\
                  (t == sum_over price_at_sale (cart st))%Q) /\
       (exact_amounts cost_at_sale (cart st) ->
        exists t, total_cost sale = JsNumber.Finite t /\
                  (t == sum_over cost_at_sale (cart st))%Q) /\
       sale_items db' =
         sale_items db ++ List.map (fun l => (l, sale_id sale)) (cart st) /\
       cart st' = [] /\
       modalOpen st' = true /\
       modalContent st' = mkModal sale_completed success /\
       (List.NoDup (List.map product_id (cart st)) ->
        Forall2 (fun p p' =>
                   p' = with_stock p (stock p - cartQuantity (cart st) p))
          (products st) (products st'))) /\
  (forall (f : Faults) (db : Db CartItem) (userId : string)
          (stock1 stock2 : Z),
     sale_insert_fails f = false -> items_insert_fails f = false ->
     let st := mkState (Some userId) (example_products stock1 stock2)
                 example_cart false (mkModal no_message info) in
     let st' := fst (fst (handleCheckout f st db)) in
     let db' := snd (fst (handleCheckout f st db)) in
     exists sale,
       sales db' = sales db ++ [sale] /\
       total_amount sale = JsNumber.ofZ 25 /\
       total_cost sale = JsNumber.ofZ 15 /\
       cart st' = [] /\
       List.map stock (products st') = [stock1 - 2; stock2 - 1]).
Proof.
  split.
  - intros f st db userId Hu Hc Hs Hi.
    destruct (handleCheckout_success f st db userId Hu Hc Hs Hi)
      as (tbl & log & E).
    rewrite E. cbv zeta. cbn [fst snd sales sale_items].
    eexists. split; [reflexivity|]. split; [reflexivity|].
    cbn [total_amount total_cost sale_id].
    split; [reflexivity|]. split; [reflexivity|].
    split.
    { intros c l Ec. rewrite Ec. unfold totalAmount, totalCost.
      rewrite !fold_left_app. split; reflexivity. }
    split; [apply CartSpec.total_exact|].
    split; [apply CartSpec.total_exact|].
    split; [reflexivity|]. split; [reflexivity|]. split; [reflexivity|].
    split; [reflexivity|].
    intros Hnd. cbn [products]. now apply updatedProducts_quantity.
  - intros f db userId stock1 stock2 Hs Hi st st' db'.
    assert (Hc : cart st <> []) by discriminate.
    destruct (handleCheckout_success f st db userId eq_refl Hc Hs Hi)
      as (tbl & log & E).
    subst st' db'. rewrite E. cbn [fst snd sales].
    eexists. split; [reflexivity|].
    cbn [total_amount total_cost].
    split; [vm_compute; reflexivity|]. split; [vm_compute; reflexivity|].
    split; [reflexivity|]. reflexivity.
Qed.

(** C1, as the specification words it, does not hold.  For the cart of
    three lines priced 0.1, 0.2 and 0.3, which cost 0.05, 0.1 and 0.2, the
    sale is recorded with total_amount 0.6000000000000001 and total_cost
    0.35000000000000003: neither is the sum of its lines, and the first is
    not the binary64 value nearest to that sum either. *)
Lemma handleCheckout_totals_rounded :
  let db' :=
    snd (fst (handleCheckout no_faults Examples.decimalShop
                Examples.backend)) in
  exists sale amount cost,
    sales db' = sales Examples.backend ++ [sale] /\
    total_amount sale = JsNumber.Finite amount /\
    total_cost sale = JsNumber.Finite cost /\
    amount = 1351079888211149 # 2251799813685248 /\
    cost = 6305039478318695 # 18014398509481984 /\
    ~ (amount == sum_over price_at_sale Examples.decimalCart)%Q /\
    ~ (cost == sum_over cost_at_sale Examples.decimalCart)%Q /\
    JsNumber.Finite amount
    <> JsNumber.number64 (sum_over price_at_sale Examples.decimalCart).
Proof.
  exists (mkSaleRow 1 "owner"
            (JsNumber.Finite (1351079888211149 # 2251799813685248))
            (JsNumber.Finite (6305039478318695 # 18014398509481984))).
  exists (1351079888211149 # 2251799813685248).
  exists (6305039478318695 # 18014398509481984).
  split; [vm_compute; reflexivity|].
  split; [reflexivity|]. split; [reflexivity|].
  split; [reflexivity|]. split; [reflexivity|].
  split; [intros H; vm_compute in H; discriminate|].
  split; [intros H; vm_compute in H; discriminate|].
  vm_compute. discriminate.
Qed.

End CheckoutSpec.

(** ** The stock loop of [createSale] *)

Module StockSpec.
Import Supabase.

Section Loop.

Context {Item : Type} (pid qty : Item -> Z).

Lemma loop_log_mono (f : Faults) (items : list Item) (i : nat)
    (acc : gmap Z Z * list StockLog) (w : StockLog) :
  In w (snd acc) -> In w (snd (updateStocks Item pid qty f i items acc)).
Proof.
  revert i acc. induction items as [|x items IH]; intros i acc H; simpl;
    [exact H|].
  destruct (fetchStock f i (pid x) (fst acc)); [|now apply IH].
  destruct (stock_update_fails f i); apply IH; [exact H|].
  simpl. apply in_or_app. now left.
Qed.

Lemma loop_log_clamped (f : Faults) (items : list Item) (i : nat)
    (acc : gmap Z Z * list StockLog) :
  Forall clamped (snd acc) ->
  Forall clamped (snd (updateStocks Item pid qty f i items acc)).
Proof.
  revert i acc. induction items as [|x items IH]; intros i acc H; simpl;
    [exact H|].
  destruct (fetchStock f i (pid x) (fst acc)); [|now apply IH].
  destruct (stock_update_fails f i); apply IH; [exact H|].
  simpl. apply List.Forall_app. split; [exact H|].
  constructor; [reflexivity|constructor].
Qed.

Lemma loop_written (f : Faults) (items : list Item) (i : nat)
    (acc : gmap Z Z * list StockLog) (p s : Z) :
  fst (updateStocks Item pid qty f i items acc) !! p = Some s ->
  fst acc !! p = Some s \/
  exists w, In w (snd (updateStocks Item pid qty f i items acc)) /\
            log_product w = p /\ log_to w = s.
Proof.
  revert i acc. induction items as [|x items IH]; intros i acc H; simpl in *;
    [now left|].
  destruct (fetchStock f i (pid x) (fst acc)) as [st|]; [|now apply IH].
  destruct (stock_update_fails f i); [now apply IH|].
  destruct (IH _ _ H) as [H1 | H1]; [|now right].
  simpl in H1. destruct (decide (pid x = p)) as [E|E].
  - subst p. rewrite lookup_insert_eq in H1. injection H1 as <-.
    right. exists (mkStockLog (pid x) (qty x) st (Z.max 0 (st - qty x))).
    split; [|split; reflexivity].
    apply loop_log_mono. simpl. apply in_or_app. right. now left.
  - rewrite lookup_insert_ne in H1 by exact E. now left.
Qed.

Lemma loop_frame (f : Faults) (items : list Item) (i : nat)
    (acc : gmap Z Z * list StockLog) (p : Z) :
  ~ In p (List.map pid items) ->
  fst (updateStocks Item pid qty f i items acc) !! p = fst acc !! p.
Proof.
  revert i acc. induction items as [|x items IH]; intros i acc H; simpl in *;
    [reflexivity|].
  assert (Hx : pid x <> p) by tauto.
  assert (Hr : ~ In p (List.map pid items)) by tauto.
  destruct (fetchStock f i (pid x) (fst acc)) as [st|]; [|now apply IH].
  destruct (stock_update_fails f i); [now apply IH|].
  rewrite IH by exact Hr. simpl. now rewrite lookup_insert_ne.
Qed.

Lemma loop_exact (f : Faults) (items : list Item) (i : nat)
    (acc : gmap Z Z * list StockLog) (x : Item) (s : Z) :
  (forall k, product_fetch_fails f k = false) ->
  (forall k, stock_update_fails f k = false) ->
  List.NoDup (List.map pid items) ->
  In x items -> fst acc !! pid x = Some s ->
  fst (updateStocks Item pid qty f i items acc) !! pid x
    = Some (Z.max 0 (s - qty x)).
Proof.
  intros Hf Hu. revert i acc.
  induction items as [|y items IH]; intros i acc Hnd Hin Hs; [destruct Hin|].
  inversion Hnd as [|? ? Hn Hd]; subst. simpl.
  unfold fetchStock. rewrite Hf, Hu.
  destruct Hin as [-> | Hin].
  - rewrite Hs. rewrite loop_frame by exact Hn. simpl.
    now rewrite lookup_insert_eq.
  - assert (Hne : pid y <> pid x).
    { intros E. apply Hn. rewrite E. now apply in_map. }
    destruct (fst acc !! pid y) as [sy|]; [|now apply IH].
    apply IH; [exact Hd | exact Hin |]. simpl.
    now rewrite lookup_insert_ne.
Qed.

End Loop.

(** C4.  Every stock that [createSale] persists is
    [max 0 (current - sold)] for the stock just read and the quantity of the
    sale item, so it is not negative; a stock of the table after the call
    is either the one from before or such a persisted value.  When no
    request of the loop fails and the items are of different products, the
    stock of every sold product that has a row ends as
    [max 0 (stock - quantity)]. *)
Theorem createSale_stock_clamped {Item : Type} (pid qty : Item -> Z)
    (f : Faults) (userId : string) (saleItems : list Item)
    (total cost : JsNumber.number)
    (db : Db Item) :
  let db' := fst (fst (createSale Item pid qty f userId saleItems total cost db)) in
  let log := snd (fst (createSale Item pid qty f userId saleItems total cost db)) in
  Forall (fun w => log_to w = Z.max 0 (log_from w - log_quantity w) /\
                   0 <= log_to w) log /\
  (forall p s, product_stock db' !! p = Some s ->
     product_stock db !! p = Some s \/
     0 <= s /\ exists w, In w log /\ log_product w = p /\ log_to w = s) /\
  (sale_insert_fails f = false -> items_insert_fails f = false ->
   (forall k, product_fetch_fails f k = false) ->
   (forall k, stock_update_fails f k = false) ->
   List.NoDup (List.map pid saleItems) ->
   forall item s, In item saleItems ->
     product_stock db !! pid item = Some s ->
     product_stock db' !! pid item = Some (Z.max 0 (s - qty item))).
Proof.
  unfold createSale.
  destruct (sale_insert_fails f) eqn:Hs;
    [simpl; split; [constructor|]; split; [now left|discriminate]|].
  destruct (items_insert_fails f) eqn:Hi;
    [simpl; split; [constructor|]; split; [now left|discriminate]|].
  cbv zeta. simpl product_stock.
  pose proof (loop_log_clamped pid qty f saleItems 0 (product_stock db, [])
                (List.Forall_nil _)) as Hc.
  pose proof (loop_written pid qty f saleItems 0 (product_stock db, []))
    as Hw.
  pose proof (fun x s => loop_exact pid qty f saleItems 0
                           (product_stock db, []) x s) as He.
  destruct (updateStocks Item pid qty f 0 saleItems (product_stock db, []))
    as [tbl log]. simpl in *.
  assert (Hc' : Forall (fun w => log_to w = Z.max 0 (log_from w - log_quantity w)
                                 /\ 0 <= log_to w) log).
  { eapply List.Forall_impl; [|exact Hc]. intros w Hcw. unfold clamped in Hcw.
    split; [exact Hcw | rewrite Hcw; apply Z.le_max_l]. }
  split; [exact Hc'|]. split.
  - intros p s H. destruct (Hw p s H) as [H1 | [w [H1 [H2 H3]]]]; [now left|].
    right. split; [|now exists w].
    destruct (proj1 (List.Forall_forall _ _) Hc' w H1) as [_ Hp].
    now rewrite <- H3.
  - intros _ _ Hf Hu Hnd item s Hin Hl. now apply He.
Qed.

End StockSpec.

(** ** Image upload and the product form *)

Module ProductFormSpec.
Import Supabase ProductForm.

(** A failed upload returns one of three addresses of the placeholder
    service. *)
Lemma uploadProductImage_failed (userId : string) (file : File)
    (reply : StorageReply) :
  uploadFailed userId file reply = true ->
  uploadProductImage userId file reply = noUserUrl \/
  uploadProductImage userId file reply = tooLargeUrl \/
  uploadProductImage userId file reply = productImageUrl.
Proof.
  unfold uploadFailed, uploadProductImage. simpl.
  unfold uploadAttempt.
  destruct (falsy userId) eqn:Hu; [intros _; left; reflexivity|].
  destruct (file_size file >? 5242880) eqn:Hf;
    [intros _; right; left; reflexivity|].
  simpl. intros H. right. right.
  destruct reply as [| |[publicUrl|]]; try reflexivity.
  now rewrite H.
Qed.

Lemma failed_upload_passes_the_guard (userId : string) (file : File)
    (reply : StorageReply) :
  uploadFailed userId file reply = true ->
  String.prefix "https://placehold.co/"
    (uploadProductImage userId file reply) = true /\
  falsy (uploadProductImage userId file reply)
  || includes (uploadProductImage userId file reply) "placeholder" = false.
Proof.
  intros H.
  destruct (uploadProductImage_failed userId file reply H) as [E|[E|E]];
    rewrite E; split; reflexivity.
Qed.

(** C9.  When the upload of the product image fails, [uploadProductImage]
    returns an address of the placeholder service instead of raising an
    error, and [handleSubmit] goes on to save the product with that address
    as its image: it calls [createProduct], or [updateProduct] for a
    product that is edited, on the form data with that address, hands the
    product that the call returns to [onSubmit], and shows the error of
    the call when it fails.  The guard on the word "placeholder" does not
    hold of these addresses, whose host is placehold.co: the image notice
    is not shown. *)
Theorem upload_failure_saves_with_placeholder
    (createProduct : Product -> string -> result JsError Product)
    (updateProduct : option Z -> Product -> result JsError Product)
    (userId : string) (product : option Product) (formData : FormData)
    (file : File) (reply : StorageReply) :
  uploadFailed userId file reply = true ->
  let imageUrl := uploadProductImage userId file reply in
  let data := productData product formData imageUrl in
  let outcome :=
    handleSubmit createProduct updateProduct true (Some userId) product
      formData (Some file) reply in
  let saved :=
    match product with
    | Some p => updateProduct (id p) data
    | None => createProduct data userId
    end in
  String.prefix "https://placehold.co/" imageUrl = true /\
  includes imageUrl "placeholder" = false /\
  image_url data = imageUrl /\
  (forall p, saved = Ok p ->
     submitted outcome = Some p /\ formError outcome = None) /\
  (forall e, saved = Err e ->
     submitted outcome = None /\
     formError outcome =
       Some (if includes (message e) "permission"
                || String.eqb (code e) "42501"
             then error_permission else error_general (message e))) /\
  formError outcome <> Some error_image_upload.
Proof.
  intros H imageUrl data outcome saved.
  destruct (failed_upload_passes_the_guard userId file reply H) as [Hp Hg].
  fold imageUrl in Hp, Hg.
  assert (Ho : outcome = save createProduct updateProduct userId product
                 data).
  { subst outcome. unfold handleSubmit. cbn [negb]. cbv iota.
    fold imageUrl. now rewrite Hg. }
  split; [exact Hp|]. split; [now apply orb_false_elim in Hg|].
  split; [reflexivity|].
  rewrite Ho. unfold save. fold saved. destruct saved as [q|e].
  - split; [intros p E; injection E as <-; now split|].
    split; [discriminate | discriminate].
  - split; [discriminate|]. split.
    + intros e' E. injection E as <-.
      destruct (includes (message e) "permission"
                || String.eqb (code e) "42501"); now split.
    + destruct (includes (message e) "permission"
                || String.eqb (code e) "42501"); discriminate.
Qed.

End ProductFormSpec.

(** ** The filter of new products *)

Module InventorySpec.
Import Supabase Inventory.

Lemma sort_insert_perm {A : Type} (cmp : A -> A -> Z) (x : A)
    (l : list A) :
  Permutation (sort_insert cmp x l) (x :: l).
Proof.
  induction l as [|y l IH]; simpl; [reflexivity|].
  destruct (cmp x y <=? 0); [reflexivity|].
  rewrite IH. apply perm_swap.
Qed.

Lemma sort_perm {A : Type} (cmp : A -> A -> Z) (l : list A) :
  Permutation (sort cmp l) l.
Proof.
  induction l as [|x l IH]; simpl; [reflexivity|].
  fold (sort cmp l). rewrite sort_insert_perm. now constructor.
Qed.

Lemma sort_length {A : Type} (cmp : A -> A -> Z) (l : list A) :
  List.length (sort cmp l) = List.length l.
Proof. apply Permutation_length, sort_perm. Qed.

(** Sorting by the difference of a numeric key puts the larger keys
    first. *)
Lemma sort_by_key_insert {A : Type} (key : A -> Z) (x : A) (l : list A) :
  StronglySorted (fun a b => key b <= key a) l ->
  StronglySorted (fun a b => key b <= key a)
    (sort_insert (fun a b => key b - key a) x l).
Proof.
  intros Hs. induction Hs as [|y l Hs IH Hy]; simpl.
  - repeat constructor.
  - destruct (Z.leb_spec (key y - key x) 0) as [Hle|Hgt].
    + constructor; [now constructor|].
      constructor; [lia|].
      eapply List.Forall_impl; [|exact Hy]. intros z Hz. simpl in Hz. lia.
    + constructor; [exact IH|].
      apply (Permutation_Forall
               (Permutation_sym (sort_insert_perm _ x l))).
      constructor; [lia | exact Hy].
Qed.

Lemma sort_by_key_sorted {A : Type} (key : A -> Z) (l : list A) :
  StronglySorted (fun a b => key b <= key a)
    (sort (fun a b => key b - key a) l).
Proof.
  induction l as [|x l IH]; simpl; [constructor|].
  now apply sort_by_key_insert.
Qed.

Lemma StronglySorted_map {A B : Type} (R : A -> A -> Prop)
    (R' : B -> B -> Prop) (g : A -> B) (l : list A) :
  (forall a b, In a l -> In b l -> R a b -> R' (g a) (g b)) ->
  StronglySorted R l -> StronglySorted R' (List.map g l).
Proof.
  intros H Hs. induction Hs as [|a l Hs IH Ha]; simpl; [constructor|].
  constructor.
  - apply IH. intros x y Hx Hy. apply H; now right.
  - apply List.Forall_forall. intros b Hb.
    apply in_map_iff in Hb. destruct Hb as [y [<- Hy]].
    apply H; [now left | now right|].
    exact (proj1 (List.Forall_forall _ _) Ha y Hy).
Qed.

(** The products of a catalog in which every product carries its
    creation time, with these times. *)
Lemma timed_dated (l : list Product) :
  Forall dated l ->
  exists tl,
    timed l = Some tl /\ List.map snd tl = l /\
    Forall (fun e => created_at (snd e) = Some (fst e)) tl.
Proof.
  induction 1 as [|p l Hp _ (tl & E & Hm & Hs)]; simpl.
  - exists []. repeat split; constructor.
  - unfold dated in Hp. unfold getTime.
    destruct (created_at p) as [t|] eqn:Et; [|congruence].
    rewrite E. exists ((t, p) :: tl). split; [reflexivity|].
    split; [simpl; now rewrite Hm|]. now constructor.
Qed.

Lemma sortByDate_dated (engine : list Product -> list Product)
    (l : list Product) :
  Forall dated l ->
  Permutation (sortByDate engine l) l /\
  StronglySorted newer_or_same (sortByDate engine l) /\
  forall engine', sortByDate engine' l = sortByDate engine l.
Proof.
  intros Hd. destruct (timed_dated l Hd) as (tl & E & Hm & Hs).
  unfold sortByDate. rewrite E. split; [|split; [|reflexivity]].
  - rewrite <- Hm. apply Permutation_map, sort_perm.
  - apply (StronglySorted_map (fun a b => fst b <= fst a));
      [|apply (sort_by_key_sorted fst)].
    intros a b Ha Hb Hab.
    assert (Hin : forall e, In e (sort (fun a b => fst b - fst a) tl) ->
                    created_at (snd e) = Some (fst e)).
    { intros e He. apply (proj1 (List.Forall_forall _ _) Hs).
      now apply (Permutation_in _
                   (sort_perm (fun a b => fst b - fst a) tl)). }
    exists (fst a), (fst b). repeat split; auto.
Qed.

Lemma newCount_ceiling (n : nat) :
  newCount n = Z.max ((Z.of_nat n + 4) / 5) 5.
Proof.
  unfold newCount, Qceiling, Qfloor. simpl. f_equal.
  change (Z.pos (1 * 10)) with 10.
  Z.to_euclidean_division_equations. lia.
Qed.

Lemma StronglySorted_firstn {A : Type} (R : A -> A -> Prop) (k : nat)
    (l : list A) :
  StronglySorted R l -> StronglySorted R (firstn k l).
Proof.
  intros Hs. rewrite <- (firstn_skipn k l) in Hs. revert Hs.
  induction (firstn k l) as [|a l' IH]; simpl; intros Hs; [constructor|].
  inversion Hs as [|? ? Hs' Hall]; subst. constructor; [now apply IH|].
  apply List.Forall_app in Hall. tauto.
Qed.

(** C8.  On a catalog that is not empty and in which every product
    carries its creation time, the filter "new" shows the first
    [max (ceiling (n / 5)) 5] products of the catalog sorted by creation
    time, newest first ([n] is the size of the catalog, and a catalog with
    fewer products is shown whole); on a catalog of 20 products it shows
    5.  What the engine does with an inconsistent comparator plays no
    part. *)
Theorem new_products_filter (engine : list Product -> list Product)
    (allProducts products : list Product) :
  allProducts <> [] ->
  Forall (fun p => created_at p <> None) allProducts ->
  let n := List.length allProducts in
  let sorted := sortByDate engine allProducts in
  let shown := applyFilter engine new allProducts products in
  newCount n = Z.max ((Z.of_nat n + 4) / 5) 5 /\
  shown = firstn (Z.to_nat (newCount n)) sorted /\
  Permutation sorted allProducts /\
  StronglySorted newer_or_same sorted /\
  StronglySorted newer_or_same shown /\
  List.length shown = Nat.min (Z.to_nat (newCount n)) n /\
  (n = 20%nat -> List.length shown = 5%nat) /\
  (forall engine', applyFilter engine' new allProducts products = shown).
Proof.
  intros Hne Hd n sorted shown.
  destruct (sortByDate_dated engine allProducts Hd) as (Hp & Hs & He).
  fold sorted in Hp, Hs.
  assert (Hn : List.length sorted = n) by now apply Permutation_length.
  assert (Hfilter : forall e,
            applyFilter e new allProducts products
            = firstn (Z.to_nat (newCount n)) (sortByDate e allProducts)).
  { intros e. unfold applyFilter.
    destruct allProducts as [|p ps]; [congruence|].
    change (List.length (p :: ps) =? 0)%nat with false. cbv iota.
    unfold slice0. rewrite (He e). fold sorted. now rewrite Hn. }
  assert (Hshown : shown = firstn (Z.to_nat (newCount n)) sorted)
    by apply Hfilter.
  assert (Hlen : List.length shown = Nat.min (Z.to_nat (newCount n)) n).
  { now rewrite Hshown, List.length_firstn, Hn. }
  split; [apply newCount_ceiling|]. split; [exact Hshown|].
  split; [exact Hp|]. split; [exact Hs|].
  split; [rewrite Hshown; now apply StronglySorted_firstn|].
  split; [exact Hlen|]. split.
  - intros E. rewrite Hlen, E. reflexivity.
  - intros e. rewrite Hfilter, (He e). now symmetry.
Qed.

End InventorySpec.

(** ** Dates *)

Module JsDateSpec.
Import JsDate.

Lemma Day_midnight (d : Z) : Day (d * msPerDay) = d.
Proof. unfold Day, msPerDay. now rewrite Z.div_mul. Qed.

Lemma TimeWithinDay_midnight (d : Z) : TimeWithinDay (d * msPerDay) = 0.
Proof. unfold TimeWithinDay, msPerDay. now rewrite Z.mod_mul. Qed.

Lemma Day_plus_days (t k : Z) : Day (t + k * msPerDay) = Day t + k.
Proof. unfold Day, msPerDay. now rewrite Z.div_add. Qed.

Lemma day_decomposition (t : Z) : t = Day t * msPerDay + TimeWithinDay t.
Proof.
  unfold Day, TimeWithinDay, msPerDay.
  rewrite Z.mul_comm. apply Z.div_mod. discriminate.
Qed.

(** [YearFromTime] meets its definition in the language specification. *)
Lemma YearFromTime_spec (t : Z) :
  DayFromYear (YearFromTime t) <= Day t < DayFromYear (YearFromTime t + 1).
Proof.
  unfold YearFromTime. set (d := Day t).
  destruct (Z.ltb_spec d (DayFromYear (1970 + 400 * d / 146097))) as [H|H].
  - replace (1970 + 400 * d / 146097 - 1 + 1)
      with (1970 + 400 * d / 146097) by lia.
    split; [|exact H]. clear H. unfold DayFromYear.
    Z.to_euclidean_division_equations. lia.
  - destruct (Z.leb_spec (DayFromYear (1970 + 400 * d / 146097 + 1)) d)
      as [H'|H'].
    + split; [exact H'|]. clear H H'. unfold DayFromYear.
      Z.to_euclidean_division_equations. lia.
    + split; assumption.
Qed.

Lemma MonthFromTime_range (t : Z) : 0 <= MonthFromTime t <= 11.
Proof.
  unfold MonthFromTime.
  repeat match goal with
         | |- context [if ?c then _ else _] => destruct c
         end; lia.
Qed.

Lemma MakeDay_of_fields (t date : Z) :
  MakeDay (YearFromTime t) (MonthFromTime t) date
    = Day t + (date - DateFromTime t).
Proof.
  pose proof (MonthFromTime_range t) as Hm.
  unfold MakeDay, DateFromTime, DayWithinYear.
  rewrite Z.div_small, Z.mod_small by lia.
  rewrite Z.add_0_r. lia.
Qed.

(** The calendar fields of a time value are those of its day. *)
Lemma fields_of_day (t t' : Z) :
  Day t' = Day t ->
  YearFromTime t' = YearFromTime t /\ MonthFromTime t' = MonthFromTime t /\
  DateFromTime t' = DateFromTime t /\ WeekDay t' = WeekDay t.
Proof.
  intros E.
  assert (Hy : YearFromTime t' = YearFromTime t)
    by (unfold YearFromTime; now rewrite E).
  assert (Hd : DayWithinYear t' = DayWithinYear t)
    by (unfold DayWithinYear; now rewrite E, Hy).
  assert (Hm : MonthFromTime t' = MonthFromTime t)
    by (unfold MonthFromTime; now rewrite Hd, Hy).
  repeat split; auto.
  - unfold DateFromTime. now rewrite Hd, Hy, Hm.
  - unfold WeekDay. now rewrite E.
Qed.

Section Local.

Variable tza : Z.

Lemma local_midnight (t : Z) :
  LocalTime (fixed tza) (midnight tza t) = Day (LocalTime (fixed tza) t) * msPerDay.
Proof. unfold fixed, LocalTime, midnight. lia. Qed.

(** [new Date(y, m, d)] on the fields of [t] is the local midnight of [t],
    for a year that is not read as a two-digit year. *)
Lemma newDate_of_fields (t : Z) :
  99 < getFullYear (fixed tza) t ->
  newDate (fixed tza) (getFullYear (fixed tza) t) (getMonth (fixed tza) t) (getDate (fixed tza) t) 0 0 0 0
    = midnight tza t.
Proof.
  intros H. unfold newDate, getFullYear, getMonth, getDate in *.
  destruct (Z.leb_spec (YearFromTime (LocalTime (fixed tza) t)) 99) as [H'|H'];
    [lia|].
  rewrite andb_false_r, MakeDay_of_fields.
  unfold fixed, UTC, MakeDate, MakeTime, midnight, LocalTime. lia.
Qed.

Lemma setDate_relative (t k : Z) :
  setDate (fixed tza) t (getDate (fixed tza) t + k) = t + k * msPerDay.
Proof.
  unfold fixed, setDate, getDate. rewrite MakeDay_of_fields.
  unfold UTC, MakeDate.
  pose proof (day_decomposition (LocalTime (fixed tza) t)) as H.
  unfold fixed, LocalTime in *. lia.
Qed.

Lemma setHours_end_of_day (t : Z) :
  setHours (fixed tza) t 23 59 59 999
    = Day (LocalTime (fixed tza) t) * msPerDay + (msPerDay - 1) - tza.
Proof. unfold fixed, setHours, UTC, MakeDate, MakeTime, msPerDay. lia. Qed.

Lemma getDay_midnight (t : Z) : getDay (fixed tza) (midnight tza t) = getDay (fixed tza) t.
Proof.
  unfold getDay. rewrite local_midnight.
  apply (fields_of_day (LocalTime (fixed tza) t)). apply Day_midnight.
Qed.

Lemma getDay_minus_days (t k : Z) :
  getDay (fixed tza) (t - k * msPerDay) = (getDay (fixed tza) t - k) mod 7.
Proof.
  unfold fixed, getDay, WeekDay, LocalTime.
  replace (t - k * msPerDay + tza) with (t + tza + (- k) * msPerDay) by lia.
  rewrite Day_plus_days.
  replace (Day (t + tza) + - k + 4) with (Day (t + tza) + 4 - k) by lia.
  now rewrite Zminus_mod_idemp_l.
Qed.

End Local.

Lemma DayFromYear_next (y : Z) :
  DayFromYear (y + 1) = DayFromYear y + DaysInYear y.
Proof.
  unfold DayFromYear, DaysInYear.
  destruct (Z.eqb_spec (y mod 4) 0); cbn [negb];
    [destruct (Z.eqb_spec (y mod 100) 0); cbn [negb];
       [destruct (Z.eqb_spec (y mod 400) 0); cbn [negb]|]|];
    Z.to_euclidean_division_equations; lia.
Qed.

Lemma DayFromYear_mono (y1 y2 : Z) :
  y1 <= y2 -> DayFromYear y1 <= DayFromYear y2.
Proof.
  intros H. unfold DayFromYear. Z.to_euclidean_division_equations. lia.
Qed.

Lemma YearFromTime_unique (d y : Z) :
  DayFromYear y <= d < DayFromYear (y + 1) ->
  YearFromTime (d * msPerDay) = y.
Proof.
  intros H. pose proof (YearFromTime_spec (d * msPerDay)) as Hs.
  rewrite Day_midnight in Hs. set (Y := YearFromTime (d * msPerDay)) in *.
  destruct (Z.lt_trichotomy Y y) as [Hlt|[E|Hgt]]; [|exact E|].
  - pose proof (DayFromYear_mono (Y + 1) y ltac:(lia)). lia.
  - pose proof (DayFromYear_mono (y + 1) Y ltac:(lia)). lia.
Qed.

Lemma leapDays_range (y : Z) : leapDays y = 0 \/ leapDays y = 1.
Proof.
  unfold leapDays, DaysInYear.
  repeat match goal with
         | |- context [if ?c then _ else _] => destruct c
         end; lia.
Qed.

(** The first day of the month [mn] of the year [y]. *)
Lemma first_of_month (y mn : Z) :
  0 <= mn <= 11 ->
  let d := DayFromYear y + daysBeforeMonth (leapDays y) mn in
  YearFromTime (d * msPerDay) = y /\
  MonthFromTime (d * msPerDay) = mn /\
  DateFromTime (d * msPerDay) = 1.
Proof.
  intros Hm d.
  assert (Hcases : mn = 0 \/ mn = 1 \/ mn = 2 \/ mn = 3 \/ mn = 4 \/ mn = 5 \/
                   mn = 6 \/ mn = 7 \/ mn = 8 \/ mn = 9 \/ mn = 10 \/ mn = 11)
    by lia.
  pose proof (leapDays_range y) as Hl.
  assert (Hy : YearFromTime (d * msPerDay) = y).
  { apply YearFromTime_unique. rewrite DayFromYear_next.
    unfold d. unfold leapDays in *.
    destruct Hcases as [->|[->|[->|[->|[->|[->|[->|[->|[->|[->|[->| ->]]]]]]]]]]];
      cbn [daysBeforeMonth]; lia. }
  assert (Hw : DayWithinYear (d * msPerDay)
               = daysBeforeMonth (leapDays y) mn).
  { unfold DayWithinYear. rewrite Hy, Day_midnight. unfold d. lia. }
  assert (Hmn : MonthFromTime (d * msPerDay) = mn).
  { unfold MonthFromTime. rewrite Hw, Hy.
    destruct Hcases as [->|[->|[->|[->|[->|[->|[->|[->|[->|[->|[->| ->]]]]]]]]]]];
      cbn [daysBeforeMonth];
      repeat match goal with
             | |- context [?a <? ?b] => destruct (Z.ltb_spec a b); try lia
             end. }
  split; [exact Hy|]. split; [exact Hmn|].
  unfold DateFromTime. rewrite Hw, Hy, Hmn. lia.
Qed.

(** The first day of a month and the first day of the month before. *)
Lemma first_of_previous_month (t : Z) :
  let first := Day t - (DateFromTime t - 1) in
  let firstOfLast := MakeDay (YearFromTime t) (MonthFromTime t - 1) 1 in
  28 <= first - firstOfLast <= 31 /\
  DateFromTime (firstOfLast * msPerDay) = 1 /\
  DateFromTime (first * msPerDay) = 1.
Proof.
  intros first firstOfLast.
  pose proof (MonthFromTime_range t) as Hm.
  pose proof (leapDays_range (YearFromTime t)) as Hl.
  pose proof (leapDays_range (YearFromTime t - 1)) as Hl'.
  assert (Hfirst : first = DayFromYear (YearFromTime t)
                           + daysBeforeMonth (leapDays (YearFromTime t))
                               (MonthFromTime t)).
  { unfold first, DateFromTime, DayWithinYear. lia. }
  assert (Hlast : firstOfLast
                  = DayFromYear (YearFromTime t + (MonthFromTime t - 1) / 12)
                    + daysBeforeMonth
                        (leapDays (YearFromTime t + (MonthFromTime t - 1) / 12))
                        ((MonthFromTime t - 1) mod 12)).
  { unfold firstOfLast, MakeDay. lia. }
  split; [|split].
  - rewrite Hfirst, Hlast.
    destruct (Z.eq_dec (MonthFromTime t) 0) as [E|E].
    + rewrite E. change ((0 - 1) / 12) with (-1).
      change ((0 - 1) mod 12) with 11. cbn [daysBeforeMonth].
      replace (YearFromTime t + -1) with (YearFromTime t - 1) by lia.
      pose proof (DayFromYear_next (YearFromTime t - 1)) as Hn.
      replace (YearFromTime t - 1 + 1) with (YearFromTime t) in Hn by lia.
      unfold leapDays in *. lia.
    + rewrite (Z.div_small (MonthFromTime t - 1) 12) by lia.
      rewrite (Z.mod_small (MonthFromTime t - 1) 12) by lia.
      rewrite Z.add_0_r.
      assert (Hcases : MonthFromTime t = 1 \/ MonthFromTime t = 2 \/
                       MonthFromTime t = 3 \/ MonthFromTime t = 4 \/
                       MonthFromTime t = 5 \/ MonthFromTime t = 6 \/
                       MonthFromTime t = 7 \/ MonthFromTime t = 8 \/
                       MonthFromTime t = 9 \/ MonthFromTime t = 10 \/
                       MonthFromTime t = 11) by lia.
      destruct Hcases as [->|[->|[->|[->|[->|[->|[->|[->|[->|[->| ->]]]]]]]]]];
        match goal with
        | |- context [Z.pos ?p - 1] =>
          let v := eval compute in (Z.pos p - 1) in
          change (Z.pos p - 1) with v
        end; cbn [daysBeforeMonth]; lia.
  - rewrite Hlast. apply first_of_month.
    pose proof (Z.mod_pos_bound (MonthFromTime t - 1) 12 ltac:(lia)). lia.
  - rewrite Hfirst. now apply first_of_month.
Qed.

Section Zone.

Variable zone : Z -> bool -> Z.

Lemma newDate_day (t d hours minutes seconds ms : Z) :
  99 < YearFromTime t ->
  newDate zone (YearFromTime t) (MonthFromTime t) d hours minutes seconds ms
  = UTC zone ((Day t + (d - DateFromTime t)) * msPerDay
              + MakeTime hours minutes seconds ms).
Proof.
  intros H. unfold newDate.
  destruct (Z.leb_spec (YearFromTime t) 99); [lia|].
  rewrite andb_false_r, MakeDay_of_fields. reflexivity.
Qed.

Lemma setDate_days (t k : Z) :
  setDate zone t (getDate zone t + k)
  = UTC zone (LocalTime zone t + k * msPerDay).
Proof.
  unfold setDate, getDate. rewrite MakeDay_of_fields. unfold MakeDate.
  f_equal. pose proof (day_decomposition (LocalTime zone t)). lia.
Qed.

Lemma setHours_last (t : Z) :
  setHours zone t 23 59 59 999 = endOfDay zone (Day (LocalTime zone t)).
Proof. reflexivity. Qed.

End Zone.

Lemma fixed_keeps_midnights (tza : Z) : keeps_midnights (fixed tza).
Proof. intros d. unfold LocalTime, startOfDay, UTC, fixed. lia. Qed.

Lemma fixed_days_in_order (tza : Z) : days_in_order (fixed tza).
Proof.
  intros d. unfold startOfDay, endOfDay, UTC, fixed, msPerDay. lia.
Qed.

Lemma startOfDay_mono (zone : Z -> bool -> Z) (d d' : Z) :
  days_in_order zone -> d <= d' -> startOfDay zone d <= startOfDay zone d'.
Proof.
  intros H Hle. replace d' with (d + Z.of_nat (Z.to_nat (d' - d))) by lia.
  induction (Z.to_nat (d' - d)) as [|n IH]; [rewrite Z.add_0_r; lia|].
  pose proof (H (d + Z.of_nat n)) as Hd.
  replace (d + Z.of_nat (S n)) with (d + Z.of_nat n + 1) by lia. lia.
Qed.

End JsDateSpec.

(** ** The finance report *)

Module FinanceSpec.
Import JsDate JsDateSpec Finance.

Section Period.

Variable tza : Z.

Lemma fields_at_midnight (t : Z) :
  getFullYear (fixed tza) (midnight tza t) = getFullYear (fixed tza) t /\
  getMonth (fixed tza) (midnight tza t) = getMonth (fixed tza) t /\
  getDate (fixed tza) (midnight tza t) = getDate (fixed tza) t.
Proof.
  unfold getFullYear, getMonth, getDate. rewrite local_midnight.
  pose proof (fields_of_day (LocalTime (fixed tza) t)
                (Day (LocalTime (fixed tza) t) * msPerDay) (Day_midnight _)).
  tauto.
Qed.

Lemma end_of_day (t k : Z) :
  setHours (fixed tza) (midnight tza t + k * msPerDay) 23 59 59 999
    = midnight tza t + (k + 1) * msPerDay - 1.
Proof.
  rewrite setHours_end_of_day.
  replace (LocalTime (fixed tza) (midnight tza t + k * msPerDay))
    with ((Day (LocalTime (fixed tza) t) + k) * msPerDay)
    by (unfold fixed, LocalTime, midnight; lia).
  rewrite Day_midnight. unfold fixed, midnight, LocalTime. lia.
Qed.

Lemma range_today (now : Z) :
  99 < getFullYear (fixed tza) now ->
  getDateRange (fixed tza) now Finance.today = (midnight tza now, now).
Proof. intros H. unfold getDateRange. now rewrite newDate_of_fields. Qed.

Lemma range_yesterday (now : Z) :
  99 < getFullYear (fixed tza) now ->
  getDateRange (fixed tza) now Finance.yesterday
    = (midnight tza now - msPerDay, midnight tza now - 1).
Proof.
  intros H. unfold getDateRange. rewrite newDate_of_fields by exact H.
  replace (getDate (fixed tza) (midnight tza now) - 1)
    with (getDate (fixed tza) (midnight tza now) + -1) by lia.
  rewrite setDate_relative, end_of_day. f_equal; lia.
Qed.

Lemma range_this_week (now : Z) :
  99 < getFullYear (fixed tza) now ->
  getDateRange (fixed tza) now this_week
    = (midnight tza now - getDay (fixed tza) now * msPerDay, now).
Proof.
  intros H. unfold getDateRange. rewrite newDate_of_fields by exact H.
  replace (getDate (fixed tza) (midnight tza now) - getDay (fixed tza) (midnight tza now))
    with (getDate (fixed tza) (midnight tza now) + - getDay (fixed tza) (midnight tza now))
    by lia.
  rewrite setDate_relative, getDay_midnight. f_equal; lia.
Qed.

Lemma range_last_week (now : Z) :
  99 < getFullYear (fixed tza) now ->
  getDateRange (fixed tza) now last_week
    = (midnight tza now - getDay (fixed tza) now * msPerDay - 7 * msPerDay,
       midnight tza now - getDay (fixed tza) now * msPerDay - 1).
Proof.
  intros H. unfold getDateRange. rewrite newDate_of_fields by exact H.
  replace (getDate (fixed tza) (midnight tza now) - getDay (fixed tza) (midnight tza now) - 7)
    with (getDate (fixed tza) (midnight tza now)
          + (- getDay (fixed tza) (midnight tza now) - 7)) by lia.
  rewrite !setDate_relative, getDay_midnight.
  replace (midnight tza now + (- getDay (fixed tza) now - 7) * msPerDay
           + 6 * msPerDay)
    with (midnight tza now + (- getDay (fixed tza) now - 1) * msPerDay) by lia.
  rewrite end_of_day. f_equal; lia.
Qed.

Lemma range_this_month (now : Z) :
  99 < getFullYear (fixed tza) now ->
  getDateRange (fixed tza) now this_month
    = (midnight tza now - (getDate (fixed tza) now - 1) * msPerDay, now).
Proof.
  intros H. unfold getDateRange. rewrite newDate_of_fields by exact H.
  destruct (fields_at_midnight now) as (Ey & Em & _). rewrite Ey, Em.
  f_equal. unfold newDate, getFullYear, getMonth, getDate in *.
  destruct (Z.leb_spec (YearFromTime (LocalTime (fixed tza) now)) 99); [lia|].
  rewrite andb_false_r, MakeDay_of_fields.
  unfold fixed, UTC, MakeDate, MakeTime, midnight, LocalTime. lia.
Qed.

Lemma range_last_month_end (now : Z) :
  99 < getFullYear (fixed tza) now ->
  snd (getDateRange (fixed tza) now last_month)
    = fst (getDateRange (fixed tza) now this_month) - 1.
Proof.
  intros H. rewrite range_this_month by exact H.
  unfold getDateRange. rewrite newDate_of_fields by exact H.
  destruct (fields_at_midnight now) as (Ey & Em & _). rewrite Ey, Em.
  simpl. unfold newDate, getFullYear, getMonth, getDate in *.
  destruct (Z.leb_spec (YearFromTime (LocalTime (fixed tza) now)) 99); [lia|].
  rewrite andb_false_r, MakeDay_of_fields.
  unfold fixed, UTC, MakeDate, MakeTime, midnight, LocalTime, msPerDay. lia.
Qed.

Lemma sunday_start (now k : Z) :
  getDay (fixed tza) (midnight tza now - getDay (fixed tza) now * msPerDay - 7 * k * msPerDay)
    = 0.
Proof.
  replace (midnight tza now - getDay (fixed tza) now * msPerDay - 7 * k * msPerDay)
    with (midnight tza now - (getDay (fixed tza) now + 7 * k) * msPerDay) by lia.
  rewrite getDay_minus_days, getDay_midnight.
  replace (getDay (fixed tza) now - (getDay (fixed tza) now + 7 * k)) with ((- k) * 7) by lia.
  apply Z.mod_mul. discriminate.
Qed.

End Period.

Lemma filteredSales_In (zone : Z -> bool -> Z) (now : Z) (period : Period)
    (sales : list Sale) (sale : Sale) :
  In sale (filteredSales zone now period sales) <->
  In sale sales /\
  exists t, created_at sale = Some t /\
            fst (getDateRange zone now period) <= t
              <= snd (getDateRange zone now period).
Proof.
  unfold filteredSales. rewrite filter_In. unfold inRange. split.
  - intros [Hin H]. split; [exact Hin|].
    destruct (created_at sale) as [t|]; [|discriminate].
    exists t. split; [reflexivity|].
    apply andb_prop in H. destruct H as [H1 H2].
    apply Z.leb_le in H1, H2. lia.
  - intros [Hin (t & E & H1 & H2)]. split; [exact Hin|]. rewrite E.
    apply andb_true_intro. split; now apply Z.leb_le.
Qed.

Section ZonePeriod.

Variable zone : Z -> bool -> Z.
Variable now : Z.
Hypothesis year : 99 < getFullYear zone now.
Hypothesis keeps : keeps_midnights zone.

(** The local day of [now], and the time value of its start. *)
Lemma today_start :
  newDate zone (getFullYear zone now) (getMonth zone now)
    (getDate zone now) 0 0 0 0
  = startOfDay zone (Day (LocalTime zone now)).
Proof.
  unfold getFullYear, getMonth, getDate in *.
  rewrite newDate_day by exact year. unfold startOfDay, MakeTime.
  f_equal. lia.
Qed.

Lemma fields_at_start (d : Z) :
  getFullYear zone (startOfDay zone d) = YearFromTime (d * msPerDay) /\
  getMonth zone (startOfDay zone d) = MonthFromTime (d * msPerDay) /\
  getDate zone (startOfDay zone d) = DateFromTime (d * msPerDay) /\
  getDay zone (startOfDay zone d) = WeekDay (d * msPerDay).
Proof.
  unfold getFullYear, getMonth, getDate, getDay. now rewrite keeps.
Qed.

Lemma fields_today :
  let day := Day (LocalTime zone now) in
  YearFromTime (day * msPerDay) = getFullYear zone now /\
  MonthFromTime (day * msPerDay) = getMonth zone now /\
  DateFromTime (day * msPerDay) = getDate zone now /\
  WeekDay (day * msPerDay) = getDay zone now.
Proof.
  intros day. unfold getFullYear, getMonth, getDate, getDay.
  apply (fields_of_day (LocalTime zone now)). apply Day_midnight.
Qed.

Lemma setDate_at_start (d k : Z) :
  setDate zone (startOfDay zone d) (getDate zone (startOfDay zone d) + k)
  = startOfDay zone (d + k).
Proof.
  rewrite setDate_days, keeps. unfold startOfDay. f_equal. lia.
Qed.

Lemma setHours_at_start (d : Z) :
  setHours zone (startOfDay zone d) 23 59 59 999 = endOfDay zone d.
Proof. now rewrite setHours_last, keeps, Day_midnight. Qed.

Lemma zone_ranges :
  let day := Day (LocalTime zone now) in
  let sunday := day - getDay zone now in
  let first := day - (getDate zone now - 1) in
  let firstOfLast :=
    MakeDay (getFullYear zone now) (getMonth zone now - 1) 1 in
  getDateRange zone now Finance.today = (startOfDay zone day, now) /\
  getDateRange zone now Finance.yesterday
    = (startOfDay zone (day - 1), endOfDay zone (day - 1)) /\
  getDateRange zone now this_week = (startOfDay zone sunday, now) /\
  getDateRange zone now last_week
    = (startOfDay zone (sunday - 7), endOfDay zone (sunday - 1)) /\
  getDateRange zone now this_month = (startOfDay zone first, now) /\
  getDateRange zone now last_month
    = (startOfDay zone firstOfLast, endOfDay zone (first - 1)).
Proof.
  intros day sunday first firstOfLast.
  destruct fields_today as (Ey & Em & Ed & Ew). fold day in Ey, Em, Ed, Ew.
  destruct (fields_at_start day) as (Fy & Fm & Fd & Fw).
  rewrite Ey in Fy. rewrite Em in Fm. rewrite Ed in Fd. rewrite Ew in Fw.
  assert (Y99 : 99 < YearFromTime (day * msPerDay)) by now rewrite Ey.
  unfold getDateRange. rewrite today_start. fold day.
  rewrite Fy, Fm, Fw.
  split; [reflexivity|].
  split.
  { replace (getDate zone (startOfDay zone day) - 1)
      with (getDate zone (startOfDay zone day) + -1) by lia.
    rewrite setDate_at_start, setHours_at_start. reflexivity. }
  split.
  { replace (getDate zone (startOfDay zone day) - getDay zone now)
      with (getDate zone (startOfDay zone day) + - getDay zone now) by lia.
    rewrite setDate_at_start. reflexivity. }
  split.
  { replace (getDate zone (startOfDay zone day) - getDay zone now - 7)
      with (getDate zone (startOfDay zone day) + (- getDay zone now - 7))
      by lia.
    rewrite !setDate_at_start, setHours_at_start.
    f_equal; f_equal; unfold sunday; lia. }
  split.
  { rewrite <- Ey, <- Em, (newDate_day zone _ _ _ _ _ _ Y99), Ed.
    rewrite Day_midnight.
    unfold startOfDay, MakeTime, first. f_equal.
    apply (f_equal (UTC zone)). unfold msPerDay. lia. }
  rewrite <- Ey, <- Em.
  rewrite (newDate_day zone _ 0 23 59 59 999 Y99), Ed, Day_midnight.
  f_equal.
  - unfold newDate. rewrite Ey, Em in *.
    destruct (Z.leb_spec (getFullYear zone now) 99); [lia|].
    rewrite andb_false_r. unfold startOfDay, MakeDate, MakeTime, firstOfLast.
    apply (f_equal (UTC zone)). unfold msPerDay. lia.
  - unfold endOfDay, MakeTime, first, msPerDay.
    apply (f_equal (UTC zone)). lia.
Qed.

Lemma zone_range_days :
  let day := Day (LocalTime zone now) in
  let sunday := day - getDay zone now in
  let first := day - (getDate zone now - 1) in
  let firstOfLast :=
    MakeDay (getFullYear zone now) (getMonth zone now - 1) 1 in
  getDay zone (startOfDay zone sunday) = 0 /\
  getDay zone (startOfDay zone (sunday - 7)) = 0 /\
  getDate zone (startOfDay zone first) = 1 /\
  getDate zone (startOfDay zone firstOfLast) = 1 /\
  28 <= first - firstOfLast <= 31.
Proof.
  intros day sunday first firstOfLast.
  pose proof (first_of_previous_month (LocalTime zone now)) as (H1 & H2 & H3).
  fold day in H1, H2, H3.
  change (DateFromTime (LocalTime zone now)) with (getDate zone now) in *.
  change (YearFromTime (LocalTime zone now)) with (getFullYear zone now) in *.
  change (MonthFromTime (LocalTime zone now)) with (getMonth zone now) in *.
  fold first in H1, H3. fold firstOfLast in H1, H2.
  assert (Hw : forall k, getDay zone (startOfDay zone (sunday - 7 * k)) = 0).
  { intros k. rewrite (proj2 (proj2 (proj2 (fields_at_start _)))).
    unfold WeekDay. rewrite Day_midnight. unfold sunday, getDay, WeekDay.
    fold day. Z.to_euclidean_division_equations. lia. }
  split; [now rewrite <- (Hw 0), Z.mul_0_r, Z.sub_0_r|].
  split; [exact (Hw 1)|].
  split; [now rewrite (proj1 (proj2 (proj2 (fields_at_start _))))|].
  split; [now rewrite (proj1 (proj2 (proj2 (fields_at_start _))))|].
  exact H1.
Qed.

End ZonePeriod.

(** C6, as the code has it.  For every period, every time zone and every
    current time the filter keeps exactly the sales whose creation time [t]
    satisfies [start <= t <= end], both bounds included, for the range
    [(start, end)] of the period.  For a current time after the year 99,
    in a time zone whose changes of offset skip no local midnight: today
    runs from the start of the local day to now; yesterday is the whole
    local day before, from its start to its last millisecond; this week
    runs from the start of the last Sunday to now; last week is the seven
    local days before that Sunday; this month runs from the start of its
    first day to now, and last month from the start of the first day of
    the month before to the last millisecond before this month.  Without
    daylight saving every one of these days has 24 hours. *)
Theorem filteredSales_closed_interval (zone : Z -> bool -> Z) (now : Z)
    (period : Period) (sales : list Sale) :
  (forall sale,
     In sale (filteredSales zone now period sales) <->
     In sale sales /\
     exists t, created_at sale = Some t /\
               fst (getDateRange zone now period) <= t
                 <= snd (getDateRange zone now period)) /\
  (99 < getFullYear zone now -> keeps_midnights zone ->
   let day := Day (LocalTime zone now) in
   let sunday := day - getDay zone now in
   let first := day - (getDate zone now - 1) in
   let firstOfLast :=
     MakeDay (getFullYear zone now) (getMonth zone now - 1) 1 in
   getDateRange zone now Finance.today = (startOfDay zone day, now) /\
   getDateRange zone now Finance.yesterday
     = (startOfDay zone (day - 1), endOfDay zone (day - 1)) /\
   getDateRange zone now this_week = (startOfDay zone sunday, now) /\
   getDateRange zone now last_week
     = (startOfDay zone (sunday - 7), endOfDay zone (sunday - 1)) /\
   getDateRange zone now this_month = (startOfDay zone first, now) /\
   getDateRange zone now last_month
     = (startOfDay zone firstOfLast, endOfDay zone (first - 1)) /\
   getDay zone (startOfDay zone sunday) = 0 /\
   getDay zone (startOfDay zone (sunday - 7)) = 0 /\
   getDate zone (startOfDay zone first) = 1 /\
   getDate zone (startOfDay zone firstOfLast) = 1 /\
   28 <= first - firstOfLast <= 31) /\
  (forall tza d,
     keeps_midnights (fixed tza) /\
     startOfDay (fixed tza) d = d * msPerDay - tza /\
     endOfDay (fixed tza) d = startOfDay (fixed tza) (d + 1) - 1).
Proof.
  split; [intros sale; apply filteredSales_In|]. split.
  - intros Hy Hk day sunday first firstOfLast.
    pose proof (zone_ranges zone now Hy Hk) as (R1 & R2 & R3 & R4 & R5 & R6).
    pose proof (zone_range_days zone now Hk) as (D1 & D2 & D3 & D4 & D5).
    repeat (split; [assumption|]). exact D5.
  - intros tza d. split; [apply fixed_keeps_midnights|].
    unfold startOfDay, endOfDay, UTC, fixed. split; lia.
Qed.

(** The same selection as a half-open interval: it ends one millisecond
    after [end]. *)
Lemma filteredSales_half_open_after_end (zone : Z -> bool -> Z) (now : Z)
    (period : Period) (sales : list Sale) (sale : Sale) :
  In sale (filteredSales zone now period sales) <->
  In sale sales /\
  exists t, created_at sale = Some t /\
            fst (getDateRange zone now period) <= t
              < snd (getDateRange zone now period) + 1.
Proof.
  rewrite filteredSales_In.
  split; intros [Hin (t & E & H)]; (split; [exact Hin|]); exists t;
    (split; [exact E | lia]).
Qed.

(** C6, as the specification words it, does not hold: with the range read as
    half-open at its end, the sale created at [end] would be left out, and
    read as half-open at its start, the sale created at [start]; the filter
    keeps both. *)
Lemma filteredSales_not_half_open :
  ~ (forall (zone : Z -> bool -> Z) (now : Z) (period : Period)
            (sales : list Sale) (sale : Sale),
       In sale (filteredSales zone now period sales) <->
       In sale sales /\
       exists t, created_at sale = Some t /\
                 fst (getDateRange zone now period) <= t
                   < snd (getDateRange zone now period)) /\
  ~ (forall (zone : Z -> bool -> Z) (now : Z) (period : Period)
            (sales : list Sale) (sale : Sale),
       In sale (filteredSales zone now period sales) <->
       In sale sales /\
       exists t, created_at sale = Some t /\
                 fst (getDateRange zone now period) < t
                   <= snd (getDateRange zone now period)).
Proof.
  set (now := 1793613600000).
  set (atEnd := mkSale 1 (25 # 1) (15 # 1) (Some now) []).
  set (atStart := mkSale 2 (25 # 1) (15 # 1) (Some 1793577600000) []).
  split; intros H.
  - destruct (proj1 (H (fixed 0) now Finance.today [atEnd] atEnd))
      as [_ (t & E & H1 & H2)]; [vm_compute; now left|].
    injection E as <-. vm_compute in H2. discriminate.
  - destruct (proj1 (H (fixed 0) now Finance.today [atStart] atStart))
      as [_ (t & E & H1 & H2)]; [vm_compute; now left|].
    injection E as <-. vm_compute in H1. discriminate.
Qed.

Lemma reduce_sum_sales (value : Sale -> Q) (sales : list Sale) (a : Q) :
  (fold_left (fun sum sale => sum + value sale) sales a
     == a + sum_sales value sales)%Q.
Proof.
  revert a. induction sales as [|x sales IH]; intros a; simpl.
  - ring.
  - rewrite IH. ring.
Qed.

Lemma sum_sales_nonneg (value : Sale -> Q) (sales : list Sale) :
  Forall (fun sale => (0 <= value sale)%Q) sales ->
  (0 <= sum_sales value sales)%Q.
Proof.
  induction 1 as [|x sales Hx _ IH]; simpl; [apply Qle_refl|].
  rewrite <- (Qplus_0_l 0). now apply Qplus_le_compat.
Qed.

(** The guard [totalRevenue > 0] of the margin. *)
Lemma profitMargin_guard (sales : list Sale) :
  let m := financialMetrics sales in
  ((totalRevenue m <= 0)%Q -> (profitMargin m == 0)%Q) /\
  ((0 < totalRevenue m)%Q ->
     (profitMargin m
        == (totalRevenue m - totalCost m) / totalRevenue m * inject_Z 100)%Q).
Proof.
  unfold financialMetrics. simpl.
  set (rev := fold_left (fun sum sale => (sum + total_amount sale)%Q) sales 0%Q).
  unfold positive. split; intros H.
  - apply Qle_bool_iff in H. now rewrite H.
  - destruct (Qle_bool rev 0) eqn:E; [|reflexivity].
    apply Qle_bool_iff in E. exfalso. exact (Qlt_not_le _ _ H E).
Qed.

(** The revenue and the cost are the sums of total_amount and total_cost
    over the sales, the profit is their difference, and the margin is 0
    whenever the revenue is not positive and profit / revenue x 100 whenever
    it is positive. *)
Lemma financialMetrics_sums (sales : list Sale) :
  let m := financialMetrics sales in
  (totalRevenue m == sum_sales total_amount sales)%Q /\
  (totalCost m == sum_sales total_cost sales)%Q /\
  (totalProfit m == totalRevenue m - totalCost m)%Q /\
  ((totalRevenue m <= 0)%Q -> (profitMargin m == 0)%Q) /\
  ((0 < totalRevenue m)%Q ->
     (profitMargin m
        == (totalRevenue m - totalCost m) / totalRevenue m * inject_Z 100)%Q).
Proof.
  intros m. destruct (profitMargin_guard sales) as [Hle Hlt]. fold m in Hle, Hlt.
  split; [unfold m, financialMetrics; simpl; rewrite reduce_sum_sales; ring|].
  split; [unfold m, financialMetrics; simpl; rewrite reduce_sum_sales; ring|].
  split; [reflexivity|].
  split; assumption.
Qed.


End FinanceSpec.

(** ** The theorems at the sample data *)

Module Witness.
Import Supabase Pos Examples.

Lemma handleUpdateQuantity_spec_witness :
  List.find (has_id 1) (products shop) = Some tea /\
  0 <= stock tea /\
  In teaLine (cart shop) /\ product_id teaLine = 1 /\
  0 < 3 <= stock tea /\
  Forall2 (requantified 1 3) (cart shop)
    (cart (handleUpdateQuantity 1 3 shop)).
Proof.
  assert (H1 : List.find (has_id 1) (products shop) = Some tea)
    by reflexivity.
  assert (H2 : 0 <= stock tea) by (simpl; lia).
  assert (H3 : In teaLine (cart shop)) by (left; reflexivity).
  assert (H4 : 0 < 3 <= stock tea) by (simpl; lia).
  split; [exact H1|]. split; [exact H2|]. split; [exact H3|].
  split; [reflexivity|]. split; [exact H4|].
  exact (proj1 (proj2 (proj2
    (PosSpec.handleUpdateQuantity_spec shop 1 3 tea teaLine
       H1 H2 H3 eq_refl)) H4)).
Defined.

Lemma handleUpdateQuantity_unknown_product_witness :
  List.find (has_id 1) (products shopWithoutTea) = None /\
  In teaLine (cart shopWithoutTea) /\ product_id teaLine = 1 /\
  0 < 99 /\
  In (with_quantity teaLine 99)
    (cart (handleUpdateQuantity 1 99 shopWithoutTea)).
Proof.
  assert (H3 : In teaLine (cart shopWithoutTea)) by (left; reflexivity).
  assert (H4 : 0 < 99) by lia.
  split; [reflexivity|]. split; [exact H3|]. split; [reflexivity|].
  split; [exact H4|].
  exact (proj1 (proj2
    (PosSpec.handleUpdateQuantity_unknown_product shopWithoutTea 1 99 teaLine
       eq_refl H3 eq_refl H4))).
Defined.

Lemma handleAddToCart_spec_witness :
  List.find (has_id 1) (products shop) = Some tea /\
  List.find (is_line 1) (cart shop) = Some teaLine /\
  quantity teaLine + 1 <= stock tea /\
  In (with_quantity teaLine (quantity teaLine + 1))
    (cart (handleAddToCart 1 shop)).
Proof.
  assert (H : quantity teaLine + 1 <= stock tea) by (simpl; lia).
  split; [reflexivity|]. split; [reflexivity|]. split; [exact H|].
  exact (proj1 (proj2 (proj1 (proj2
    (PosSpec.handleAddToCart_spec shop 1 tea eq_refl)) teaLine eq_refl H))).
Defined.

Lemma cart_total_order_independent_witness :
  exact_amounts price_at_sale example_cart /\
  Permutation example_cart (List.rev example_cart) /\
  Cart.total (List.rev example_cart) = Cart.total example_cart.
Proof.
  assert (H0 : exact_amounts price_at_sale example_cart).
  { split; [repeat constructor; reflexivity | reflexivity]. }
  assert (H : Permutation example_cart (List.rev example_cart))
    by apply perm_swap.
  split; [exact H0|]. split; [exact H|].
  exact (proj2 (proj2 (proj2 (proj2
    (CartSpec.cart_total_order_independent example_cart))) H0) _ H).
Defined.

Lemma handleCheckout_spec_witness :
  user checkoutShop = Some "owner"%string /\
  cart checkoutShop <> [] /\
  sale_insert_fails no_faults = false /\
  items_insert_fails no_faults = false /\
  exact_amounts price_at_sale (cart checkoutShop) /\
  exists sale,
    sales (snd (fst (handleCheckout no_faults checkoutShop backend)))
      = sales backend ++ [sale] /\
    total_amount sale = JsNumber.ofZ 25 /\
    exists t, total_amount sale = JsNumber.Finite t /\
              (t == sum_over price_at_sale (cart checkoutShop))%Q.
Proof.
  assert (H2 : cart checkoutShop <> []) by discriminate.
  assert (H5 : exact_amounts price_at_sale (cart checkoutShop)).
  { split; [repeat constructor; reflexivity | reflexivity]. }
  split; [reflexivity|]. split; [exact H2|]. split; [reflexivity|].
  split; [reflexivity|]. split; [exact H5|].
  destruct (proj1 CheckoutSpec.handleCheckout_spec no_faults checkoutShop
              backend "owner"%string eq_refl H2 eq_refl eq_refl)
    as (sale & E1 & _ & E3 & _ & _ & E6 & _).
  exists sale. split; [exact E1|].
  split; [exact (eq_trans E3 eq_refl) | exact (E6 H5)].
Defined.

Lemma createSale_stock_clamped_witness :
  sale_insert_fails no_faults = false /\
  items_insert_fails no_faults = false /\
  (forall k, product_fetch_fails no_faults k = false) /\
  (forall k, stock_update_fails no_faults k = false) /\
  List.NoDup (List.map product_id example_cart) /\
  In (mkCartItem 1 2 (10 # 1) (6 # 1)) example_cart /\
  product_stock backend !! 1 = Some 1 /\
  product_stock
    (fst (fst (createSale CartItem product_id quantity no_faults "owner"
                 example_cart (JsNumber.ofZ 25) (JsNumber.ofZ 15)
                 backend))) !! 1 = Some 0.
Proof.
  assert (H5 : List.NoDup (List.map product_id example_cart)).
  { simpl. constructor; [intros [E|[]]; discriminate|].
    constructor; [intros []|constructor]. }
  assert (H6 : In (mkCartItem 1 2 (10 # 1) (6 # 1)) example_cart)
    by (left; reflexivity).
  assert (H7 : product_stock backend !! 1 = Some 1) by reflexivity.
  split; [reflexivity|]. split; [reflexivity|].
  split; [intros k; reflexivity|]. split; [intros k; reflexivity|].
  split; [exact H5|]. split; [exact H6|]. split; [exact H7|].
  exact (proj2 (proj2
    (StockSpec.createSale_stock_clamped product_id quantity no_faults "owner"
       example_cart (JsNumber.ofZ 25) (JsNumber.ofZ 15) backend))
    eq_refl eq_refl (fun _ => eq_refl) (fun _ => eq_refl) H5 _ 1 H6 H7).
Defined.

Lemma upload_failure_saves_with_placeholder_witness :
  uploadFailed "owner" largeFile uploadError = true /\
  ProductForm.submitted
    (ProductForm.handleSubmit accept acceptUpdate true (Some "owner"%string)
       None blankForm (Some largeFile) uploadError)
  = Some (ProductForm.productData None blankForm tooLargeUrl) /\
  ProductForm.formError
    (ProductForm.handleSubmit accept acceptUpdate true (Some "owner"%string)
       None blankForm (Some largeFile) uploadError)
  = None.
Proof.
  split; [reflexivity|].
  exact (proj1 (proj2 (proj2 (proj2
    (ProductFormSpec.upload_failure_saves_with_placeholder accept acceptUpdate
       "owner" None blankForm largeFile uploadError eq_refl)))) _ eq_refl).
Defined.

Lemma new_products_filter_witness :
  catalog20 <> [] /\
  Forall (fun p => created_at p <> None) catalog20 /\
  List.length catalog20 = 20%nat /\
  List.length (Inventory.applyFilter (fun l => l) Inventory.new catalog20 [])
    = 5%nat /\
  StronglySorted Inventory.newer_or_same
    (Inventory.applyFilter (fun l => l) Inventory.new catalog20 []).
Proof.
  assert (H1 : catalog20 <> []) by discriminate.
  assert (H2 : Forall (fun p => created_at p <> None) catalog20)
    by (repeat constructor; discriminate).
  split; [exact H1|]. split; [exact H2|]. split; [reflexivity|].
  pose proof (InventorySpec.new_products_filter (fun l => l) catalog20 []
                H1 H2)
    as (_ & _ & _ & _ & Hs & _ & H20 & _).
  split; [exact (H20 eq_refl) | exact Hs].
Defined.

Lemma filteredSales_closed_interval_witness :
  99 < JsDate.getFullYear fallBack2026 nowSample /\
  JsDate.keeps_midnights fallBack2026 /\
  Finance.getDateRange fallBack2026 nowSample Finance.yesterday
    = (1793505600000, 1793595599999) /\
  1793595599999 - 1793505600000 + 1 = 25 * 3600000 /\
  ~ In (saleAt 1 1793505599999)
      (Finance.filteredSales fallBack2026 nowSample Finance.yesterday
         salesAroundYesterday) /\
  In (saleAt 2 1793505600000)
    (Finance.filteredSales fallBack2026 nowSample Finance.yesterday
       salesAroundYesterday) /\
  In (saleAt 3 1793595599999)
    (Finance.filteredSales fallBack2026 nowSample Finance.yesterday
       salesAroundYesterday) /\
  ~ In (saleAt 4 1793595600000)
      (Finance.filteredSales fallBack2026 nowSample Finance.yesterday
         salesAroundYesterday).
Proof.
  assert (H : 99 < JsDate.getFullYear fallBack2026 nowSample)
    by (vm_compute; reflexivity).
  assert (K : JsDate.keeps_midnights fallBack2026).
  { intros d.
    unfold JsDate.LocalTime, JsDate.startOfDay, JsDate.UTC, fallBack2026,
      JsDate.msPerDay.
    destruct (Z.ltb_spec (d * 86400000) (1793512800000 - 14400000));
      destruct (Z.ltb_spec (d * 86400000 - -14400000) 1793512800000);
      destruct (Z.ltb_spec (d * 86400000 - -18000000) 1793512800000);
      lia. }
  pose proof (FinanceSpec.filteredSales_closed_interval fallBack2026
                nowSample Finance.yesterday salesAroundYesterday)
    as (M & R & _).
  pose proof (R H K) as (_ & R2 & _).
  assert (E : Finance.getDateRange fallBack2026 nowSample Finance.yesterday
              = (1793505600000, 1793595599999))
    by (rewrite R2; vm_compute; reflexivity).
  rewrite E in M. cbn [fst snd] in M.
  split; [exact H|]. split; [exact K|]. split; [exact E|].
  split; [reflexivity|].
  split.
  { intros I. destruct (proj1 (M _) I) as (_ & t & Et & Ht).
    injection Et as <-. lia. }
  split.
  { apply (proj2 (M _)). split; [right; left; reflexivity|].
    exists 1793505600000. split; [reflexivity | lia]. }
  split.
  { apply (proj2 (M _)). split; [right; right; left; reflexivity|].
    exists 1793595599999. split; [reflexivity | lia]. }
  intros I. destruct (proj1 (M _) I) as (_ & t & Et & Ht).
  injection Et as <-. lia.
Defined.


End Witness.

(** * Further properties *)

(** ** Checkout: failures, the backend and the cache *)

Module CheckoutMore.
Import Supabase Pos Session.

(** What [handleCheckout] computes when a user is signed in and the cart
    is not empty. *)
Lemma handleCheckout_unfold (f : Faults) (st : State) (db : Db CartItem)
    (userId : string) :
  user st = Some userId -> cart st <> [] ->
  handleCheckout f st db =
    match createSale CartItem product_id quantity f userId (cart st)
            (totalAmount (cart st)) (totalCost (cart st)) db with
    | (db', log, Ok _) =>
      (showModal sale_completed success
         (setCart (fun _ => [])
            (setProducts
               (List.map (fun product =>
                  match List.find (line_of product) (cart st) with
                  | Some cartItem =>
                    with_stock product (stock product - quantity cartItem)
                  | None => product
                  end) (products st)) st)),
       db', log)
    | (db', log, Err _) =>
      (showModal error_completing_sale error st, db', log)
    end.
Proof.
  intros Hu Hc. unfold handleCheckout. rewrite Hu.
  destruct (cart st) as [|l c]; [congruence|]. reflexivity.
Qed.

(** X1.  Without a user or with an empty cart [handleCheckout] changes
    nothing.  When the backend refuses the sale, the backend is unchanged
    and the page keeps its cart and its catalog and shows the error
    notice.  When it accepts the sale and refuses the items, the sale row
    stays in the backend without any item, no stock is touched, and the
    page again keeps its cart and shows the error notice. *)
Theorem handleCheckout_failures (f : Faults) (st : State)
    (db : Db CartItem) :
  let st' := fst (fst (handleCheckout f st db)) in
  let db' := snd (fst (handleCheckout f st db)) in
  (user st = None \/ cart st = [] -> st' = st /\ db' = db) /\
  (forall userId, user st = Some userId -> cart st <> [] ->
     sale_insert_fails f = true ->
     db' = db /\ st' = showModal error_completing_sale error st) /\
  (forall userId, user st = Some userId -> cart st <> [] ->
     sale_insert_fails f = false -> items_insert_fails f = true ->
     sales db' =
       sales db ++ [mkSaleRow (sale_seq db) userId (totalAmount (cart st))
                      (totalCost (cart st))] /\
     sale_items db' = sale_items db /\
     product_stock db' = product_stock db /\
     st' = showModal error_completing_sale error st).
Proof.
  split; [|split].
  - intros [H|H]; unfold handleCheckout.
    + now rewrite H.
    + destruct (user st); [|now split]. now rewrite H.
  - intros userId Hu Hc Hs. rewrite (handleCheckout_unfold f st db userId Hu Hc).
    unfold createSale. rewrite Hs. now split.
  - intros userId Hu Hc Hs Hi.
    rewrite (handleCheckout_unfold f st db userId Hu Hc).
    unfold createSale. rewrite Hs, Hi. now repeat split.
Qed.

End CheckoutMore.

(** ** The stock loop under failures *)

Module StockMore.
Import Supabase.

Section Loop.

Context {Item : Type} (pid qty : Item -> Z).

Lemma loop_at (f : Faults) (items : list Item) (i k : nat)
    (acc : gmap Z Z * list StockLog) (x : Item) :
  List.NoDup (List.map pid items) ->
  nth_error items k = Some x ->
  fst (updateStocks Item pid qty f i items acc) !! pid x =
    match fetchStock f (i + k) (pid x) (fst acc) with
    | Some s =>
      if stock_update_fails f (i + k) then fst acc !! pid x
      else Some (Z.max 0 (s - qty x))
    | None => fst acc !! pid x
    end.
Proof.
  revert i k acc. induction items as [|y items IH]; intros i k acc Hnd Hk.
  - destruct k; discriminate.
  - inversion Hnd as [|? ? Hn Hd]; subst. destruct k as [|k]; simpl in Hk.
    + injection Hk as ->. rewrite Nat.add_0_r. simpl.
      destruct (fetchStock f i (pid x) (fst acc)) as [s|];
        [|now apply StockSpec.loop_frame].
      destruct (stock_update_fails f i);
        [now apply StockSpec.loop_frame|].
      rewrite StockSpec.loop_frame by exact Hn. simpl.
      apply lookup_insert_eq.
    + assert (Hne : pid y <> pid x).
      { intros E. apply Hn. rewrite E. apply in_map.
        eapply nth_error_In; eassumption. }
      replace (i + S k)%nat with (S i + k)%nat by lia.
      simpl updateStocks.
      destruct (fetchStock f i (pid y) (fst acc)) as [sy|];
        [|now apply IH].
      destruct (stock_update_fails f i); [now apply IH|].
      rewrite (IH (S i) k _ Hd Hk). unfold fetchStock. simpl.
      now rewrite lookup_insert_ne.
Qed.

End Loop.

(** X2.  In a sale whose items are of different products, the stock
    requests of one item do not depend on the others: when the fetch and
    the update of the item at position [k] succeed, the stock of its
    product ends as [max 0 (stock - quantity)] whatever happens to the
    other items; when one of them fails, or the product has no row, its
    stock is left as it was, and the loop goes on. *)
Theorem createSale_isolates_faults {Item : Type} (pid qty : Item -> Z)
    (f : Faults) (userId : string) (saleItems : list Item)
    (total cost : JsNumber.number)
    (db : Db Item) (k : nat) (x : Item) :
  sale_insert_fails f = false -> items_insert_fails f = false ->
  List.NoDup (List.map pid saleItems) ->
  nth_error saleItems k = Some x ->
  let tbl' :=
    product_stock
      (fst (fst (createSale Item pid qty f userId saleItems total cost db))) in
  (product_fetch_fails f k = false -> stock_update_fails f k = false ->
   forall s, product_stock db !! pid x = Some s ->
     tbl' !! pid x = Some (Z.max 0 (s - qty x))) /\
  (product_fetch_fails f k = true \/ stock_update_fails f k = true \/
   product_stock db !! pid x = None ->
   tbl' !! pid x = product_stock db !! pid x).
Proof.
  intros Hs Hi Hnd Hk. unfold createSale. rewrite Hs, Hi. cbv zeta.
  pose proof (loop_at pid qty f saleItems 0 k (product_stock db, []) x Hnd Hk)
    as H.
  destruct (updateStocks Item pid qty f 0 saleItems _) as [tbl log].
  simpl in *. unfold fetchStock in H. split.
  - intros Hf Hu s E. now rewrite H, Hf, E, Hu.
  - intros [Hf|[Hu|E]]; rewrite H.
    + now rewrite Hf.
    + destruct (product_fetch_fails f k); [reflexivity|].
      destruct (product_stock db !! pid x); now rewrite ?Hu.
    + destruct (product_fetch_fails f k); [reflexivity|]. now rewrite E.
Qed.

End StockMore.

(** ** Sessions *)

Module SessionSpec.
Import Supabase Pos Session.

Lemma upd_id (c : list CartItem) (p : Product) : id (upd c p) = id p.
Proof. unfold upd. now destruct (List.find (line_of p) c). Qed.

Lemma find_has_id_map (c : list CartItem) (i : Z) (ps : list Product) :
  List.find (has_id i) (List.map (upd c) ps)
    = option_map (upd c) (List.find (has_id i) ps).
Proof.
  induction ps as [|p ps IH]; simpl; [reflexivity|].
  unfold has_id at 1 3. rewrite upd_id.
  destruct (id p) as [j|]; [|exact IH].
  destruct (j =? i); [reflexivity | exact IH].
Qed.

Lemma keyed_upd (c : list CartItem) (ps : list Product) :
  keyed ps -> keyed (List.map (upd c) ps).
Proof.
  intros H p' i Hin Hid. apply in_map_iff in Hin.
  destruct Hin as [p [<- Hin]]. rewrite upd_id in Hid.
  now rewrite find_has_id_map, (H p i Hin Hid).
Qed.

(** The line that the stock update of a keyed catalog reads for a product
    is within the stock of that product. *)
Lemma line_within_stock (ps : list Product) (c : list CartItem)
    (p : Product) (l : CartItem) :
  keyed ps -> Forall (line_ok ps) c -> In p ps ->
  List.find (line_of p) c = Some l ->
  exists i, id p = Some i /\ product_id l = i /\ In l c /\
            1 <= quantity l <= stock p.
Proof.
  intros Hk Hc Hin Hf. apply find_some in Hf. destruct Hf as [Hl Hm].
  unfold line_of in Hm. destruct (id p) as [i|] eqn:Hi; [|discriminate].
  apply Z.eqb_eq in Hm. exists i. repeat split; auto;
    destruct (proj1 (List.Forall_forall _ _) Hc l Hl) as [P [HP Hb]];
    rewrite Hm, (Hk p i Hin Hi) in HP; injection HP as <-; lia.
Qed.

Lemma in_stock_upd (ps : list Product) (c : list CartItem) :
  keyed ps -> Forall (line_ok ps) c -> in_stock ps ->
  in_stock (List.map (upd c) ps).
Proof.
  intros Hk Hc Hs. apply List.Forall_forall. intros p' Hin.
  apply in_map_iff in Hin. destruct Hin as [p [<- Hin]].
  pose proof (proj1 (List.Forall_forall _ _) Hs p Hin) as H0.
  unfold upd. destruct (List.find (line_of p) c) as [l|] eqn:Hf;
    [|exact H0].
  destruct (line_within_stock ps c p l Hk Hc Hin Hf) as (i & _ & _ & _ & Hb).
  simpl. lia.
Qed.

Lemma handleCheckout_state (f : Faults) (st : State) (db : Db CartItem) :
  let st' := fst (fst (handleCheckout f st db)) in
  (products st' = products st /\ cart st' = cart st) \/
  (products st' = List.map (upd (cart st)) (products st) /\ cart st' = []).
Proof.
  unfold handleCheckout. destruct (user st) as [u|]; [|now left].
  destruct (List.length (cart st) =? 0)%nat; [now left|].
  destruct (createSale _ _ _ _ _ _ _ _ _) as [[db' log] [sale|e]];
    [right | left]; now split.
Qed.

Lemma play1_inv (s : State * Db CartItem) (e : Event) :
  inv (fst s) -> inv (fst (play1 s e)).
Proof.
  intros (Hk & Hs & Hc). destruct e as [a|f]; simpl.
  - assert (H : products (step (fst s) a) = products (fst s) /\
                cart_ok (products (fst s)) (cart (step (fst s) a))).
    { destruct a; simpl;
        [now apply PosSpec.handleAddToCart_ok
        |now apply PosSpec.handleUpdateQuantity_ok]. }
    destruct H as [Hp H]. unfold inv. now rewrite Hp.
  - destruct (handleCheckout_state f (fst s) (snd s)) as [[Hp Hcart]|[Hp Hcart]];
      unfold inv; rewrite Hp, Hcart.
    + exact (conj Hk (conj Hs Hc)).
    + destruct Hc as [_ Hl]. split; [now apply keyed_upd|].
      split; [now apply in_stock_upd|]. split; constructor.
Qed.

Lemma play_inv (events : list Event) (s : State * Db CartItem) :
  inv (fst s) -> inv (fst (play events s)).
Proof.
  revert s. induction events as [|e events IH]; intros s H; [exact H|].
  simpl. apply IH. now apply play1_inv.
Qed.

(** X3.  On a keyed catalog whose stocks are not negative, no sequence of
    cart operations and checkouts, failed or not, makes the cached stock
    of a product negative; the cart keeps one line per product with a
    quantity from 1 to the cached stock, and the catalog stays keyed. *)
Theorem cached_stock_never_negative (u : option string) (ps : list Product)
    (db : Db CartItem) (events : list Event) :
  keyed ps -> in_stock ps ->
  let st' := fst (play events (initial u ps, db)) in
  in_stock (products st') /\ keyed (products st') /\
  cart_ok (products st') (cart st').
Proof.
  intros Hk Hs st'.
  assert (H : inv (fst (initial u ps, db))).
  { split; [exact Hk|]. split; [exact Hs|]. split; constructor. }
  destruct (play_inv events _ H) as (H1 & H2 & H3).
  exact (conj H2 (conj H1 H3)).
Qed.

Lemma find_line_of_none (p : Product) (c : list CartItem) (i : Z) :
  id p = Some i -> List.find (line_of p) c = None ->
  ~ In i (List.map product_id c).
Proof.
  intros Hi. induction c as [|l c IH]; simpl; intros H; [tauto|].
  unfold line_of in H at 1. rewrite Hi in H.
  destruct (Z.eqb_spec (product_id l) i) as [E|E]; [discriminate|].
  intros [H1|H1]; [congruence | exact (IH H H1)].
Qed.

(** X4.  When the cache and the backend show the same stocks, the catalog
    is keyed, the cart satisfies its invariant and no request of the
    checkout fails, the stocks the page shows after the checkout are again
    those of the backend. *)
Theorem checkout_keeps_cache_and_backend_equal (f : Faults) (st : State)
    (db : Db CartItem) (userId : string) :
  user st = Some userId -> cart st <> [] ->
  sale_insert_fails f = false -> items_insert_fails f = false ->
  no_loop_faults f ->
  keyed (products st) -> cart_ok (products st) (cart st) ->
  agree (products st) (product_stock db) ->
  let st' := fst (fst (handleCheckout f st db)) in
  let db' := snd (fst (handleCheckout f st db)) in
  agree (products st') (product_stock db').
Proof.
  intros Hu Hc Hs Hi [Hf Hw] Hk [Hnd Hl] Ha.
  rewrite (CheckoutMore.handleCheckout_unfold f st db userId Hu Hc).
  unfold createSale. rewrite Hs, Hi. cbv zeta.
  pose proof (fun x s => StockSpec.loop_exact product_id quantity f (cart st)
                0 (product_stock db, []) x s Hf Hw Hnd) as He.
  pose proof (StockSpec.loop_frame product_id quantity f (cart st) 0
                (product_stock db, [])) as Hfr.
  destruct (updateStocks CartItem product_id quantity f 0 (cart st) _)
    as [tbl log]. simpl in *.
  intros p' i Hin Hid. apply in_map_iff in Hin. destruct Hin as [p [<- Hin]].
  fold (upd (cart st) p) in *. rewrite upd_id in Hid.
  pose proof (Ha p i Hin Hid) as Hpi.
  unfold upd. destruct (List.find (line_of p) (cart st)) as [l|] eqn:Hfl.
  - destruct (line_within_stock _ _ p l Hk Hl Hin Hfl)
      as (j & Hj & Hlj & Hinl & Hb).
    assert (Hji : j = i) by congruence. rewrite Hji in Hlj. clear Hji Hj.
    rewrite <- Hlj. erewrite He; [|exact Hinl|rewrite Hlj; exact Hpi].
    simpl. f_equal. lia.
  - rewrite Hfr; [exact Hpi|]. now apply (find_line_of_none p).
Qed.

End SessionSpec.

(** ** The algebra of the cart operations *)

Module CartAlgebra.
Import Supabase Pos.

Lemma requantify_twice (productId q : Z) (c : list CartItem) :
  requantify productId (fun _ => q) (requantify productId (fun _ => q) c)
    = requantify productId (fun _ => q) c.
Proof.
  unfold requantify. rewrite List.map_map. apply List.map_ext. intros l.
  destruct (is_line productId l) eqn:E; [|now rewrite E].
  unfold is_line in *. simpl. now rewrite E.
Qed.

Lemma filter_twice {A : Type} (f : A -> bool) (l : list A) :
  List.filter f (List.filter f l) = List.filter f l.
Proof.
  induction l as [|x l IH]; simpl; [reflexivity|].
  destruct (f x) eqn:E; simpl; [rewrite E|]; now rewrite ?IH.
Qed.

(** X5.  Setting a quantity is idempotent: doing it a second time with the
    same product and quantity leaves the page as the first time did. *)
Theorem handleUpdateQuantity_idempotent (productId q : Z) (st : State) :
  handleUpdateQuantity productId q (handleUpdateQuantity productId q st)
    = handleUpdateQuantity productId q st.
Proof.
  unfold handleUpdateQuantity.
  destruct (q <=? 0) eqn:Hq.
  - unfold setCart. simpl. now rewrite filter_twice.
  - destruct (List.find (has_id productId) (products st)) as [P|] eqn:HP.
    + destruct (q >? stock P) eqn:Hs; simpl; rewrite HP, Hs;
        [reflexivity|].
      unfold setCart. simpl. f_equal. apply requantify_twice.
    + simpl. rewrite HP. unfold setCart. simpl. f_equal.
      apply requantify_twice.
Qed.

Lemma filter_no_line (productId : Z) (c : list CartItem) :
  List.find (is_line productId) c = None ->
  List.filter (fun item => negb (is_line productId item)) c = c.
Proof.
  induction c as [|l c IH]; simpl; [reflexivity|].
  destruct (is_line productId l); [discriminate|].
  intros H. simpl. now rewrite IH.
Qed.

(** X6.  Adding a product that has no line and then setting its quantity to
    0 gives back the cart from before, whether the product was added or
    refused for lack of stock; and after setting the quantity of a product
    to 0 or less the cart has no line of it. *)
Theorem add_then_remove (productId q : Z) (st : State) :
  q <= 0 ->
  (List.find (is_line productId) (cart st) = None ->
   cart (handleUpdateQuantity productId q (handleAddToCart productId st))
     = cart st) /\
  List.find (is_line productId)
    (cart (handleUpdateQuantity productId q st)) = None.
Proof.
  intros Hq. unfold handleUpdateQuantity.
  destruct (Z.leb_spec q 0); [|lia]. split.
  - intros Hn. unfold handleAddToCart.
    destruct (List.find (has_id productId) (products st)) as [P|];
      [|now apply filter_no_line].
    rewrite Hn. destruct (0 + 1 >? stock P); simpl;
      [now apply filter_no_line|].
    rewrite List.filter_app. simpl. unfold is_line at 2. simpl.
    rewrite Z.eqb_refl. simpl. rewrite List.app_nil_r.
    now apply filter_no_line.
  - simpl. destruct (List.find _ _) as [l|] eqn:E; [|reflexivity].
    apply find_some in E. destruct E as [E1 E2].
    apply filter_In in E1. destruct E1 as [_ E1]. now rewrite E2 in E1.
Qed.

(** The sum over a cart with one line per product, after the quantity of
    the line [l] is changed to [f l]. *)
Lemma sum_over_requantify (value : CartItem -> Q) (f : CartItem -> Z)
    (c : list CartItem) (l : CartItem) :
  (forall x q, value (with_quantity x q) = value x) ->
  List.NoDup (List.map product_id c) -> In l c ->
  (sum_over value (requantify (product_id l) f c)
     == sum_over value c + inject_Z (f l - quantity l) * value l)%Q.
Proof.
  intros Hv. induction c as [|x c IH]; intros Hnd Hin; [destruct Hin|].
  inversion Hnd as [|? ? Hn Hd]; subst.
  change (requantify (product_id l) f (x :: c))
    with ((if is_line (product_id l) x then with_quantity x (f x) else x)
          :: requantify (product_id l) f c).
  destruct Hin as [-> | Hin].
  - unfold is_line. rewrite Z.eqb_refl.
    assert (E : requantify (product_id l) f c = c).
    { clear - Hn. unfold requantify. induction c as [|y c IH]; simpl;
        [reflexivity|].
      simpl in Hn. unfold is_line at 1.
      destruct (Z.eqb_spec (product_id y) (product_id l)); [tauto|].
      rewrite IH by tauto. reflexivity. }
    rewrite E. simpl. rewrite Hv.
    unfold Zminus. rewrite inject_Z_plus, inject_Z_opp. ring.
  - unfold is_line at 1.
    destruct (Z.eqb_spec (product_id x) (product_id l)) as [E|E].
    + exfalso. apply Hn. rewrite E. now apply in_map.
    + simpl. rewrite (IH Hd Hin). ring.
Qed.

Lemma sum_over_app (value : CartItem -> Q) (c c' : list CartItem) :
  (sum_over value (c ++ c') == sum_over value c + sum_over value c')%Q.
Proof.
  induction c as [|x c IH]; simpl; [ring|]. rewrite IH. ring.
Qed.

Lemma sum_over_remove (value : CartItem -> Q) (c : list CartItem)
    (l : CartItem) :
  List.NoDup (List.map product_id c) -> In l c ->
  (sum_over value
     (List.filter (fun item => negb (is_line (product_id l) item)) c)
     == sum_over value c - inject_Z (quantity l) * value l)%Q.
Proof.
  induction c as [|x c IH]; intros Hnd Hin; [destruct Hin|].
  inversion Hnd as [|? ? Hn Hd]; subst. simpl.
  destruct Hin as [-> | Hin].
  - unfold is_line at 1. rewrite Z.eqb_refl. simpl.
    rewrite filter_no_line.
    + ring.
    + destruct (List.find _ c) as [y|] eqn:E; [|reflexivity].
      apply PosSpec.find_is_line_some in E. destruct E as [E1 E2].
      exfalso. apply Hn. rewrite <- E2. now apply in_map.
  - unfold is_line at 1.
    destruct (Z.eqb_spec (product_id x) (product_id l)) as [E|E].
    + exfalso. apply Hn. rewrite E. now apply in_map.
    + simpl. rewrite (IH Hd Hin). ring.
Qed.

(** The exact sum of the amounts follows the cart operations, on a cart
    with one line per product. *)
Lemma sum_over_operations (st : State) (productId : Z) (P : Product) :
  List.find (has_id productId) (products st) = Some P ->
  List.NoDup (List.map product_id (cart st)) ->
  let sum s := sum_over price_at_sale (cart s) in
  (List.find (is_line productId) (cart st) = None -> 1 <= stock P ->
   (sum (handleAddToCart productId st) == sum st + selling_price P)%Q) /\
  (forall l, List.find (is_line productId) (cart st) = Some l ->
   quantity l + 1 <= stock P ->
   (sum (handleAddToCart productId st) == sum st + price_at_sale l)%Q) /\
  (forall l q, List.find (is_line productId) (cart st) = Some l ->
   0 < q <= stock P ->
   (sum (handleUpdateQuantity productId q st)
      == sum st + inject_Z (q - quantity l) * price_at_sale l)%Q) /\
  (forall l q, List.find (is_line productId) (cart st) = Some l -> q <= 0 ->
   (sum (handleUpdateQuantity productId q st)
      == sum st - inject_Z (quantity l) * price_at_sale l)%Q).
Proof.
  intros HP Hnd sum. subst sum. cbv beta.
  split; [|split; [|split]].
  - intros Hn Hs. unfold handleAddToCart. rewrite HP, Hn.
    destruct (0 + 1 >? stock P) eqn:E; [apply gtb_true in E; lia|].
    simpl. rewrite sum_over_app. simpl. ring.
  - intros l Hl Hs. unfold handleAddToCart. rewrite HP, Hl.
    destruct (quantity l + 1 >? stock P) eqn:E; [apply gtb_true in E; lia|].
    simpl. apply PosSpec.find_is_line_some in Hl. destruct Hl as [Hin <-].
    fold (requantify (product_id l) (fun i => quantity i + 1) (cart st)).
    rewrite (sum_over_requantify price_at_sale _ _ l (fun _ _ => eq_refl)
               Hnd Hin).
    replace (quantity l + 1 - quantity l) with 1 by lia. ring.
  - intros l q Hl Hq. unfold handleUpdateQuantity. rewrite HP.
    settle_guards. simpl.
    apply PosSpec.find_is_line_some in Hl. destruct Hl as [Hin <-].
    fold (requantify (product_id l) (fun _ => q) (cart st)).
    now rewrite (sum_over_requantify price_at_sale (fun _ => q) _ l
                   (fun _ _ => eq_refl) Hnd Hin).
  - intros l q Hl Hq. unfold handleUpdateQuantity. settle_guards. simpl.
    apply PosSpec.find_is_line_some in Hl. destruct Hl as [Hin <-].
    now rewrite (sum_over_remove _ _ l Hnd Hin).
Qed.

(** X7.  The total follows the cart operations, on a cart with one line per
    product.  A first unit of a product makes the total the binary64 sum of
    the total before and of the selling price x 1, and a refused operation
    leaves the total as it was.  When the prices are whole numbers and the
    amounts stay below 2^53, before the operation and after it, both
    totals are exact and: a first unit of a product adds its selling price;
    one more unit of a line adds the price of the line; setting the
    quantity of a line to an allowed [q] adds [(q - quantity) x price] of
    the line; setting it to 0 or less takes the line's amount off. *)
Theorem total_follows_operations (st : State) (productId : Z) (P : Product) :
  List.find (has_id productId) (products st) = Some P ->
  List.NoDup (List.map product_id (cart st)) ->
  let total s := totalAmount (cart s) in
  let exact s := exact_amounts price_at_sale (cart s) in
  (List.find (is_line productId) (cart st) = None -> 1 <= stock P ->
   total (handleAddToCart productId st)
   = JsNumber.jsAdd (total st)
       (JsNumber.jsMul (JsNumber.Finite (selling_price P))
          (JsNumber.ofZ 1))) /\
  (forall q, q > stock P -> q > 0 ->
   total (handleUpdateQuantity productId q st) = total st) /\
  (forall st', exact st -> exact st' ->
   exists t t',
     total st = JsNumber.Finite t /\ total st' = JsNumber.Finite t' /\
     (List.find (is_line productId) (cart st) = None -> 1 <= stock P ->
      st' = handleAddToCart productId st ->
      (t' == t + selling_price P)%Q) /\
     (forall l, List.find (is_line productId) (cart st) = Some l ->
      quantity l + 1 <= stock P ->
      st' = handleAddToCart productId st ->
      (t' == t + price_at_sale l)%Q) /\
     (forall l q, List.find (is_line productId) (cart st) = Some l ->
      0 < q <= stock P ->
      st' = handleUpdateQuantity productId q st ->
      (t' == t + inject_Z (q - quantity l) * price_at_sale l)%Q) /\
     (forall l q, List.find (is_line productId) (cart st) = Some l ->
      q <= 0 ->
      st' = handleUpdateQuantity productId q st ->
      (t' == t - inject_Z (quantity l) * price_at_sale l)%Q)).
Proof.
  intros HP Hnd total exact. subst total exact. cbv beta.
  split; [|split].
  - intros Hn Hs. unfold handleAddToCart. rewrite HP, Hn.
    destruct (0 + 1 >? stock P) eqn:E; [apply gtb_true in E; lia|].
    cbn [cart setCart]. unfold totalAmount. rewrite fold_left_app.
    reflexivity.
  - intros q Hs Hq. unfold handleUpdateQuantity. rewrite HP.
    settle_guards. reflexivity.
  - intros st' Hex Hex'.
    destruct (CartSpec.total_exact _ _ Hex) as (t & Et & Qt).
    destruct (CartSpec.total_exact _ _ Hex') as (t' & Et' & Qt').
    destruct (sum_over_operations st productId P HP Hnd)
      as (S1 & S2 & S3 & S4).
    exists t, t'. split; [exact Et|]. split; [exact Et'|].
    split; [|split; [|split]].
    + intros Hn Hs ->. rewrite Qt', Qt. now apply S1.
    + intros l Hl Hs ->. rewrite Qt', Qt. now apply S2.
    + intros l q Hl Hq ->. rewrite Qt', Qt. now apply S3.
    + intros l q Hl Hq ->. rewrite Qt', Qt. now apply S4.
Qed.

End CartAlgebra.

(** ** Clearing the sales history *)

Module SalesHistorySpec.
Import Supabase SalesHistory.

Lemma NoDup_map_injective {A B : Type} (g : A -> B) (l : list A) (a b : A) :
  List.NoDup (List.map g l) -> In a l -> In b l -> g a = g b -> a = b.
Proof.
  induction l as [|x l IH]; simpl; intros Hnd Ha Hb E; [destruct Ha|].
  inversion Hnd as [|? ? Hn Hd]; subst.
  destruct Ha as [-> | Ha], Hb as [-> | Hb]; auto.
  - exfalso. apply Hn. rewrite E. now apply in_map.
  - exfalso. apply Hn. rewrite <- E. now apply in_map.
Qed.

Lemma among_In (ids : list Z) (i : Z) : among ids i = true <-> In i ids.
Proof.
  unfold among. rewrite existsb_exists. split.
  - intros [x [Hx E]]. apply Z.eqb_eq in E. now subst.
  - intros H. exists i. split; [exact H | apply Z.eqb_refl].
Qed.

Section Delete.

Context {Item : Type}.

Lemma among_user_sales (db : Db Item) (userId : string) (s : SaleRow) :
  List.NoDup (List.map sale_id (sales db)) -> In s (sales db) ->
  among (List.map sale_id (List.filter (of_user userId) (sales db)))
    (sale_id s) = of_user userId s.
Proof.
  intros Hnd Hin. destruct (of_user userId s) eqn:E.
  - apply among_In, in_map, filter_In. now split.
  - destruct (among _ _) eqn:Ha; [|reflexivity].
    apply among_In, in_map_iff in Ha. destruct Ha as [s' [Hid Hs']].
    apply filter_In in Hs'. destruct Hs' as [Hs' Hu].
    rewrite (NoDup_map_injective sale_id _ s' s Hnd Hs' Hin Hid) in Hu.
    congruence.
Qed.

Lemma filter_all_false {A : Type} (g : A -> bool) (l : list A) :
  List.filter g l = [] -> List.filter (fun x => negb (g x)) l = l.
Proof.
  induction l as [|x l IH]; simpl; [reflexivity|].
  destruct (g x); [discriminate|]. intros H. simpl. now rewrite IH.
Qed.

Lemma deleteSales_ok (f : DeleteFaults) (userId : string) (db : Db Item) :
  sales_fetch_fails f = false -> items_delete_fails f = false ->
  sales_delete_fails f = false ->
  deleteSales f userId db =
    (mkDb
       (List.filter
          (fun s => negb (among (List.map sale_id
                                   (List.filter (of_user userId) (sales db)))
                            (sale_id s))) (sales db))
       (List.filter
          (fun row => negb (among (List.map sale_id
                                     (List.filter (of_user userId) (sales db)))
                              (snd row))) (sale_items db))
       (product_stock db) (sale_seq db), Ok true).
Proof.
  intros H1 H2 H3. unfold deleteSales. rewrite H1, H2, H3.
  fold (of_user userId).
  destruct (List.filter (of_user userId) (sales db)) as [|s l] eqn:E;
    [|reflexivity].
  simpl. rewrite !List.filter_true. now destruct db.
Qed.

End Delete.

(** X8.  When its three requests succeed, and sale identifiers are unique,
    [deleteSales] removes exactly the sales of the user and exactly the
    items of those sales: the sales of other users stay, in their order,
    with their items; no stock is touched; and if every item belonged to a
    sale before, every item still does. *)
Theorem deleteSales_removes_the_users_history {Item : Type}
    (f : DeleteFaults) (userId : string) (db : Db Item) :
  sales_fetch_fails f = false -> items_delete_fails f = false ->
  sales_delete_fails f = false ->
  List.NoDup (List.map sale_id (sales db)) ->
  let db' := fst (deleteSales f userId db) in
  snd (deleteSales f userId db) = Ok true /\
  sales db' =
    List.filter (fun s => negb (String.eqb (sale_user_id s) userId))
      (sales db) /\
  (forall row, In row (sale_items db') <->
     In row (sale_items db) /\
     ~ exists s, In s (sales db) /\ sale_user_id s = userId /\
                 sale_id s = snd row) /\
  product_stock db' = product_stock db /\
  (items_have_sales db -> items_have_sales db').
Proof.
  intros H1 H2 H3 Hnd db'. subst db'.
  rewrite (deleteSales_ok f userId db H1 H2 H3). simpl.
  assert (Hs : List.filter
                 (fun s => negb (among (List.map sale_id
                                          (List.filter (of_user userId)
                                             (sales db))) (sale_id s)))
                 (sales db)
               = List.filter (fun s => negb (of_user userId s)) (sales db)).
  { apply List.filter_ext_in. intros s Hin.
    now rewrite among_user_sales. }
  assert (Hrow : forall i,
            among (List.map sale_id (List.filter (of_user userId) (sales db)))
              i = true <->
            exists s, In s (sales db) /\ sale_user_id s = userId /\
                      sale_id s = i).
  { intros i. rewrite among_In, in_map_iff. split.
    - intros [s [E Hin]]. apply filter_In in Hin. destruct Hin as [Hin Hu].
      exists s. repeat split; auto. now apply String.eqb_eq in Hu.
    - intros [s (Hin & Hu & E)]. exists s. split; [exact E|].
      apply filter_In. split; [exact Hin|]. now apply String.eqb_eq. }
  split; [reflexivity|]. split; [exact Hs|]. split; [|split; [reflexivity|]].
  - intros row. rewrite filter_In, <- Hrow.
    destruct (among _ (snd row)); simpl; intuition congruence.
  - intros Hi row Hin. apply filter_In in Hin. destruct Hin as [Hin Hn].
    rewrite Hs. pose proof (Hi row Hin) as Hrs.
    apply in_map_iff in Hrs. destruct Hrs as [s [E Hsin]].
    apply in_map_iff. exists s. split; [exact E|].
    apply filter_In. split; [exact Hsin|].
    rewrite <- (among_user_sales db userId s Hnd Hsin), E. exact Hn.
Qed.

(** X9.  [deleteSales] does not roll back.  A failed fetch, or a failed
    delete of the items, leaves the backend as it was.  A failed delete of
    the sales leaves the sales in place with the items of the user's sales
    already gone.  A user without sales is answered [true] without any
    delete request, so that after a successful call a second call succeeds
    and changes nothing, even when the delete requests would now fail. *)
Theorem deleteSales_partial_failures {Item : Type} (f : DeleteFaults)
    (userId : string) (db : Db Item) :
  let user_sales :=
    List.filter (fun s => String.eqb (sale_user_id s) userId) (sales db) in
  (sales_fetch_fails f = true ->
   deleteSales f userId db = (db, Err fetchError)) /\
  (sales_fetch_fails f = false -> user_sales = [] ->
   deleteSales f userId db = (db, Ok true)) /\
  (sales_fetch_fails f = false -> user_sales <> [] ->
   items_delete_fails f = true ->
   deleteSales f userId db = (db, Err itemsDeleteError)) /\
  (sales_fetch_fails f = false -> user_sales <> [] ->
   items_delete_fails f = false -> sales_delete_fails f = true ->
   snd (deleteSales f userId db) = Err salesDeleteError /\
   sales (fst (deleteSales f userId db)) = sales db /\
   forall row, In row (sale_items (fst (deleteSales f userId db))) ->
     ~ In (snd row) (List.map sale_id user_sales)) /\
  (List.NoDup (List.map sale_id (sales db)) ->
   forall f', sales_fetch_fails f' = false ->
     deleteSales f' userId (fst (deleteSales no_delete_faults userId db))
       = (fst (deleteSales no_delete_faults userId db), Ok true)).
Proof.
  intros user_sales. unfold deleteSales at 1 2 3 4 5 6.
  fold user_sales.
  assert (Hlen : user_sales <> [] ->
                 (List.length user_sales =? 0)%nat = false).
  { destruct user_sales; [congruence|reflexivity]. }
  split; [|split; [|split; [|split]]].
  - now intros ->.
  - intros -> E. now rewrite E.
  - intros -> Hne ->. now rewrite (Hlen Hne).
  - intros -> Hne -> ->. rewrite (Hlen Hne). cbv zeta iota.
    simpl fst. simpl snd. split; [reflexivity|]. split; [reflexivity|].
    intros row Hin. apply filter_In in Hin. destruct Hin as [_ Hn].
    intros Hc. apply among_In in Hc. now rewrite Hc in Hn.
  - intros Hnd f' Hf'.
    rewrite (deleteSales_ok no_delete_faults userId db eq_refl eq_refl eq_refl).
    simpl fst. unfold deleteSales. rewrite Hf'. simpl sales.
    assert (E : List.filter (fun s => String.eqb (sale_user_id s) userId)
                  (List.filter
                     (fun s => negb (among (List.map sale_id
                                              (List.filter (of_user userId)
                                                 (sales db))) (sale_id s)))
                     (sales db)) = []).
    { destruct (List.filter _ (List.filter _ _)) as [|s l] eqn:E;
        [reflexivity|].
      assert (Hin : In s (s :: l)) by now left.
      rewrite <- E in Hin. apply filter_In in Hin. destruct Hin as [Hin Hu].
      apply filter_In in Hin. destruct Hin as [Hin Hn].
      rewrite (among_user_sales db userId s Hnd Hin) in Hn.
      unfold of_user in Hn. now rewrite Hu in Hn. }
    now rewrite E.
Qed.

End SalesHistorySpec.

(** ** The pages of the sales history *)

Module ReportsSpec.
Import Supabase SalesHistory Reports.

Lemma firstn_add {A : Type} (a b : nat) (l : list A) :
  firstn (a + b) l = firstn a l ++ firstn b (skipn a l).
Proof.
  revert l. induction a as [|a IH]; intros l; [reflexivity|].
  destruct l as [|x l]; simpl; [now rewrite List.firstn_nil|].
  now rewrite IH.
Qed.

Lemma firstn_within {A : Type} (n m : nat) (l : list A) :
  (Nat.min n (List.length l) = Nat.min m (List.length l))%nat ->
  firstn n l = firstn m l.
Proof.
  revert n m. induction l as [|x l IH]; intros n m H.
  - now rewrite !List.firstn_nil.
  - destruct n as [|n], m as [|m]; simpl in *; try reflexivity;
      try discriminate.
    f_equal. apply IH. lia.
Qed.

(** [slice] between two indices that are not negative. *)
Lemma slice_window {A : Type} (a b : Z) (l : list A) :
  0 <= a <= b ->
  slice a b l = firstn (Z.to_nat (b - a)) (skipn (Z.to_nat a) l).
Proof.
  intros H. unfold slice.
  destruct (Z.ltb_spec a 0); [lia|]. destruct (Z.ltb_spec b 0); [lia|].
  set (len := Z.of_nat (List.length l)).
  destruct (Z.le_gt_cases len a) as [Hle|Hgt].
  - rewrite !List.skipn_all2 by (unfold len in *; lia).
    now rewrite !List.firstn_nil.
  - rewrite (Z.min_l a len) by lia. apply firstn_within.
    rewrite List.length_skipn. unfold len in *. lia.
Qed.

Lemma chunks_prefix {A : Type} (l : list A) (n : nat) :
  List.concat (List.map (chunk l) (seq 0 n)) = firstn (10 * n) l.
Proof.
  induction n as [|n IH]; [reflexivity|].
  rewrite List.seq_S, List.map_app, List.concat_app, IH.
  change (List.concat (List.map (chunk l) [(0 + n)%nat]))
    with (chunk l n ++ []).
  rewrite List.app_nil_r. unfold chunk.
  replace (10 * S n)%nat with (10 * n + 10)%nat by lia.
  symmetry. apply firstn_add.
Qed.

Lemma currentSales_chunk (st : State) (i : nat) :
  currentSales (at_page st (Z.of_nat (S i))) = chunk (sales st) i.
Proof.
  unfold currentSales, at_page, setCurrentPage, salesPerPage. simpl sales.
  simpl currentPage. rewrite slice_window by lia. unfold chunk.
  f_equal; [|f_equal]; lia.
Qed.

Lemma totalPages_ceiling (st : State) :
  totalPages st = (Z.of_nat (List.length (sales st)) + 9) / 10.
Proof.
  unfold totalPages, Qceiling, Qfloor, salesPerPage. simpl.
  rewrite Z.mul_1_r. change (Z.pos (1 * 10)) with 10.
  Z.to_euclidean_division_equations. lia.
Qed.

(** X10.  The pages of the history, from 1 to [totalPages], partition the
    sales: put one after the other they give back the list, every page but
    the last holds 10 sales, the last holds at least one and at most 10,
    and there is no sale after the last page. *)
Theorem pages_partition_the_sales (st : State) :
  let pages := List.map Z.of_nat (seq 1 (Z.to_nat (totalPages st))) in
  List.concat (List.map (fun p => currentSales (at_page st p)) pages)
    = sales st /\
  (forall p, 1 <= p < totalPages st ->
     List.length (currentSales (at_page st p)) = 10%nat) /\
  (1 <= totalPages st ->
     (1 <= List.length (currentSales (at_page st (totalPages st))) <= 10)%nat)
  /\
  (forall p, totalPages st < p -> currentSales (at_page st p) = []).
Proof.
  pose proof (totalPages_ceiling st) as HT.
  set (T := totalPages st) in *. set (l := sales st) in *.
  assert (Hpage : forall p, 1 <= p ->
            currentSales (at_page st p) = chunk l (Z.to_nat (p - 1))).
  { intros p Hp. replace p with (Z.of_nat (S (Z.to_nat (p - 1)))) at 1 by lia.
    apply currentSales_chunk. }
  assert (Hlen : forall i, List.length (chunk l i)
                   = Nat.min 10 (List.length l - 10 * i)).
  { intros i. unfold chunk.
    now rewrite List.length_firstn, List.length_skipn. }
  cbv zeta. split; [|split; [|split]].
  - rewrite <- List.seq_shift, !List.map_map.
    rewrite (List.map_ext _ (chunk l)) by (intros i; apply currentSales_chunk).
    rewrite chunks_prefix. apply List.firstn_all2.
    Z.to_euclidean_division_equations. lia.
  - intros p Hp. rewrite Hpage, Hlen by lia.
    Z.to_euclidean_division_equations. lia.
  - intros H1. rewrite Hpage, Hlen by lia.
    Z.to_euclidean_division_equations. lia.
  - intros p Hp. assert (H1 : 1 <= p).
    { Z.to_euclidean_division_equations. lia. }
    rewrite Hpage by exact H1. apply List.length_zero_iff_nil.
    rewrite Hlen. Z.to_euclidean_division_equations. lia.
Qed.

(** X11.  From a page between 1 and [totalPages] the buttons "previous"
    and "next" lead to a page between 1 and [totalPages] and leave the
    sales alone; "next" undoes "previous" except on the first page, and
    "previous" undoes "next" except on the last. *)
Theorem page_navigation (st : State) :
  1 <= currentPage st <= totalPages st ->
  1 <= currentPage (prevPage st) <= totalPages st /\
  1 <= currentPage (nextPage st) <= totalPages st /\
  sales (prevPage st) = sales st /\ sales (nextPage st) = sales st /\
  (1 < currentPage st -> nextPage (prevPage st) = st) /\
  (currentPage st < totalPages st -> prevPage (nextPage st) = st).
Proof.
  intros H. destruct st as [l p a b c d].
  unfold prevPage, nextPage, setCurrentPage, totalPages in *. simpl in *.
  repeat split; try lia; intros H'; f_equal; lia.
Qed.

(** X12.  Clearing the history from the page.  When [deleteSales]
    succeeds the page lists no sale, has no page left, and shows the
    success notice; when it fails the page keeps its list and shows the
    failure, also when the backend has already lost the items of the
    sales.  In both cases the confirmation dialog is closed, and without a
    user nothing happens. *)
Theorem handleClearHistory_outcomes {Item : Type} (user : option string)
    (f : DeleteFaults) (st : State) (db : Db Item) :
  let st' := fst (handleClearHistory user f st db) in
  let db' := snd (handleClearHistory user f st db) in
  (user = None -> st' = st /\ db' = db) /\
  (forall userId, user = Some userId ->
     db' = fst (deleteSales f userId db) /\
     clearHistoryModalOpen st' = false /\ clearingHistory st' = false /\
     modalOpen st' = true /\
     (snd (deleteSales f userId db) = Ok true ->
        sales st' = [] /\ currentSales st' = [] /\ totalPages st' = 0 /\
        modalContent st' = Some history_cleared) /\
     (forall e, snd (deleteSales f userId db) = Err e ->
        sales st' = sales st /\ modalContent st' = Some (failure e))).
Proof.
  unfold handleClearHistory. split.
  - now intros ->.
  - intros userId ->.
    destruct (deleteSales f userId db) as [db1 [[]|e]]; simpl;
      repeat split; try discriminate; try congruence.
    unfold currentSales, slice. simpl. now rewrite List.skipn_nil, List.firstn_nil.
Qed.

End ReportsSpec.

(** ** The inventory page *)

Module InventoryPageSpec.
Import Supabase Inventory InventoryPage.

Lemma StronglySorted_across {A : Type} (R : A -> A -> Prop)
    (l1 l2 : list A) :
  StronglySorted R (l1 ++ l2) ->
  forall x y, In x l1 -> In y l2 -> R x y.
Proof.
  induction l1 as [|a l1 IH]; simpl; intros Hs x y Hx Hy; [destruct Hx|].
  inversion Hs as [|? ? Hs' Hall]; subst. destruct Hx as [-> | Hx].
  - apply (proj1 (List.Forall_forall _ _) Hall). apply in_or_app. now right.
  - now apply IH.
Qed.

(** X13.  The products shown by the filter "new" are the newest of the
    catalog: the catalog splits into the shown and the hidden products,
    and no hidden product was created after a shown one.  A catalog of at
    most 5 products is shown whole.  (Every product carries its creation
    time.) *)
Theorem new_filter_shows_the_newest (engine : list Product -> list Product)
    (allProducts shownBefore : list Product) :
  allProducts <> [] ->
  Forall (fun p => created_at p <> None) allProducts ->
  let shown := applyFilter engine new allProducts shownBefore in
  exists hidden,
    Permutation (shown ++ hidden) allProducts /\
    (forall s h, In s shown -> In h hidden -> newer_or_same s h) /\
    ((List.length allProducts <= 5)%nat -> hidden = []).
Proof.
  intros Hne Hd shown.
  set (sorted := sortByDate engine allProducts).
  set (k := Z.to_nat (newCount (List.length allProducts))).
  destruct (InventorySpec.sortByDate_dated engine allProducts Hd)
    as (Hp & Hs & _).
  fold sorted in Hp, Hs.
  assert (Hn : List.length sorted = List.length allProducts)
    by now apply Permutation_length.
  assert (Hshown : shown = firstn k sorted).
  { subst shown. unfold applyFilter.
    destruct allProducts as [|p ps]; [congruence|].
    change (List.length (p :: ps) =? 0)%nat with false. cbv iota.
    unfold slice0. fold sorted. now rewrite Hn. }
  exists (skipn k sorted). rewrite Hshown, List.firstn_skipn.
  split; [exact Hp|]. split.
  - apply StronglySorted_across. rewrite List.firstn_skipn. exact Hs.
  - intros Hlen. apply List.skipn_all2.
    rewrite Hn. subst k.
    rewrite InventorySpec.newCount_ceiling. lia.
Qed.

(** X14.  The filter buttons work on the catalog fetched when the page was
    opened, which the handlers never update: after a product is deleted,
    or a product is added, choosing another filter shows what it would have
    shown before; in particular the filter "all" shows a deleted product
    again and drops a product added in the meantime. *)
Theorem filters_forget_deletes_and_additions
    (engine : list Product -> list Product) (st : State) (ft : FilterType)
    (confirmed : bool) (deleted : result JsError bool) (productId : Z)
    (newProduct : Product) :
  allProducts st <> [] ->
  filter_eqb ft (filterType st) = false ->
  products (selectFilter engine ft (handleDelete confirmed deleted productId st))
    = products (selectFilter engine ft st) /\
  products (selectFilter engine ft (handleProductSubmit newProduct st))
    = products (selectFilter engine ft st) /\
  (ft = all ->
   (forall p, In p (allProducts st) ->
      In p (products (selectFilter engine ft
                        (handleDelete confirmed deleted productId st)))) /\
   (~ In newProduct (allProducts st) ->
      ~ In newProduct
          (products (selectFilter engine ft (handleProductSubmit newProduct st))))).
Proof.
  intros Hne Hft.
  assert (Hind : forall l l', applyFilter engine ft (allProducts st) l
                              = applyFilter engine ft (allProducts st) l').
  { intros l l'. unfold applyFilter.
    destruct (allProducts st); [congruence|reflexivity]. }
  assert (H1 : products (selectFilter engine ft
                           (handleDelete confirmed deleted productId st))
               = products (selectFilter engine ft st)).
  { unfold selectFilter, handleDelete.
    destruct confirmed; [|reflexivity].
    destruct deleted; simpl; rewrite Hft; simpl; apply Hind. }
  assert (H2 : products (selectFilter engine ft (handleProductSubmit newProduct st))
               = products (selectFilter engine ft st)).
  { unfold selectFilter, handleProductSubmit.
    destruct (editingProduct st); simpl; rewrite Hft; simpl; apply Hind. }
  split; [exact H1|]. split; [exact H2|].
  intros ->. rewrite H1, H2. unfold selectFilter. rewrite Hft. simpl.
  unfold applyFilter. destruct (allProducts st) as [|a l]; [congruence|].
  simpl. tauto.
Qed.

(** The margin [(a - b) / a x 100] of a positive amount [a]. *)
Lemma margin_bounds (a b : Q) :
  (0 < a)%Q ->
  let m := ((a - b) / a * inject_Z 100)%Q in
  ((0 <= b)%Q -> (m <= 100)%Q) /\
  ((b <= a)%Q -> (0 <= m)%Q) /\
  ((a < b)%Q -> (m < 0)%Q) /\
  ((b == a)%Q -> (m == 0)%Q).
Proof.
  intros Ha m. subst m.
  assert (Hne : ~ (a == 0)%Q).
  { intros E. rewrite E in Ha. exact (Qlt_irrefl _ Ha). }
  assert (E : ((a - b) / a * inject_Z 100 == 100 - 100 * b / a)%Q).
  { change (inject_Z 100) with 100%Q. now field. }
  assert (Hinv : (0 < / a)%Q) by now apply Qinv_lt_0_compat.
  split; [|split; [|split]]; intros H; rewrite E; unfold Qdiv.
  - assert (0 <= 100 * b * / a)%Q.
    { apply Qmult_le_0_compat; [|now apply Qlt_le_weak].
      apply Qmult_le_0_compat; [discriminate | exact H]. }
    lra.
  - assert (100 * b * / a <= 100 * a * / a)%Q.
    { apply Qmult_le_compat_r; [|now apply Qlt_le_weak]. lra. }
    assert (100 * a * / a == 100)%Q by now field. lra.
  - assert (100 * a * / a < 100 * b * / a)%Q.
    { apply Qmult_lt_compat_r; [exact Hinv|]. lra. }
    assert (100 * a * / a == 100)%Q by now field. lra.
  - rewrite H. now field.
Qed.

(** X15.  The profit margin shown for a product is 0 when its selling
    price is not positive.  For a positive selling price it is at most 100
    when the cost is not negative, it is not negative when the cost is at
    most the price, and it is negative when the product sells below its
    cost. *)
Theorem getProfitMargin_bounds (p : Product) :
  ((selling_price p <= 0)%Q -> (getProfitMargin p == 0)%Q) /\
  ((0 < selling_price p)%Q ->
   ((0 <= cost_price p)%Q -> (getProfitMargin p <= 100)%Q) /\
   ((cost_price p <= selling_price p)%Q -> (0 <= getProfitMargin p)%Q) /\
   ((selling_price p < cost_price p)%Q -> (getProfitMargin p < 0)%Q)).
Proof.
  unfold getProfitMargin, Finance.positive. split.
  - intros H. apply Qle_bool_iff in H. now rewrite H.
  - intros H. destruct (Qle_bool (selling_price p) 0) eqn:E.
    + apply Qle_bool_iff in E. exfalso. exact (Qlt_not_le _ _ H E).
    + simpl. pose proof (margin_bounds (selling_price p) (cost_price p) H).
      cbv zeta in *. tauto.
Qed.

End InventoryPageSpec.

(** ** More on the finance report *)

Module FinanceMore.
Import JsDate JsDateSpec Finance.

Lemma DayWithinYear_nonneg (t : Z) : 0 <= DayWithinYear t.
Proof.
  unfold DayWithinYear. pose proof (YearFromTime_spec t). lia.
Qed.

Lemma DateFromTime_pos (t : Z) : 1 <= DateFromTime t.
Proof.
  pose proof (DayWithinYear_nonneg t) as H.
  unfold DateFromTime, MonthFromTime.
  set (d := DayWithinYear t) in *. set (leap := leapDays (YearFromTime t)).
  repeat match goal with
         | |- context [?a <? ?b] => destruct (Z.ltb_spec a b); cbv iota
         end; simpl daysBeforeMonth; lia.
Qed.

Lemma getDay_range (zone : Z -> bool -> Z) (t : Z) :
  0 <= getDay zone t <= 6.
Proof.
  unfold getDay, WeekDay.
  pose proof (Z.mod_pos_bound (Day (LocalTime zone t) + 4) 7). lia.
Qed.

(** X16.  For a current time after the year 99, in a time zone whose
    changes of offset skip no local midnight and keep the local days in
    order, as every zone of constant offset does: the sales of today are
    among those of this week and among those of this month; no sale is
    both of today and of yesterday, of this week and of last week, or of
    this month and of last month; and a period that is not one of the six
    names selects the sales of today. *)
Theorem periods_nest_and_do_not_overlap (zone : Z -> bool -> Z) (now : Z)
    (sales : list Sale) (sale : Sale) :
  99 < getFullYear zone now ->
  keeps_midnights zone -> days_in_order zone ->
  let shown period := In sale (filteredSales zone now period sales) in
  (shown today -> shown this_week /\ shown this_month) /\
  ~ (shown today /\ shown yesterday) /\
  ~ (shown this_week /\ shown last_week) /\
  ~ (shown this_month /\ shown last_month) /\
  (shown other <-> shown today).
Proof.
  intros Hy Hk Ho shown. subst shown. cbv beta.
  rewrite !FinanceSpec.filteredSales_In.
  pose proof (FinanceSpec.zone_ranges zone now Hy Hk)
    as (R1 & R2 & R3 & R4 & R5 & R6).
  assert (R7 : getDateRange zone now other = getDateRange zone now today)
    by reflexivity.
  rewrite R7, R1, R2, R3, R4, R5, R6. cbn [fst snd].
  pose proof (getDay_range zone now) as Hw.
  pose proof (DateFromTime_pos (LocalTime zone now)) as Hd.
  fold (getDate zone now) in Hd.
  set (day := Day (LocalTime zone now)) in *.
  pose proof (startOfDay_mono zone (day - getDay zone now) day Ho
                ltac:(lia)) as M1.
  pose proof (startOfDay_mono zone (day - (getDate zone now - 1)) day Ho
                ltac:(lia)) as M2.
  pose proof (Ho (day - 1)) as O1.
  replace (day - 1 + 1) with day in O1 by lia.
  pose proof (Ho (day - getDay zone now - 1)) as O2.
  replace (day - getDay zone now - 1 + 1) with (day - getDay zone now)
    in O2 by lia.
  pose proof (Ho (day - (getDate zone now - 1) - 1)) as O3.
  replace (day - (getDate zone now - 1) - 1 + 1)
    with (day - (getDate zone now - 1)) in O3 by lia.
  split; [|split; [|split; [|split]]].
  - intros (Hin & t & E & Ht). split; (split; [exact Hin|]); exists t;
      (split; [exact E | lia]).
  - intros [(_ & t & E & Ht) (_ & t' & E' & Ht')].
    assert (t' = t) by congruence. subst t'. lia.
  - intros [(_ & t & E & Ht) (_ & t' & E' & Ht')].
    assert (t' = t) by congruence. subst t'. lia.
  - intros [(_ & t & E & Ht) (_ & t' & E' & Ht')].
    assert (t' = t) by congruence. subst t'. lia.
  - tauto.
Qed.

(** X17.  When the costs of the sales are not negative and the revenue is
    positive, the profit margin of the report is at most 100; it is not
    negative when the cost is at most the revenue, and negative when the
    cost exceeds it. *)
Theorem profitMargin_bounds (sales : list Sale) :
  Forall (fun sale => (0 <= total_cost sale)%Q) sales ->
  let m := financialMetrics sales in
  (0 < totalRevenue m)%Q ->
  (profitMargin m <= 100)%Q /\
  ((totalCost m <= totalRevenue m)%Q -> (0 <= profitMargin m)%Q) /\
  ((totalRevenue m < totalCost m)%Q -> (profitMargin m < 0)%Q).
Proof.
  intros Hc m Hr.
  destruct (FinanceSpec.profitMargin_guard sales) as [_ Hm].
  fold m in Hm. specialize (Hm Hr).
  assert (H0 : (0 <= totalCost m)%Q).
  { unfold m, financialMetrics. simpl. rewrite FinanceSpec.reduce_sum_sales.
    rewrite Qplus_0_l. now apply FinanceSpec.sum_sales_nonneg. }
  pose proof (InventoryPageSpec.margin_bounds (totalRevenue m) (totalCost m) Hr)
    as (B1 & B2 & B3 & _).
  split; [|split]; intros; rewrite Hm; auto.
Qed.

End FinanceMore.

(** ** Objects keyed by numbers *)

Module JsObjectSpec.
Import JsObject.

Section Obj.

Context {V : Type}.
Implicit Types (o : t V) (k : Z) (v : V).

Lemma get_set_eq o k v : get k (set k v o) = Some v.
Proof.
  induction o as [|[k' v'] o IH]; simpl; [now rewrite Z.eqb_refl|].
  destruct (k' =? k) eqn:E; simpl; [now rewrite Z.eqb_refl|].
  now rewrite E.
Qed.

Lemma get_set_ne o k k' v : k' <> k -> get k (set k' v o) = get k o.
Proof.
  intros Hne. induction o as [|[k'' v'] o IH]; simpl.
  - apply Z.eqb_neq in Hne. now rewrite Hne.
  - destruct (Z.eqb_spec k'' k'); simpl.
    + subst k''. apply Z.eqb_neq in Hne. now rewrite Hne.
    + now rewrite IH.
Qed.

Lemma get_keys o k : get k o = None <-> ~ In k (List.map fst o).
Proof.
  induction o as [|[k' v'] o IH]; simpl; [tauto|].
  destruct (Z.eqb_spec k' k); [|tauto]. split; [discriminate|tauto].
Qed.

Lemma keys_set o k v :
  List.map fst (set k v o) =
    match get k o with
    | Some _ => List.map fst o
    | None => List.map fst o ++ [k]
    end.
Proof.
  induction o as [|[k' v'] o IH]; simpl; [reflexivity|].
  destruct (Z.eqb_spec k' k); simpl; [now subst|].
  rewrite IH. now destruct (get k o).
Qed.

Lemma NoDup_set o k v :
  List.NoDup (List.map fst o) -> List.NoDup (List.map fst (set k v o)).
Proof.
  intros H. rewrite keys_set. destruct (get k o) eqn:E; [exact H|].
  apply get_keys in E. apply List.NoDup_app; [exact H| |].
  - repeat constructor. simpl. tauto.
  - intros x Hx [<- | []]. contradiction.
Qed.

Lemma get_In o k v :
  List.NoDup (List.map fst o) -> (In (k, v) o <-> get k o = Some v).
Proof.
  induction o as [|[k' v'] o IH]; simpl; intros Hnd;
    [split; [tauto|discriminate]|].
  inversion Hnd as [|? ? Hn Hd]; subst.
  destruct (Z.eqb_spec k' k) as [->|Hne].
  - split.
    + intros [E|Hin]; [congruence|]. exfalso. apply Hn.
      apply in_map_iff. now exists (k, v).
    + intros E. left. congruence.
  - rewrite <- (IH Hd). split; [|tauto]. intros [E|Hin]; [congruence|exact Hin].
Qed.

Lemma filter_split {A : Type} (g : A -> bool) (l : list A) :
  Permutation (List.filter g l ++ List.filter (fun x => negb (g x)) l) l.
Proof.
  induction l as [|x l IH]; simpl; [constructor|].
  destruct (g x); simpl; [now constructor|].
  rewrite <- Permutation_middle. now constructor.
Qed.

Lemma ownProperties_perm o : Permutation (ownProperties o) o.
Proof.
  unfold ownProperties. rewrite InventorySpec.sort_perm.
  apply (filter_split (fun e => isArrayIndex (fst e))).
Qed.

Lemma values_In o v :
  List.NoDup (List.map fst o) ->
  (In v (values o) <-> exists k, get k o = Some v).
Proof.
  intros Hnd. unfold values. rewrite in_map_iff. split.
  - intros [[k v'] [E Hin]]. simpl in E. subst v'. exists k.
    apply (get_In o k v Hnd).
    now apply (Permutation_in _ (ownProperties_perm o)).
  - intros [k E]. exists (k, v). split; [reflexivity|].
    apply (Permutation_in _ (Permutation_sym (ownProperties_perm o))).
    now apply (get_In o k v Hnd).
Qed.

Lemma values_length o : List.length (values o) = List.length o.
Proof.
  unfold values. rewrite List.length_map.
  apply Permutation_length, ownProperties_perm.
Qed.

End Obj.

End JsObjectSpec.

(** ** The best-selling products *)

Module TopSellingSpec.
Import Supabase JsObject JsObjectSpec TopSelling.

Lemma aggregate_flat (sales : list Finance.Sale)
    (acc : JsObject.t ProductSales) :
  fold_left (fun productSales sale =>
    fold_left addItem (Finance.sale_items sale) productSales) sales acc
  = fold_left addItem (itemsSold sales) acc.
Proof.
  revert acc. induction sales as [|s sales IH]; intros acc; [reflexivity|].
  unfold itemsSold. simpl. rewrite List.fold_left_app. apply IH.
Qed.

Lemma addItem_get (o : JsObject.t ProductSales) (item : Finance.SaleItem)
    (k : Z) :
  get k (addItem o item) =
    if ofProduct k item then Some (added (entry o k) item) else get k o.
Proof.
  unfold addItem, ofProduct, entry, added, itemProfit, itemRevenue, itemCost.
  destruct (Z.eqb_spec (Finance.product_id item) k) as [->|Hne].
  - destruct (get k o) as [e|] eqn:E.
    + rewrite E. apply get_set_eq.
    + rewrite get_set_eq. apply get_set_eq.
  - destruct (get (Finance.product_id item) o) as [e|] eqn:E.
    + rewrite E. now apply get_set_ne.
    + rewrite get_set_eq. rewrite !get_set_ne by exact Hne. reflexivity.
Qed.

Lemma addItem_wf (o : JsObject.t ProductSales) (item : Finance.SaleItem) :
  wf o -> wf (addItem o item).
Proof.
  intros [Hnd Hid]. split.
  - unfold addItem.
    destruct (get (Finance.product_id item) o) as [e|] eqn:E.
    + rewrite E. now apply NoDup_set.
    + rewrite get_set_eq. now apply NoDup_set, NoDup_set.
  - intros k e. rewrite addItem_get. unfold ofProduct, entry.
    destruct (Z.eqb_spec (Finance.product_id item) k) as [_|Hne];
      [|apply Hid].
    intros H. injection H as <-. simpl.
    destruct (get k o) as [e'|] eqn:E; [now apply Hid | reflexivity].
Qed.

(** What the aggregation holds for the product [k] after the items
    [items], in terms of what it held before. *)
Lemma aggregate_entry (items : list Finance.SaleItem)
    (o : JsObject.t ProductSales) (k : Z) :
  wf o ->
  let o' := fold_left addItem items o in
  wf o' /\
  (get k o' = None <->
   get k o = None /\ forall x, In x items -> ofProduct k x = false) /\
  (forall e, get k o' = Some e ->
     quantity e = quantity (entry o k) + unitsSold k items /\
     revenue e = runningSum itemRevenue k items (revenue (entry o k)) /\
     profit e = runningSum itemProfit k items (profit (entry o k))).
Proof.
  revert o. induction items as [|x items IH]; intros o Hwf;
    cbn [fold_left unitsSold runningSum].
  - split; [exact Hwf|]. split; [cbn [In]; tauto|].
    intros e E. unfold entry. rewrite E. repeat split. lia.
  - destruct (IH (addItem o x) (addItem_wf o x Hwf)) as (W & N & S).
    split; [exact W|].
    pose proof (addItem_get o x k) as G. split.
    + rewrite N, G. destruct (ofProduct k x) eqn:E.
      * split; [intros [H _]; discriminate|].
        intros [_ H]. specialize (H x (or_introl eq_refl)). congruence.
      * split.
        -- intros [H1 H2]. split; [exact H1|].
           intros y [<-|Hy]; [exact E | now apply H2].
        -- intros [H1 H2]. split; [exact H1|]. intros y Hy. apply H2.
           now right.
    + intros e E. destruct (S e E) as (S1 & S2 & S3).
      unfold runningSum in *. cbn [fold_left].
      unfold entry in S1, S2, S3. rewrite G in S1, S2, S3.
      destruct (ofProduct k x); cbn [quantity revenue profit added] in *.
      * split; [lia|]. split; assumption.
      * fold (entry o k) in S1, S2, S3. split; [lia|]. split; assumption.
Qed.

Lemma aggregate_of_sales (sales : list Finance.Sale) (k : Z) :
  let o := aggregate sales in
  wf o /\
  (get k o = None <->
   forall x, In x (itemsSold sales) -> ofProduct k x = false) /\
  (forall e, get k o = Some e ->
     productId e = k /\
     quantity e = unitsSold k (itemsSold sales) /\
     revenue e
     = runningSum itemRevenue k (itemsSold sales) (JsNumber.Finite 0) /\
     profit e
     = runningSum itemProfit k (itemsSold sales) (JsNumber.Finite 0)).
Proof.
  unfold aggregate. rewrite aggregate_flat.
  assert (W0 : wf []) by (split; [constructor | discriminate]).
  destruct (aggregate_entry (itemsSold sales) [] k W0) as (W & N & S).
  split; [exact W|]. split; [rewrite N; simpl; tauto|].
  intros e E. destruct (S e E) as (S1 & S2 & S3). unfold entry in *.
  cbn [get quantity revenue profit] in *.
  split; [now apply (proj2 W)|]. split; [lia|]. split; assumption.
Qed.

Lemma grossSold_nonneg (items : list Finance.SaleItem) :
  0 <= grossSold items.
Proof. induction items as [|x items IH]; simpl; nia. Qed.

(** The running sum of amounts that are whole numbers is exact while it
    stays below [2^53]. *)
Lemma runningSum_exact (amount : Finance.SaleItem -> JsNumber.number)
    (value : Finance.SaleItem -> Q) (k : Z)
    (items : list Finance.SaleItem) (a : Z) :
  Forall (fun item =>
    JsNumber.whole (value item) /\
    amount item = JsNumber.ofZ (Finance.quantity item * Qfloor (value item)) /\
    Z.abs (Finance.quantity item * Qfloor (value item))
    <= Z.abs (Finance.quantity item)
       * (Z.abs (Qfloor (Finance.price_at_sale item))
          + Z.abs (Qfloor (Finance.cost_at_sale item)))) items ->
  Z.abs a + grossSold items < 2 ^ 53 ->
  exists z,
    runningSum amount k items (JsNumber.ofZ a) = JsNumber.ofZ z /\
    (inject_Z z == inject_Z a + amountSold value k items)%Q.
Proof.
  revert a. induction items as [|x items IH]; intros a Hw Hb.
  - exists a. split; [reflexivity|]. simpl. ring.
  - inversion Hw as [|? ? (Hx & Ex & Bx) Hitems]; subst.
    cbn [grossSold] in Hb. pose proof (grossSold_nonneg items) as Hg.
    unfold runningSum. cbn [fold_left amountSold].
    destruct (ofProduct k x).
    + rewrite Ex, JsNumberSpec.jsAdd_Z by lia.
      destruct (IH (a + Finance.quantity x * Qfloor (value x)) Hitems
                  ltac:(lia)) as (z & Ez & Qz).
      exists z. split; [exact Ez|]. rewrite Qz.
      rewrite inject_Z_plus, inject_Z_mult. unfold JsNumber.whole in Hx.
      rewrite Hx at 2. ring.
    + destruct (IH a Hitems ltac:(lia)) as (z & Ez & Qz).
      exists z. split; [exact Ez|]. rewrite Qz. ring.
Qed.

Lemma amountSold_difference (f g : Finance.SaleItem -> Q) (k : Z)
    (items : list Finance.SaleItem) :
  (amountSold (fun item => f item - g item) k items
   == amountSold f k items - amountSold g k items)%Q.
Proof.
  induction items as [|x items IH]; simpl; [ring|].
  rewrite IH. destruct (ofProduct k x); ring.
Qed.

Lemma Qfloor_difference (x y : Q) :
  JsNumber.whole x -> JsNumber.whole y ->
  JsNumber.whole (x - y) /\ Qfloor (x - y) = Qfloor x - Qfloor y.
Proof.
  unfold JsNumber.whole. intros Hx Hy.
  assert (E : (x - y == inject_Z (Qfloor x - Qfloor y))%Q).
  { unfold Z.sub. rewrite inject_Z_plus, inject_Z_opp, <- Hx, <- Hy.
    reflexivity. }
  assert (F : Qfloor (x - y) = Qfloor x - Qfloor y)
    by (rewrite E; apply Qfloor_Z).
  split; [now rewrite F | exact F].
Qed.

(** With whole prices and costs and amounts below [2^53] the revenue and
    the profit that the aggregation computes are the exact sums. *)
Lemma runningSum_whole_prices (k : Z) (items : list Finance.SaleItem) :
  wholePrices items -> grossSold items < 2 ^ 53 ->
  exists rev prof,
    runningSum itemRevenue k items (JsNumber.Finite 0)
      = JsNumber.Finite rev /\
    runningSum itemProfit k items (JsNumber.Finite 0)
      = JsNumber.Finite prof /\
    (rev == amountSold Finance.price_at_sale k items)%Q /\
    (prof == amountSold Finance.price_at_sale k items
             - amountSold Finance.cost_at_sale k items)%Q.
Proof.
  intros Hw Hb.
  assert (Hg : forall item,
            In item items ->
            Z.abs (Finance.quantity item)
            * (Z.abs (Qfloor (Finance.price_at_sale item))
               + Z.abs (Qfloor (Finance.cost_at_sale item))) < 2 ^ 53).
  { clear Hw. intros item.
    induction items as [|x items IH]; intros Hin; [destruct Hin|].
    cbn [grossSold] in Hb. pose proof (grossSold_nonneg items) as Hg.
    destruct Hin as [<-|Hin]; [|apply IH; [|exact Hin]]; nia. }
  destruct (runningSum_exact itemRevenue Finance.price_at_sale k items 0)
    as (zr & Er & Qr); [|lia|].
  { apply List.Forall_forall. intros item Hin.
    pose proof (proj1 (List.Forall_forall _ _) Hw item Hin) as [Hp Hc].
    specialize (Hg item Hin).
    assert (B : Z.abs (Finance.quantity item
                       * Qfloor (Finance.price_at_sale item))
                <= Z.abs (Finance.quantity item)
                   * (Z.abs (Qfloor (Finance.price_at_sale item))
                      + Z.abs (Qfloor (Finance.cost_at_sale item))))
      by (rewrite Z.abs_mul; nia).
    split; [exact Hp|]. split; [|exact B].
    unfold itemRevenue.
    exact (proj2 (JsNumberSpec.jsMul_whole _ (Finance.quantity item) Hp
                    (Z.le_lt_trans _ _ _ B Hg))). }
  destruct (runningSum_exact itemProfit
              (fun item => (Finance.price_at_sale item
                            - Finance.cost_at_sale item)%Q) k items 0)
    as (zp & Ep & Qp); [|lia|].
  { apply List.Forall_forall. intros item Hin.
    pose proof (proj1 (List.Forall_forall _ _) Hw item Hin) as [Hp Hc].
    specialize (Hg item Hin).
    destruct (Qfloor_difference _ _ Hp Hc) as [Hd Fd].
    set (q := Finance.quantity item) in *.
    set (fp := Qfloor (Finance.price_at_sale item)) in *.
    set (fc := Qfloor (Finance.cost_at_sale item)) in *.
    assert (B : Z.abs (q * (fp - fc)) <= Z.abs q * (Z.abs fp + Z.abs fc))
      by (rewrite Z.abs_mul; nia).
    assert (Bp : Z.abs (q * fp) < 2 ^ 53) by (rewrite Z.abs_mul; nia).
    assert (Bc : Z.abs (q * fc) < 2 ^ 53) by (rewrite Z.abs_mul; nia).
    split; [exact Hd|]. rewrite Fd. split; [|exact B].
    unfold itemProfit, itemRevenue, itemCost. fold q.
    rewrite (proj2 (JsNumberSpec.jsMul_whole _ q Hp Bp)).
    rewrite (proj2 (JsNumberSpec.jsMul_whole _ q Hc Bc)).
    fold fp fc.
    replace (q * (fp - fc)) with (q * fp - q * fc) in * by ring.
    apply JsNumberSpec.jsSub_Z. lia. }
  exists (inject_Z zr), (inject_Z zp).
  split; [exact Er|]. split; [exact Ep|].
  split.
  - rewrite Qr. change (inject_Z 0) with 0%Q. ring.
  - rewrite Qp, amountSold_difference. change (inject_Z 0) with 0%Q. ring.
Qed.

Lemma values_perm {V : Type} (o : JsObject.t V) :
  Permutation (values o) (List.map snd o).
Proof. unfold values. apply Permutation_map, ownProperties_perm. Qed.

Lemma productIds_are_keys (o : JsObject.t ProductSales) :
  wf o -> List.map productId (List.map snd o) = List.map fst o.
Proof.
  intros [Hnd Hid]. rewrite List.map_map. apply List.map_ext_in.
  intros [k e] Hin. simpl. apply Hid. now apply (get_In o k e Hnd).
Qed.

Lemma StronglySorted_prefix {A : Type} (R : A -> A -> Prop)
    (l1 l2 : list A) :
  StronglySorted R (l1 ++ l2) -> StronglySorted R l1.
Proof.
  induction l1 as [|a l1 IH]; simpl; intros Hs; [constructor|].
  inversion Hs as [|? ? Hs' Hall]; subst. constructor; [now apply IH|].
  apply List.Forall_forall. intros x Hx.
  apply (proj1 (List.Forall_forall _ _) Hall). apply in_or_app. now left.
Qed.

(** The rows before the names are attached. *)
Lemma topSellingProducts_rows (products : gmap Z Product)
    (filteredSales : list Finance.Sale) :
  List.map sales_of (topSellingProducts products filteredSales)
  = firstn 5 (Inventory.sort byQuantityDesc
                (values (aggregate filteredSales))).
Proof.
  unfold topSellingProducts. destruct filteredSales as [|s l];
    [reflexivity|].
  cbn [List.length Nat.eqb]. rewrite List.map_map. cbn [sales_of].
  unfold Inventory.slice0. now rewrite List.map_id.
Qed.

Lemma ranked_perm (filteredSales : list Finance.Sale) :
  Permutation
    (Inventory.sort byQuantityDesc (values (aggregate filteredSales)))
    (List.map snd (aggregate filteredSales)).
Proof. rewrite InventorySpec.sort_perm. apply values_perm. Qed.

Lemma ranked_In (filteredSales : list Finance.Sale) (e : ProductSales) :
  In e (Inventory.sort byQuantityDesc (values (aggregate filteredSales)))
  <-> get (productId e) (aggregate filteredSales) = Some e.
Proof.
  destruct (aggregate_of_sales filteredSales 0) as ([Hnd Hid] & _).
  split.
  - intros Hin. apply (Permutation_in _ (ranked_perm filteredSales)) in Hin.
    apply in_map_iff in Hin. destruct Hin as [[k e'] [E Hin]].
    simpl in E. subst e'. apply (get_In _ k e Hnd) in Hin.
    now rewrite (Hid k e Hin).
  - intros G.
    apply (Permutation_in _ (Permutation_sym (ranked_perm filteredSales))).
    apply in_map_iff. exists (productId e, e). split; [reflexivity|].
    now apply (get_In _ _ e Hnd).
Qed.

(** X18.  Every row of the table of best-selling products belongs to a
    product of which an item was sold in the period, and shows the sums over
    all the items of that product in the period: the units, exactly, and
    the revenue [quantity * price_at_sale] and the profit, revenue less
    [quantity * cost_at_sale], added up in binary64 in the order of the
    items.  When the prices and the costs are whole numbers and the
    amounts stay below 2^53 the revenue and the profit are the exact sums.
    No product has two rows and there are at most five rows. *)
Theorem topSellingProducts_totals (products : gmap Z Product)
    (filteredSales : list Finance.Sale) :
  let rows := List.map sales_of (topSellingProducts products filteredSales) in
  let items := itemsSold filteredSales in
  (List.length rows <= 5)%nat /\
  List.NoDup (List.map productId rows) /\
  forall r, In r rows ->
    (exists item, In item items /\ Finance.product_id item = productId r) /\
    quantity r = unitsSold (productId r) items /\
    revenue r
    = runningSum itemRevenue (productId r) items (JsNumber.Finite 0) /\
    profit r
    = runningSum itemProfit (productId r) items (JsNumber.Finite 0) /\
    (wholePrices items -> grossSold items < 2 ^ 53 ->
     exists rev prof,
       revenue r = JsNumber.Finite rev /\
       profit r = JsNumber.Finite prof /\
       (rev == amountSold Finance.price_at_sale (productId r) items)%Q /\
       (prof == amountSold Finance.price_at_sale (productId r) items
                - amountSold Finance.cost_at_sale (productId r) items)%Q).
Proof.
  intros rows items. subst rows. rewrite topSellingProducts_rows.
  set (ranked := Inventory.sort byQuantityDesc
                   (values (aggregate filteredSales))).
  split; [apply List.firstn_le_length|]. split.
  - destruct (aggregate_of_sales filteredSales 0) as (W & _).
    assert (Hnd : List.NoDup (List.map productId ranked)).
    { apply (Permutation_NoDup
               (Permutation_sym
                  (Permutation_map productId (ranked_perm filteredSales)))).
      rewrite (productIds_are_keys _ W). exact (proj1 W). }
    rewrite <- (List.firstn_skipn 5 ranked), List.map_app in Hnd.
    now apply List.NoDup_app_remove_r in Hnd.
  - intros r Hin.
    assert (Hr : In r ranked).
    { rewrite <- (List.firstn_skipn 5 ranked). apply in_or_app. now left. }
    apply ranked_In in Hr.
    destruct (aggregate_of_sales filteredSales (productId r))
      as (_ & N & S).
    destruct (S r Hr) as (_ & S1 & S2 & S3). fold items in S1, S2, S3.
    split.
    { destruct (List.existsb (ofProduct (productId r)) items) eqn:E.
      + apply List.existsb_exists in E. destruct E as [item [Hi Hp]].
        exists item. split; [exact Hi|]. now apply Z.eqb_eq in Hp.
      + exfalso.
        assert (G : get (productId r) (aggregate filteredSales) = None).
        { apply N. intros x Hx. destruct (ofProduct (productId r) x) eqn:Ex;
            [|reflexivity].
          rewrite <- E. symmetry. apply List.existsb_exists. now exists x. }
        congruence. }
    split; [exact S1|]. split; [exact S2|]. split; [exact S3|].
    intros Hw Hb.
    destruct (runningSum_whole_prices (productId r) items Hw Hb)
      as (rev & prof & Er & Ep & Qr & Qp).
    exists rev, prof. rewrite S2, S3. repeat split; assumption.
Qed.

(** X19.  The table of best-selling products is ordered by units sold, most
    first, and leaves out no product that sold more than a product it shows:
    a product with an item sold in the period either has a row, or the table
    is full with five rows each of at least as many units. *)
Theorem topSellingProducts_ranking (products : gmap Z Product)
    (filteredSales : list Finance.Sale) :
  let rows := List.map sales_of (topSellingProducts products filteredSales) in
  let items := itemsSold filteredSales in
  StronglySorted (fun a b => quantity b <= quantity a) rows /\
  forall item, In item items ->
    In (Finance.product_id item) (List.map productId rows) \/
    (List.length rows = 5%nat /\
     forall r, In r rows ->
       unitsSold (Finance.product_id item) items <= quantity r).
Proof.
  intros rows items. subst rows. rewrite topSellingProducts_rows.
  set (ranked := Inventory.sort byQuantityDesc
                   (values (aggregate filteredSales))).
  assert (Hs : StronglySorted (fun a b => quantity b <= quantity a) ranked)
    by apply (InventorySpec.sort_by_key_sorted quantity).
  rewrite <- (List.firstn_skipn 5 ranked) in Hs. split.
  - now apply StronglySorted_prefix in Hs.
  - intros item Hitem. set (k := Finance.product_id item).
    destruct (aggregate_of_sales filteredSales k) as (_ & N & S).
    destruct (get k (aggregate filteredSales)) as [e|] eqn:G.
    + destruct (S e eq_refl) as (Sid & Sq & _).
      assert (He : In e ranked) by (apply ranked_In; now rewrite Sid).
      rewrite <- (List.firstn_skipn 5 ranked) in He.
      apply in_app_or in He. destruct He as [He|He].
      * left. rewrite <- Sid. now apply in_map.
      * right. split.
        -- apply List.firstn_length_le.
           destruct (Nat.le_gt_cases 5 (List.length ranked)) as [H|H];
             [exact H|].
           rewrite List.skipn_all2 in He by lia. destruct He.
        -- intros r Hr. fold items in Sq. rewrite <- Sq.
           apply (InventoryPageSpec.StronglySorted_across _ _ _ Hs r e Hr He).
    + exfalso. assert (H : ofProduct k item = false)
        by (apply (proj1 N eq_refl); exact Hitem).
      unfold ofProduct, k in H. now rewrite Z.eqb_refl in H.
Qed.

(** ** The names in the table *)

Lemma productsMap_fold (productsData : list Product) (m : gmap Z Product)
    (i : Z) :
  let m' := fold_left (fun m product =>
              match id product with
              | Some i => <[i := product]> m
              | None => m
              end) productsData m in
  (m' !! i = None <->
   m !! i = None /\ forall p, In p productsData -> id p <> Some i) /\
  (forall p, m' !! i = Some p ->
     m !! i = Some p \/ (In p productsData /\ id p = Some i)).
Proof.
  revert m. induction productsData as [|a l IH]; intros m; simpl.
  - split; [|now left]. split; [intros H; split; [exact H | tauto] | tauto].
  - destruct (id a) as [j|] eqn:Ej.
    + destruct (IH (<[j := a]> m)) as [N S]. split.
      * rewrite N. destruct (Z.eq_dec j i) as [->|Hne].
        -- rewrite lookup_insert_eq. split; [intros [H _]; discriminate|].
           intros [_ H]. exfalso. apply (H a); [now left | exact Ej].
        -- rewrite lookup_insert_ne by exact Hne. split.
           ++ intros [H1 H2]. split; [exact H1|].
              intros p [<-|Hp]; [congruence | now apply H2].
           ++ intros [H1 H2]. split; [exact H1|]. intros p Hp. apply H2.
              now right.
      * intros p Hp. destruct (S p Hp) as [Hm|[Hin Hid]]; [|tauto].
        destruct (Z.eq_dec j i) as [->|Hne].
        -- rewrite lookup_insert_eq in Hm. injection Hm as <-. right. tauto.
        -- rewrite lookup_insert_ne in Hm by exact Hne. now left.
    + destruct (IH m) as [N S]. split.
      * rewrite N. split.
        -- intros [H1 H2]. split; [exact H1|].
           intros p [<-|Hp]; [congruence | now apply H2].
        -- intros [H1 H2]. split; [exact H1|]. intros p Hp. apply H2.
           now right.
      * intros p Hp. destruct (S p Hp) as [Hm|[Hin Hid]]; tauto.
Qed.

(** X20.  The name shown in a row of the best-selling table is never empty.
    It is the label of a deleted product when the catalog fetched for the
    page has no product with the row's identifier; any other name shown is
    the name of a catalog product with that identifier. *)
Theorem topSellingProducts_names (productsData : list Product)
    (filteredSales : list Finance.Sale) :
  forall r,
    In r (topSellingProducts (productsMap productsData) filteredSales) ->
    shown_name r <> EmptyString /\
    ((forall p, In p productsData ->
        id p <> Some (productId (sales_of r))) ->
     shown_name r = deletedProduct) /\
    (shown_name r <> deletedProduct ->
     exists p, In p productsData /\
       id p = Some (productId (sales_of r)) /\ name p = shown_name r).
Proof.
  intros r Hin.
  assert (E : shown_name r
              = nameOf (productsMap productsData) (sales_of r)).
  { unfold topSellingProducts in Hin.
    destruct (List.length filteredSales =? 0)%nat; [destruct Hin|].
    apply in_map_iff in Hin. now destruct Hin as [e [<- _]]. }
  rewrite E. unfold nameOf.
  destruct (productsMap_fold productsData ∅ (productId (sales_of r)))
    as [N S]. fold (productsMap productsData) in N, S.
  destruct (productsMap productsData !! productId (sales_of r))
    as [p|] eqn:L.
  - destruct (S p eq_refl) as [Hm|[Hp Hid]];
      [now rewrite lookup_empty in Hm|].
    destruct (name p) as [|c n] eqn:En; simpl.
    + split; [discriminate|]. split; [reflexivity | congruence].
    + split; [discriminate|]. split.
      * intros H. exfalso. now apply (H p Hp).
      * intros _. exists p. now rewrite En.
  - split; [discriminate|]. split; [reflexivity | congruence].
Qed.

End TopSellingSpec.


(** ** The cart summary of the small-screen layout *)

Module MobileCartSpec.
Import Supabase JsObject JsObjectSpec MobileCart.

Lemma bump_0 (g : Group) : bump g 0 = g.
Proof. destruct g. unfold bump. cbn. now rewrite Z.add_0_r. Qed.

Lemma bump_bump (g : Group) (a b : Z) : bump (bump g a) b = bump g (a + b).
Proof. unfold bump. cbn. now rewrite Z.add_assoc. Qed.

Lemma lineQuantity_cons (k : Z) (x : Pos.CartItem) (c : list Pos.CartItem) :
  lineQuantity k (x :: c) =
    if Pos.is_line k x then Pos.quantity x + lineQuantity k c
    else lineQuantity k c.
Proof. unfold lineQuantity. cbn. now destruct (Pos.is_line k x). Qed.

Lemma groupItem_get (ps : list Product) (acc : JsObject.t Group)
    (x : Pos.CartItem) (k : Z) :
  get k (groupItem ps acc x) =
    if Pos.is_line k x then
      match List.find (Pos.has_id k) ps with
      | None => get k acc
      | Some P =>
        match get k acc with
        | Some g => Some (bump g (Pos.quantity x))
        | None =>
          Some (mkGroup k (Pos.quantity x) (Pos.price_at_sale x) (Some P))
        end
      end
    else get k acc.
Proof.
  unfold groupItem, Pos.is_line.
  destruct (Z.eqb_spec (Pos.product_id x) k) as [E|Hne].
  - rewrite E. destruct (List.find (Pos.has_id k) ps); [|reflexivity].
    destruct (get k acc); apply get_set_eq.
  - destruct (List.find (Pos.has_id (Pos.product_id x)) ps); [|reflexivity].
    destruct (get (Pos.product_id x) acc); now apply get_set_ne.
Qed.

Lemma groupItem_NoDup (ps : list Product) (acc : JsObject.t Group)
    (x : Pos.CartItem) :
  List.NoDup (List.map fst acc) ->
  List.NoDup (List.map fst (groupItem ps acc x)).
Proof.
  intros H. unfold groupItem.
  destruct (List.find (Pos.has_id (Pos.product_id x)) ps); [|exact H].
  destruct (get (Pos.product_id x) acc); now apply NoDup_set.
Qed.

Lemma grouped_NoDup (ps : list Product) (c : list Pos.CartItem)
    (acc : JsObject.t Group) :
  List.NoDup (List.map fst acc) ->
  List.NoDup (List.map fst (fold_left (groupItem ps) c acc)).
Proof.
  revert acc. induction c as [|x c IH]; intros acc H; [exact H|].
  cbn. now apply IH, groupItem_NoDup.
Qed.

(** The group of the product [k] after the lines [c], from what the
    accumulator held. *)
Lemma grouped_get (ps : list Product) (c : list Pos.CartItem)
    (acc : JsObject.t Group) (k : Z) :
  get k (fold_left (groupItem ps) c acc) =
    match List.find (Pos.has_id k) ps with
    | None => get k acc
    | Some P =>
      match get k acc with
      | Some g => Some (bump g (lineQuantity k c))
      | None =>
        match List.find (Pos.is_line k) c with
        | Some l =>
          Some (mkGroup k (lineQuantity k c) (Pos.price_at_sale l) (Some P))
        | None => None
        end
      end
    end.
Proof.
  revert acc. induction c as [|x c IH]; intros acc.
  - cbn. destruct (List.find (Pos.has_id k) ps); [|reflexivity].
    destruct (get k acc) as [g|]; [|reflexivity].
    unfold lineQuantity. cbn. now rewrite bump_0.
  - cbn [fold_left List.find]. rewrite IH, groupItem_get, lineQuantity_cons.
    destruct (List.find (Pos.has_id k) ps) as [P|];
      [|now destruct (Pos.is_line k x)].
    destruct (Pos.is_line k x); [|reflexivity].
    destruct (get k acc) as [g|].
    + now rewrite bump_bump.
    + unfold bump. reflexivity.
Qed.

Lemma groups_In (st : Pos.State) (g : Group) :
  In g (groups st) <->
  exists k P l,
    List.find (Pos.has_id k) (Pos.products st) = Some P /\
    List.find (Pos.is_line k) (Pos.cart st) = Some l /\
    g = mkGroup k (lineQuantity k (Pos.cart st)) (Pos.price_at_sale l)
          (Some P).
Proof.
  unfold groups. rewrite values_In by (apply grouped_NoDup; constructor).
  split.
  - intros [k G]. rewrite grouped_get in G. cbn [get] in G.
    destruct (List.find (Pos.has_id k) (Pos.products st)) as [P|] eqn:EP;
      [|discriminate].
    destruct (List.find (Pos.is_line k) (Pos.cart st)) as [l|] eqn:El;
      [|discriminate].
    injection G as <-. now exists k, P, l.
  - intros (k & P & l & EP & El & ->). exists k.
    rewrite grouped_get, EP. cbn [get]. now rewrite El.
Qed.

Lemma keyed_values {V : Type} (f : V -> Z) (o : JsObject.t V) :
  List.NoDup (List.map fst o) ->
  (forall k v, get k o = Some v -> f v = k) ->
  List.NoDup (List.map f (values o)).
Proof.
  intros Hnd Hid.
  apply (Permutation_NoDup
           (Permutation_sym
              (Permutation_map f (TopSellingSpec.values_perm o)))).
  replace (List.map f (List.map snd o)) with (List.map fst o); [exact Hnd|].
  rewrite List.map_map. apply List.map_ext_in. intros [k v] Hin. cbn.
  symmetry. apply Hid. now apply (get_In o k v Hnd).
Qed.

(** X21.  The cart summary of the small-screen layout shows one tile for
    each product of the catalog that has a line in the cart, and no other
    tile: the tile carries the units of all the cart lines of the product
    taken together, the price of the first of them and the product of the
    catalog.  No product has two tiles. *)
Theorem mobile_summary_groups (st : Pos.State) :
  List.NoDup (List.map product_id (groups st)) /\
  forall g, In g (groups st) <->
    exists k P l,
      List.find (Pos.has_id k) (Pos.products st) = Some P /\
      List.find (Pos.is_line k) (Pos.cart st) = Some l /\
      g = mkGroup k (lineQuantity k (Pos.cart st)) (Pos.price_at_sale l)
            (Some P).
Proof.
  split; [|apply groups_In].
  unfold groups. apply keyed_values; [apply grouped_NoDup; constructor|].
  intros k g G. rewrite grouped_get in G. cbn [get] in G.
  destruct (List.find (Pos.has_id k) (Pos.products st)); [|discriminate].
  destruct (List.find (Pos.is_line k) (Pos.cart st)); [|discriminate].
  now injection G as <-.
Qed.

Lemma no_line_no_units (k : Z) (c : list Pos.CartItem) :
  ~ In k (List.map Pos.product_id c) -> lineQuantity k c = 0.
Proof.
  induction c as [|x c IH]; intros H; [reflexivity|].
  rewrite lineQuantity_cons. unfold Pos.is_line.
  destruct (Z.eqb_spec (Pos.product_id x) k) as [E|_].
  - exfalso. apply H. now left.
  - apply IH. intros Hin. apply H. now right.
Qed.

Lemma lineQuantity_unique (k : Z) (c : list Pos.CartItem)
    (l : Pos.CartItem) :
  List.NoDup (List.map Pos.product_id c) ->
  List.find (Pos.is_line k) c = Some l ->
  lineQuantity k c = Pos.quantity l.
Proof.
  induction c as [|x c IH]; intros Hnd Hl; [discriminate|].
  inversion Hnd as [|? ? Hn Hd]; subst. cbn [List.find] in Hl.
  rewrite lineQuantity_cons.
  destruct (Pos.is_line k x) eqn:E.
  - injection Hl as <-. unfold Pos.is_line in E. apply Z.eqb_eq in E.
    rewrite no_line_no_units; [lia|]. now rewrite <- E.
  - now apply IH.
Qed.

Lemma find_requantify (k : Z) (f : Pos.CartItem -> Z)
    (c : list Pos.CartItem) :
  List.find (Pos.is_line k) (Pos.requantify k f c) =
    match List.find (Pos.is_line k) c with
    | Some l => Some (Pos.with_quantity l (f l))
    | None => None
    end.
Proof.
  induction c as [|x c IH]; [reflexivity|]. cbn.
  destruct (Pos.is_line k x) eqn:E; cbn.
  - unfold Pos.is_line in *. cbn. now rewrite E.
  - now rewrite E.
Qed.

Lemma handleUpdateQuantity_within (k n : Z) (P : Product) (st : Pos.State) :
  List.find (Pos.has_id k) (Pos.products st) = Some P ->
  1 <= n <= stock P ->
  Pos.handleUpdateQuantity k n st
  = Pos.setCart (Pos.requantify k (fun _ => n)) st.
Proof.
  intros EP Hn. unfold Pos.handleUpdateQuantity. rewrite EP.
  destruct (Z.leb_spec n 0); [lia|].
  destruct (n >? stock P) eqn:E; [apply gtb_true in E; lia|]. reflexivity.
Qed.

(** X22.  On a cart that satisfies the invariant of the cart operations,
    the three controls of a tile never remove a line and never open the
    notice: the cart keeps its products and its invariant, the catalog and
    the notice stay as they are, and the product of the tile ends with
    [q - 1] units but at least 1 after [-], with [q + 1] units but at most
    the stock after [+], and with the number typed when that lies between 1
    and the stock; any other input changes nothing. *)
Theorem mobile_controls_keep_the_lines (st : Pos.State) (g : Group)
    (c : Control) :
  Pos.cart_ok (Pos.products st) (Pos.cart st) ->
  In g (groups st) ->
  let st' := press c g st in
  exists P,
    product g = Some P /\
    List.map Pos.product_id (Pos.cart st')
    = List.map Pos.product_id (Pos.cart st) /\
    Pos.cart_ok (Pos.products st') (Pos.cart st') /\
    Pos.products st' = Pos.products st /\
    Pos.modalOpen st' = Pos.modalOpen st /\
    Pos.modalContent st' = Pos.modalContent st /\
    lineQuantity (product_id g) (Pos.cart st') =
      match c with
      | pressMinus => Z.max 1 (quantity g - 1)
      | pressPlus => Z.min (stock P) (quantity g + 1)
      | typeQuantity (Some n) =>
        if (1 <=? n) && (n <=? stock P) then n else quantity g
      | typeQuantity None => quantity g
      end.
Proof.
  intros Hok Hg st'. apply groups_In in Hg.
  destruct Hg as (k & P & l & EP & El & ->). exists P. cbn [product].
  split; [reflexivity|].
  pose proof (lineQuantity_unique k _ l (proj1 Hok) El) as Hq.
  assert (Hl : 1 <= Pos.quantity l <= stock P).
  { destruct (PosSpec.find_is_line_some _ _ _ El) as [Hin Hid].
    destruct (proj1 (List.Forall_forall _ _) (proj2 Hok) l Hin)
      as (P' & EP' & Hr).
    rewrite Hid, EP in EP'. now injection EP' as <-. }
  cbn [product_id quantity]. rewrite Hq.
  assert (Same : forall st0, st0 = st ->
            forall q, q = Pos.quantity l ->
            List.map Pos.product_id (Pos.cart st0)
            = List.map Pos.product_id (Pos.cart st) /\
            Pos.cart_ok (Pos.products st0) (Pos.cart st0) /\
            Pos.products st0 = Pos.products st /\
            Pos.modalOpen st0 = Pos.modalOpen st /\
            Pos.modalContent st0 = Pos.modalContent st /\
            lineQuantity k (Pos.cart st0) = q).
  { intros st0 -> q ->. now repeat split; try apply Hok. }
  assert (Set_ : forall n, 1 <= n <= stock P ->
            forall st0, st0 = Pos.handleUpdateQuantity k n st ->
            List.map Pos.product_id (Pos.cart st0)
            = List.map Pos.product_id (Pos.cart st) /\
            Pos.cart_ok (Pos.products st0) (Pos.cart st0) /\
            Pos.products st0 = Pos.products st /\
            Pos.modalOpen st0 = Pos.modalOpen st /\
            Pos.modalContent st0 = Pos.modalContent st /\
            lineQuantity k (Pos.cart st0) = n).
  { intros n Hn st0 ->.
    destruct (PosSpec.handleUpdateQuantity_ok k n st Hok) as [Hp Hc].
    rewrite Hp. split; [|split; [exact Hc|]].
    - rewrite (handleUpdateQuantity_within k n P st EP Hn). cbn.
      apply PosSpec.requantify_ids.
    - rewrite (handleUpdateQuantity_within k n P st EP Hn). cbn.
      repeat split.
      apply (lineQuantity_unique k _ (Pos.with_quantity l n)).
      + rewrite PosSpec.requantify_ids. apply Hok.
      + now rewrite find_requantify, El. }
  subst st'. destruct c as [| |[n|]]; cbn [press].
  - unfold minus. cbn [product quantity product_id]. rewrite Hq.
    destruct (Pos.quantity l >? 1) eqn:E.
    + apply gtb_true in E. rewrite Z.max_r by lia.
      apply (Set_ (Pos.quantity l - 1)); [lia | reflexivity].
    + apply gtb_false in E. rewrite Z.max_l by lia.
      apply Same; [reflexivity | lia].
  - unfold plus. cbn [product quantity product_id]. rewrite Hq.
    destruct (Z.ltb_spec (Pos.quantity l) (stock P)).
    + rewrite Z.min_r by lia.
      apply (Set_ (Pos.quantity l + 1)); [lia | reflexivity].
    + rewrite Z.min_l by lia. apply Same; [reflexivity | lia].
  - unfold input. cbn [product quantity product_id]. rewrite Z.geb_leb.
    destruct (Z.leb_spec 1 n); cbn [andb].
    + destruct (Z.leb_spec n (stock P)).
      * apply (Set_ n); [lia | reflexivity].
      * now apply Same.
    + now apply Same.
  - unfold input. cbn [product]. now apply Same.
Qed.

End MobileCartSpec.

(** ** Creating a product *)

Module ProductWritesSpec.
Import Supabase ProductWrites.

Lemma prefix_app_other (n s b : string) (c0 : ascii) :
  (forall c, In c (list_ascii_of_string n) -> c <> c0) ->
  String.prefix n (s ++ String c0 b) = String.prefix n s.
Proof.
  revert s. induction n as [|a n IH]; intros s H.
  - now destruct s.
  - destruct s as [|c s]; simpl.
    + destruct (ascii_dec a c0) as [E|_]; [|reflexivity].
      exfalso. apply (H a); [now left | exact E].
    + destruct (ascii_dec a c); [|reflexivity].
      apply IH. intros c' Hc'. apply H. now right.
Qed.

Lemma includes_before_advice (m : string) :
  includes (m ++ ". Please check RLS policies.") "permission"
  = includes m "permission".
Proof.
  induction m as [|a m IH]; [reflexivity|].
  change (includes (String a m ++ ". Please check RLS policies.")
            "permission")
    with (String.prefix "permission"
            (String a m ++ ". Please check RLS policies.")
          || includes (m ++ ". Please check RLS policies.") "permission").
  rewrite IH, prefix_app_other; [reflexivity|].
  intros c Hc. cbn in Hc.
  repeat (destruct Hc as [<-|Hc]; [discriminate|]). destruct Hc.
Qed.

Lemma includes_after_failed (m : string) :
  includes ("Failed to create product: " ++ m) "permission"
  = includes m "permission".
Proof. reflexivity. Qed.

Lemma includes_after_denied (m : string) :
  includes ("Permission denied: " ++ m) "permission"
  = includes m "permission".
Proof. reflexivity. Qed.

Lemma includes_after_exists (m : string) :
  includes ("A product with this name already exists: " ++ m) "permission"
  = includes m "permission".
Proof. reflexivity. Qed.

Lemma rethrown_permission (e : JsError) :
  includes (message (rethrown (insertFailure e))) "permission"
  = includes (message e) "permission" /\
  code (rethrown (insertFailure e)) = EmptyString.
Proof.
  split; [|reflexivity]. unfold rethrown, insertFailure.
  destruct (String.eqb (code e) "23505").
  - exact (eq_trans
             (includes_after_failed
                ("A product with this name already exists: " ++ message e))
             (includes_after_exists (message e))).
  - destruct (String.eqb (code e) "42501" || includes (message e) "permission").
    + exact (eq_trans
               (includes_after_failed
                  ("Permission denied: " ++ message e ++
                   ". Please check RLS policies."))
               (eq_trans
                  (includes_after_denied
                     (message e ++ ". Please check RLS policies."))
                  (includes_before_advice (message e)))).
    + destruct (message e) as [|a m]; [reflexivity|].
      exact (includes_after_failed (String a m)).
Qed.

Lemma validated (timestamp randomPart now : Z) (reply : InsertReply)
    (product : Product) (userId : string) :
  falsy userId = false -> blank (name product) = false ->
  (0 < selling_price product)%Q ->
  createProduct timestamp randomPart now reply product userId =
    (Some (productToInsert timestamp randomPart now product),
     match reply with
     | insertError e => Err (rethrown (insertFailure e))
     | inserted None | inserted (Some []) =>
       Err (rethrown
              (mkJsError
                 "Failed to create product. No data returned from database."
                 EmptyString))
     | inserted (Some (p :: _)) => Ok p
     end).
Proof.
  intros Hu Hn Hp. unfold createProduct. rewrite Hu, Hn.
  assert (falsy (name product) = false) as ->
    by (destruct (name product); [discriminate | reflexivity]).
  cbn [orb].
  destruct (Qle_bool (selling_price product) 0) eqn:E; [|reflexivity].
  apply Qle_bool_iff in E. exfalso. now apply (Qlt_not_le _ _ Hp).
Qed.

(** X23.  [createProduct] sends a row to the database unless the user
    identifier is empty, the name is blank or the selling price is not
    positive.  The row is the product it was given, with the generated
    identifier and the creation time, except for the low-stock threshold:
    a threshold of 0 is stored as 5, so that no product is created with the
    threshold 0. *)
Theorem createProduct_row (timestamp randomPart now : Z)
    (reply : InsertReply) (product : Product) (userId : string) :
  let sent :=
    fst (createProduct timestamp randomPart now reply product userId) in
  (sent = None <->
   falsy userId = true \/ blank (name product) = true \/
   (selling_price product <= 0)%Q) /\
  forall row, sent = Some row ->
    id row = Some (generatedId timestamp randomPart) /\
    created_at row = Some now /\
    name row = name product /\
    image_url row = image_url product /\
    selling_price row = selling_price product /\
    (cost_price row == cost_price product)%Q /\
    stock row = stock product /\
    low_stock_threshold row <> 0 /\
    (low_stock_threshold product = 0 -> low_stock_threshold row = 5) /\
    (low_stock_threshold product <> 0 ->
     low_stock_threshold row = low_stock_threshold product).
Proof.
  intros sent. subst sent. unfold createProduct.
  destruct (falsy userId) eqn:Hu;
    [split; [split; [now left | reflexivity] | discriminate]|].
  assert (Hb : falsy (name product) || blank (name product)
               = blank (name product))
    by (destruct (name product); reflexivity).
  rewrite Hb. destruct (blank (name product)) eqn:Hn;
    [split; [split; [now right; left | reflexivity] | discriminate]|].
  destruct (Qle_bool (selling_price product) 0) eqn:Hp.
  - apply Qle_bool_iff in Hp.
    split; [split; [now right; right | reflexivity] | discriminate].
  - assert (Hp' : ~ (selling_price product <= 0)%Q).
    { intros H. apply Qle_bool_iff in H. congruence. }
    cbn [fst]. split.
    + split; [discriminate|]. intros [H|[H|H]]; [discriminate.. | tauto].
    + intros row H. injection H as <-. unfold productToInsert.
      cbn [id created_at name image_url selling_price cost_price stock
           low_stock_threshold].
      repeat (split; [reflexivity|]). split; [|split; [|split; [|split]]].
      * destruct (Qeq_bool (cost_price product) 0) eqn:E; [|reflexivity].
        apply Qeq_bool_iff in E. now symmetry.
      * destruct (Z.eqb_spec (stock product) 0); congruence.
      * destruct (Z.eqb_spec (low_stock_threshold product) 0); lia.
      * intros ->. reflexivity.
      * intros H. destruct (Z.eqb_spec (low_stock_threshold product) 0);
          [contradiction | reflexivity].
Qed.

(** X24.  When the database refuses the row of a new product, the form
    shows the permission notice exactly when the message of the database
    contains [permission]: the code of the error, [42501] included, does
    not reach the form, because [createProduct] throws a new error that
    carries only a message. *)
Theorem permission_notice_ignores_the_code (timestamp randomPart now : Z)
    (e : JsError) (updateProduct : option Z -> Product -> result JsError Product)
    (data : Product) (userId : string) :
  falsy userId = false -> blank (name data) = false ->
  (0 < selling_price data)%Q ->
  let create := fun d u =>
    snd (createProduct timestamp randomPart now (insertError e) d u) in
  ProductForm.formError
    (ProductForm.save create updateProduct userId None data)
  = Some ProductForm.error_permission
  <-> includes (message e) "permission" = true.
Proof.
  intros Hu Hn Hp create. subst create. unfold ProductForm.save.
  rewrite (validated _ _ _ _ _ _ Hu Hn Hp). cbn [snd].
  destruct (rethrown_permission e) as [-> ->]. cbn [String.eqb orb].
  rewrite orb_false_r.
  destruct (includes (message e) "permission"); cbn [ProductForm.formError];
    [tauto|]. split; discriminate.
Qed.

(** X25.  The identifiers generated for new products grow with the clock
    once 100 milliseconds have passed, whatever the random parts; within
    100 milliseconds they can coincide: the identifier of a creation with a
    random part of at least 100 is also the identifier of a creation one
    millisecond later. *)
Theorem generatedId_collisions (t1 r1 : Z) :
  0 <= r1 < 10000 ->
  (forall t2 r2, 0 <= r2 < 10000 -> t1 + 100 <= t2 ->
     generatedId t1 r1 < generatedId t2 r2) /\
  (100 <= r1 ->
   exists r2, 0 <= r2 < 10000 /\
     generatedId (t1 + 1) r2 = generatedId t1 r1).
Proof.
  intros Hr. unfold generatedId. split.
  - intros t2 r2 Hr2 Ht. lia.
  - intros H. exists (r1 - 100). lia.
Qed.

End ProductWritesSpec.


(** ** The image notice of the product form *)

Module ProductFormMore.
Import Supabase ProductForm.

Lemma save_no_image_notice
    (createProduct : Product -> string -> result JsError Product)
    (updateProduct : option Z -> Product -> result JsError Product)
    (userId : string) (product : option Product) (data : Product) :
  formError (save createProduct updateProduct userId product data)
  <> Some error_image_upload.
Proof.
  unfold save.
  destruct (match product with
            | Some p => updateProduct (id p) data
            | None => createProduct data userId
            end) as [q|e]; cbn; [discriminate|].
  destruct (includes (message e) "permission" || String.eqb (code e) "42501");
    cbn; discriminate.
Qed.

Lemma uploadProductImage_stored (userId : string) (file : File)
    (url : string) :
  falsy userId = false -> file_size file <= 5242880 -> falsy url = false ->
  uploadProductImage userId file (uploaded (Some url)) = url.
Proof.
  intros Hu Hf Hn. unfold uploadProductImage. cbn [maxRetries uploadWithRetry].
  unfold uploadAttempt. rewrite Hu.
  destruct (file_size file >? 5242880) eqn:E; [apply gtb_true in E; lia|].
  now rewrite Hn.
Qed.

(** X26.  The form shows the image notice in one case only: the file was
    stored and the bucket returned a public address that contains
    [placeholder].  No failure of the upload leads to the notice. *)
Theorem image_notice_only_for_stored_files
    (createProduct : Product -> string -> result JsError Product)
    (updateProduct : option Z -> Product -> result JsError Product)
    (valid : bool) (user : option string) (product : option Product)
    (formData : FormData) (imageFile : option File) (reply : StorageReply) :
  formError
    (handleSubmit createProduct updateProduct valid user product formData
       imageFile reply)
  = Some error_image_upload
  <->
  valid = true /\
  exists userId file url,
    user = Some userId /\ imageFile = Some file /\
    reply = uploaded (Some url) /\
    uploadFailed userId file reply = false /\
    includes url "placeholder" = true.
Proof.
  unfold handleSubmit. split.
  - destruct user as [userId|]; [|discriminate].
    destruct valid; [|discriminate]. cbn [negb].
    destruct imageFile as [file|];
      [|intros H; now apply save_no_image_notice in H].
    destruct (uploadFailed userId file reply) eqn:F.
    + rewrite (proj2 (ProductFormSpec.failed_upload_passes_the_guard
                        _ _ _ F)).
      intros H. now apply save_no_image_notice in H.
    + pose proof F as F'. unfold uploadFailed in F'.
      apply orb_false_elim in F'. destruct F' as [F1 F3].
      apply orb_false_elim in F1. destruct F1 as [F1 F2].
      destruct reply as [| |[url|]]; try discriminate.
      apply gtb_false in F2.
      rewrite (uploadProductImage_stored userId file url F1 F2 F3), F3.
      cbn [orb]. destruct (includes url "placeholder") eqn:I;
        [|intros H; now apply save_no_image_notice in H].
      intros _. split; [reflexivity|]. now exists userId, file, url.
  - intros [-> (userId & file & url & -> & -> & -> & F & I)]. cbn [negb].
    unfold uploadFailed in F.
    apply orb_false_elim in F. destruct F as [F1 F3].
    apply orb_false_elim in F1. destruct F1 as [F1 F2].
    apply gtb_false in F2.
    rewrite (uploadProductImage_stored userId file url F1 F2 F3), I.
    now rewrite orb_true_r.
Qed.

End ProductFormMore.


(** ** The further properties on the sample data *)

Module WitnessMore.
Import Supabase Pos Examples MoreExamples.

Lemma handleCheckout_failures_witness :
  user checkoutShop = Some "owner"%string /\
  cart checkoutShop <> [] /\
  sale_insert_fails refuseSale = true /\
  snd (fst (handleCheckout refuseSale checkoutShop backend)) = backend /\
  fst (fst (handleCheckout refuseSale checkoutShop backend))
  = showModal error_completing_sale error checkoutShop.
Proof.
  assert (H2 : cart checkoutShop <> []) by discriminate.
  split; [reflexivity|]. split; [exact H2|]. split; [reflexivity|].
  exact (proj1 (proj2
    (CheckoutMore.handleCheckout_failures refuseSale checkoutShop backend))
    "owner"%string eq_refl H2 eq_refl).
Defined.

Lemma createSale_isolates_faults_witness :
  sale_insert_fails secondFetchFails = false /\
  items_insert_fails secondFetchFails = false /\
  List.NoDup (List.map product_id example_cart) /\
  nth_error example_cart 0 = Some (mkCartItem 1 2 (10 # 1) (6 # 1)) /\
  product_fetch_fails secondFetchFails 0 = false /\
  stock_update_fails secondFetchFails 0 = false /\
  product_stock backend !! 1 = Some 1 /\
  product_stock
    (fst (fst (createSale CartItem product_id quantity secondFetchFails
                 "owner" example_cart (JsNumber.ofZ 25) (JsNumber.ofZ 15)
                 backend))) !! 1
  = Some (Z.max 0 (1 - 2)).
Proof.
  assert (H3 : List.NoDup (List.map product_id example_cart)).
  { simpl. constructor; [intros [E|[]]; discriminate|].
    constructor; [intros []|constructor]. }
  assert (H7 : product_stock backend !! 1 = Some 1) by reflexivity.
  split; [reflexivity|]. split; [reflexivity|]. split; [exact H3|].
  split; [reflexivity|]. split; [reflexivity|]. split; [reflexivity|].
  split; [exact H7|].
  exact (proj1
    (StockMore.createSale_isolates_faults product_id quantity
       secondFetchFails "owner" example_cart (JsNumber.ofZ 25)
       (JsNumber.ofZ 15) backend 0%nat
       (mkCartItem 1 2 (10 # 1) (6 # 1)) eq_refl eq_refl H3 eq_refl)
    eq_refl eq_refl 1 H7).
Defined.

Lemma cached_stock_never_negative_witness :
  Session.keyed (example_products 10 4) /\
  Session.in_stock (example_products 10 4) /\
  Session.in_stock
    (products
       (fst (Session.play aSession
               (initial (Some "owner"%string) (example_products 10 4),
                backendInSync)))).
Proof.
  assert (H1 : Session.keyed (example_products 10 4)).
  { intros p i [<-|[<-|[]]] H; injection H as <-; reflexivity. }
  assert (H2 : Session.in_stock (example_products 10 4)).
  { repeat constructor; simpl; lia. }
  split; [exact H1|]. split; [exact H2|].
  exact (proj1
    (SessionSpec.cached_stock_never_negative (Some "owner"%string)
       (example_products 10 4) backendInSync aSession H1 H2)).
Defined.

Lemma checkout_keeps_cache_and_backend_equal_witness :
  user checkoutShop = Some "owner"%string /\
  cart checkoutShop <> [] /\
  sale_insert_fails no_faults = false /\
  items_insert_fails no_faults = false /\
  Session.no_loop_faults no_faults /\
  Session.keyed (products checkoutShop) /\
  cart_ok (products checkoutShop) (cart checkoutShop) /\
  Session.agree (products checkoutShop) (product_stock backendInSync) /\
  Session.agree
    (products (fst (fst (handleCheckout no_faults checkoutShop
                           backendInSync))))
    (product_stock (snd (fst (handleCheckout no_faults checkoutShop
                                backendInSync)))).
Proof.
  assert (H2 : cart checkoutShop <> []) by discriminate.
  assert (H5 : Session.no_loop_faults no_faults)
    by (split; intros k; reflexivity).
  assert (H6 : Session.keyed (products checkoutShop)).
  { intros p i [<-|[<-|[]]] H; injection H as <-; reflexivity. }
  assert (H7 : cart_ok (products checkoutShop) (cart checkoutShop)).
  { split.
    - simpl. constructor; [intros [E|[]]; discriminate|].
      constructor; [intros []|constructor].
    - repeat constructor; eexists; (split; [reflexivity | simpl; lia]). }
  assert (H8 : Session.agree (products checkoutShop)
                 (product_stock backendInSync)).
  { intros p i [<-|[<-|[]]] H; injection H as <-; reflexivity. }
  split; [reflexivity|]. split; [exact H2|]. split; [reflexivity|].
  split; [reflexivity|]. split; [exact H5|]. split; [exact H6|].
  split; [exact H7|]. split; [exact H8|].
  exact (SessionSpec.checkout_keeps_cache_and_backend_equal no_faults
           checkoutShop backendInSync "owner"%string eq_refl H2 eq_refl
           eq_refl H5 H6 H7 H8).
Defined.

Lemma add_then_remove_witness :
  0 <= 0 /\
  List.find (is_line 1) (cart (initial (Some "owner"%string) [tea])) = None /\
  cart (handleUpdateQuantity 1 0
          (handleAddToCart 1 (initial (Some "owner"%string) [tea])))
  = cart (initial (Some "owner"%string) [tea]).
Proof.
  assert (H : 0 <= 0) by lia.
  split; [exact H|]. split; [reflexivity|].
  exact (proj1
    (CartAlgebra.add_then_remove 1 0 (initial (Some "owner"%string) [tea]) H)
    eq_refl).
Defined.

Lemma total_follows_operations_witness :
  List.find (has_id 1) (products shop) = Some tea /\
  List.NoDup (List.map product_id (cart shop)) /\
  exact_amounts price_at_sale (cart shop) /\
  exact_amounts price_at_sale (cart (handleUpdateQuantity 1 3 shop)) /\
  List.find (is_line 1) (cart shop) = Some teaLine /\
  0 < 3 <= stock tea /\
  exists t t',
    totalAmount (cart shop) = JsNumber.Finite t /\
    totalAmount (cart (handleUpdateQuantity 1 3 shop))
      = JsNumber.Finite t' /\
    (t' == t + inject_Z (3 - quantity teaLine) * price_at_sale teaLine)%Q.
Proof.
  assert (H2 : List.NoDup (List.map product_id (cart shop))).
  { simpl. constructor; [intros []|constructor]. }
  assert (H3 : exact_amounts price_at_sale (cart shop)).
  { split; [repeat constructor; reflexivity | reflexivity]. }
  assert (H3' : exact_amounts price_at_sale
                  (cart (handleUpdateQuantity 1 3 shop))).
  { split; [repeat constructor; reflexivity | reflexivity]. }
  assert (H4 : 0 < 3 <= stock tea) by (simpl; lia).
  split; [reflexivity|]. split; [exact H2|]. split; [exact H3|].
  split; [exact H3'|]. split; [reflexivity|]. split; [exact H4|].
  destruct (proj2 (proj2
    (CartAlgebra.total_follows_operations shop 1 tea eq_refl H2))
    (handleUpdateQuantity 1 3 shop) H3 H3')
    as (t & t' & E & E' & _ & _ & Q & _).
  exists t, t'. split; [exact E|]. split; [exact E'|].
  exact (Q teaLine 3 eq_refl H4 eq_refl).
Defined.

Lemma deleteSales_removes_the_users_history_witness :
  SalesHistory.sales_fetch_fails SalesHistory.no_delete_faults = false /\
  SalesHistory.items_delete_fails SalesHistory.no_delete_faults = false /\
  SalesHistory.sales_delete_fails SalesHistory.no_delete_faults = false /\
  List.NoDup (List.map sale_id (sales twoUsers)) /\
  snd (SalesHistory.deleteSales SalesHistory.no_delete_faults "owner"
         twoUsers) = Ok true /\
  sales (fst (SalesHistory.deleteSales SalesHistory.no_delete_faults "owner"
                twoUsers))
  = List.filter (fun s => negb (String.eqb (sale_user_id s) "owner"))
      (sales twoUsers).
Proof.
  assert (H4 : List.NoDup (List.map sale_id (sales twoUsers))).
  { simpl. constructor; [intros [E|[]]; discriminate|].
    constructor; [intros []|constructor]. }
  split; [reflexivity|]. split; [reflexivity|]. split; [reflexivity|].
  split; [exact H4|].
  pose proof (SalesHistorySpec.deleteSales_removes_the_users_history
                SalesHistory.no_delete_faults "owner" twoUsers
                eq_refl eq_refl eq_refl H4) as (E1 & E2 & _).
  split; [exact E1 | exact E2].
Defined.

Lemma deleteSales_partial_failures_witness :
  SalesHistory.sales_fetch_fails salesDeleteFails = false /\
  List.filter (fun s => String.eqb (sale_user_id s) "owner")
    (sales twoUsers) <> [] /\
  SalesHistory.items_delete_fails salesDeleteFails = false /\
  SalesHistory.sales_delete_fails salesDeleteFails = true /\
  snd (SalesHistory.deleteSales salesDeleteFails "owner" twoUsers)
  = Err SalesHistory.salesDeleteError /\
  sales (fst (SalesHistory.deleteSales salesDeleteFails "owner" twoUsers))
  = sales twoUsers.
Proof.
  assert (H2 : List.filter (fun s => String.eqb (sale_user_id s) "owner")
                 (sales twoUsers) <> []) by discriminate.
  split; [reflexivity|]. split; [exact H2|]. split; [reflexivity|].
  split; [reflexivity|].
  pose proof (proj1 (proj2 (proj2 (proj2
                (SalesHistorySpec.deleteSales_partial_failures
                   salesDeleteFails "owner" twoUsers))))
                eq_refl H2 eq_refl eq_refl) as (E1 & E2 & _).
  split; [exact E1 | exact E2].
Defined.

Lemma pages_partition_the_sales_witness :
  1 <= 1 < Reports.totalPages twelveSales /\
  List.length (Reports.currentSales (Reports.at_page twelveSales 1))
  = 10%nat.
Proof.
  assert (H : 1 <= 1 < Reports.totalPages twelveSales)
    by (split; reflexivity || discriminate).
  split; [exact H|].
  exact (proj1 (proj2 (ReportsSpec.pages_partition_the_sales twelveSales))
           1 H).
Defined.

Lemma page_navigation_witness :
  1 <= Reports.currentPage twelveSales <= Reports.totalPages twelveSales /\
  1 <= Reports.currentPage (Reports.nextPage twelveSales)
    <= Reports.totalPages twelveSales /\
  (Reports.currentPage twelveSales < Reports.totalPages twelveSales ->
   Reports.prevPage (Reports.nextPage twelveSales) = twelveSales).
Proof.
  assert (H : 1 <= Reports.currentPage twelveSales
              <= Reports.totalPages twelveSales)
    by (split; discriminate).
  split; [exact H|].
  pose proof (ReportsSpec.page_navigation twelveSales H)
    as (_ & E2 & _ & _ & _ & E6).
  split; [exact E2 | exact E6].
Defined.

Lemma handleClearHistory_outcomes_witness :
  snd (SalesHistory.deleteSales SalesHistory.no_delete_faults "owner"
         twoUsers) = Ok true /\
  Reports.sales
    (fst (Reports.handleClearHistory (Some "owner"%string)
            SalesHistory.no_delete_faults twelveSales twoUsers)) = [] /\
  Reports.modalContent
    (fst (Reports.handleClearHistory (Some "owner"%string)
            SalesHistory.no_delete_faults twelveSales twoUsers))
  = Some Reports.history_cleared.
Proof.
  assert (H : snd (SalesHistory.deleteSales SalesHistory.no_delete_faults
                     "owner" twoUsers) = Ok true) by reflexivity.
  split; [exact H|].
  pose proof (proj2 (ReportsSpec.handleClearHistory_outcomes
                       (Some "owner"%string) SalesHistory.no_delete_faults
                       twelveSales twoUsers) "owner"%string eq_refl)
    as (_ & _ & _ & _ & Hok & _).
  destruct (Hok H) as (E1 & _ & _ & E4).
  split; [exact E1 | exact E4].
Defined.

Lemma new_filter_shows_the_newest_witness :
  catalog20 <> [] /\
  Forall (fun p => created_at p <> None) catalog20 /\
  exists hidden,
    Permutation
      (Inventory.applyFilter lazyEngine Inventory.new catalog20 [] ++ hidden)
      catalog20 /\
    forall s h,
      In s (Inventory.applyFilter lazyEngine Inventory.new catalog20 []) ->
      In h hidden -> Inventory.newer_or_same s h.
Proof.
  assert (H1 : catalog20 <> []) by discriminate.
  assert (H2 : Forall (fun p => created_at p <> None) catalog20)
    by (repeat constructor; discriminate).
  split; [exact H1|]. split; [exact H2|].
  destruct (InventoryPageSpec.new_filter_shows_the_newest lazyEngine
              catalog20 [] H1 H2)
    as (hidden & E1 & E2 & _).
  exists hidden. split; [exact E1 | exact E2].
Defined.

Lemma filters_forget_deletes_and_additions_witness :
  InventoryPage.allProducts inventoryOfNew <> [] /\
  InventoryPage.filter_eqb Inventory.all
    (InventoryPage.filterType inventoryOfNew) = false /\
  InventoryPage.products
    (InventoryPage.selectFilter lazyEngine Inventory.all
       (InventoryPage.handleDelete true (Ok true) 20 inventoryOfNew))
  = InventoryPage.products
      (InventoryPage.selectFilter lazyEngine Inventory.all inventoryOfNew).
Proof.
  assert (H1 : InventoryPage.allProducts inventoryOfNew <> [])
    by discriminate.
  split; [exact H1|]. split; [reflexivity|].
  exact (proj1
    (InventoryPageSpec.filters_forget_deletes_and_additions lazyEngine
       inventoryOfNew Inventory.all true (Ok true) 20 tea H1 eq_refl)).
Defined.

Lemma getProfitMargin_bounds_witness :
  (0 < selling_price tea)%Q /\ (0 <= cost_price tea)%Q /\
  (InventoryPage.getProfitMargin tea <= 100)%Q.
Proof.
  assert (H1 : (0 < selling_price tea)%Q) by reflexivity.
  assert (H2 : (0 <= cost_price tea)%Q) by discriminate.
  split; [exact H1|]. split; [exact H2|].
  exact (proj1 (proj2 (InventoryPageSpec.getProfitMargin_bounds tea) H1) H2).
Defined.

Lemma periods_nest_and_do_not_overlap_witness :
  99 < JsDate.getFullYear fallBack2026 nowSample /\
  JsDate.keeps_midnights fallBack2026 /\
  JsDate.days_in_order fallBack2026 /\
  ~ (In (saleAt 2 1793505600000)
        (Finance.filteredSales fallBack2026 nowSample Finance.today
           salesAroundYesterday) /\
     In (saleAt 2 1793505600000)
        (Finance.filteredSales fallBack2026 nowSample Finance.yesterday
           salesAroundYesterday)).
Proof.
  assert (H : 99 < JsDate.getFullYear fallBack2026 nowSample)
    by (vm_compute; reflexivity).
  assert (K : JsDate.keeps_midnights fallBack2026).
  { intros d.
    unfold JsDate.LocalTime, JsDate.startOfDay, JsDate.UTC, fallBack2026,
      JsDate.msPerDay.
    destruct (Z.ltb_spec (d * 86400000) (1793512800000 - 14400000));
      destruct (Z.ltb_spec (d * 86400000 - -14400000) 1793512800000);
      destruct (Z.ltb_spec (d * 86400000 - -18000000) 1793512800000);
      lia. }
  assert (O : JsDate.days_in_order fallBack2026).
  { intros d.
    unfold JsDate.startOfDay, JsDate.endOfDay, JsDate.UTC, fallBack2026,
      JsDate.msPerDay.
    destruct (Z.ltb_spec (d * 86400000) (1793512800000 - 14400000));
      destruct (Z.ltb_spec (d * 86400000 + (86400000 - 1))
                  (1793512800000 - 14400000));
      destruct (Z.ltb_spec ((d + 1) * 86400000)
                  (1793512800000 - 14400000));
      lia. }
  split; [exact H|]. split; [exact K|]. split; [exact O|].
  exact (proj1 (proj2
    (FinanceMore.periods_nest_and_do_not_overlap fallBack2026 nowSample
       salesAroundYesterday (saleAt 2 1793505600000) H K O))).
Defined.

Lemma profitMargin_bounds_witness :
  Forall (fun sale => (0 <= Finance.total_cost sale)%Q) oneSale /\
  (0 < Finance.totalRevenue (Finance.financialMetrics oneSale))%Q /\
  (Finance.profitMargin (Finance.financialMetrics oneSale) <= 100)%Q.
Proof.
  assert (H1 : Forall (fun sale => (0 <= Finance.total_cost sale)%Q) oneSale)
    by (repeat constructor; discriminate).
  assert (H2 : (0 < Finance.totalRevenue (Finance.financialMetrics oneSale))%Q)
    by reflexivity.
  split; [exact H1|]. split; [exact H2|].
  exact (proj1 (FinanceMore.profitMargin_bounds oneSale H1 H2)).
Defined.

Lemma topSellingProducts_totals_witness :
  In teaRow
    (List.map TopSelling.sales_of
       (TopSelling.topSellingProducts (TopSelling.productsMap [tea])
          teaSales)) /\
  TopSelling.wholePrices (TopSelling.itemsSold teaSales) /\
  TopSelling.grossSold (TopSelling.itemsSold teaSales) < 2 ^ 53 /\
  TopSelling.quantity teaRow
  = TopSelling.unitsSold (TopSelling.productId teaRow)
      (TopSelling.itemsSold teaSales) /\
  exists rev prof,
    TopSelling.revenue teaRow = JsNumber.Finite rev /\
    TopSelling.profit teaRow = JsNumber.Finite prof /\
    (rev == TopSelling.amountSold Finance.price_at_sale
              (TopSelling.productId teaRow)
              (TopSelling.itemsSold teaSales))%Q /\
    (prof == TopSelling.amountSold Finance.price_at_sale
               (TopSelling.productId teaRow)
               (TopSelling.itemsSold teaSales)
             - TopSelling.amountSold Finance.cost_at_sale
                 (TopSelling.productId teaRow)
                 (TopSelling.itemsSold teaSales))%Q.
Proof.
  assert (H : In teaRow
                (List.map TopSelling.sales_of
                   (TopSelling.topSellingProducts
                      (TopSelling.productsMap [tea]) teaSales)))
    by (left; vm_compute; reflexivity).
  assert (H1 : TopSelling.wholePrices (TopSelling.itemsSold teaSales))
    by (repeat constructor; reflexivity).
  assert (H2 : TopSelling.grossSold (TopSelling.itemsSold teaSales) < 2 ^ 53)
    by reflexivity.
  split; [exact H|]. split; [exact H1|]. split; [exact H2|].
  pose proof (proj2 (proj2
    (TopSellingSpec.topSellingProducts_totals (TopSelling.productsMap [tea])
       teaSales)) teaRow H) as (_ & E2 & _ & _ & E5).
  split; [exact E2 | exact (E5 H1 H2)].
Defined.

Lemma topSellingProducts_ranking_witness :
  In (Finance.mkSaleItem 2 7 1 (5 # 1) (3 # 1))
    (TopSelling.itemsSold teaSales) /\
  (In 7
     (List.map TopSelling.productId
        (List.map TopSelling.sales_of
           (TopSelling.topSellingProducts (TopSelling.productsMap [tea])
              teaSales))) \/
   List.length
     (List.map TopSelling.sales_of
        (TopSelling.topSellingProducts (TopSelling.productsMap [tea])
           teaSales)) = 5%nat /\
   forall r,
     In r (List.map TopSelling.sales_of
             (TopSelling.topSellingProducts (TopSelling.productsMap [tea])
                teaSales)) ->
     TopSelling.unitsSold 7 (TopSelling.itemsSold teaSales)
     <= TopSelling.quantity r).
Proof.
  assert (H : In (Finance.mkSaleItem 2 7 1 (5 # 1) (3 # 1))
                (TopSelling.itemsSold teaSales))
    by (right; left; reflexivity).
  split; [exact H|].
  exact (proj2
    (TopSellingSpec.topSellingProducts_ranking (TopSelling.productsMap [tea])
       teaSales) _ H).
Defined.

Lemma topSellingProducts_names_witness :
  In (TopSelling.mkTopProduct teaRow "tea")
    (TopSelling.topSellingProducts (TopSelling.productsMap [tea]) teaSales)
  /\
  (TopSelling.shown_name (TopSelling.mkTopProduct teaRow "tea")
   <> TopSelling.deletedProduct ->
   exists p, In p [tea] /\ id p = Some 1 /\ name p = "tea"%string).
Proof.
  assert (H : In (TopSelling.mkTopProduct teaRow "tea")
                (TopSelling.topSellingProducts (TopSelling.productsMap [tea])
                   teaSales))
    by (left; reflexivity).
  split; [exact H|].
  exact (proj2 (proj2
    (TopSellingSpec.topSellingProducts_names [tea] teaSales _ H))).
Defined.

Lemma mobile_summary_groups_witness :
  List.find (has_id 1) (products shop) = Some tea /\
  List.find (is_line 1) (cart shop) = Some teaLine /\
  In teaTile (MobileCart.groups shop).
Proof.
  split; [reflexivity|]. split; [reflexivity|].
  apply (proj2 (MobileCartSpec.mobile_summary_groups shop) teaTile).
  exists 1, tea, teaLine.
  split; [reflexivity|]. split; reflexivity.
Defined.

Lemma mobile_controls_keep_the_lines_witness :
  cart_ok (products shop) (cart shop) /\
  In teaTile (MobileCart.groups shop) /\
  exists P,
    MobileCart.product teaTile = Some P /\
    MobileCart.lineQuantity 1
      (cart (MobileCart.press MobileCart.pressPlus teaTile shop))
    = Z.min (stock P) (2 + 1).
Proof.
  assert (H1 : cart_ok (products shop) (cart shop)).
  { split.
    - simpl. constructor; [intros []|constructor].
    - repeat constructor; eexists; (split; [reflexivity | simpl; lia]). }
  assert (H2 : In teaTile (MobileCart.groups shop)) by (left; reflexivity).
  split; [exact H1|]. split; [exact H2|].
  destruct (MobileCartSpec.mobile_controls_keep_the_lines shop teaTile
              MobileCart.pressPlus H1 H2)
    as (P & E1 & _ & _ & _ & _ & _ & E7).
  exists P. split; [exact E1 | exact E7].
Defined.

Lemma createProduct_row_witness :
  fst (ProductWrites.createProduct nowSample 250 nowSample
         (ProductWrites.inserted (Some [tea])) newTea "owner")
  = Some (ProductWrites.productToInsert nowSample 250 nowSample newTea) /\
  low_stock_threshold newTea = 0 /\
  low_stock_threshold
    (ProductWrites.productToInsert nowSample 250 nowSample newTea) = 5.
Proof.
  assert (H : fst (ProductWrites.createProduct nowSample 250 nowSample
                     (ProductWrites.inserted (Some [tea])) newTea "owner")
              = Some (ProductWrites.productToInsert nowSample 250 nowSample
                        newTea)) by reflexivity.
  split; [exact H|]. split; [reflexivity|].
  pose proof (proj2
    (ProductWritesSpec.createProduct_row nowSample 250 nowSample
       (ProductWrites.inserted (Some [tea])) newTea "owner") _ H)
    as (_ & _ & _ & _ & _ & _ & _ & _ & E & _).
  exact (E eq_refl).
Defined.

Lemma permission_notice_ignores_the_code_witness :
  falsy "owner" = false /\
  ProductWrites.blank (name newTea) = false /\
  (0 < selling_price newTea)%Q /\
  code policyViolation = "42501"%string /\
  (ProductForm.formError
     (ProductForm.save
        (fun d u =>
           snd (ProductWrites.createProduct nowSample 250 nowSample
                  (ProductWrites.insertError policyViolation) d u))
        acceptUpdate "owner" None newTea)
   = Some ProductForm.error_permission
   <-> includes (message policyViolation) "permission" = true).
Proof.
  assert (H3 : (0 < selling_price newTea)%Q) by reflexivity.
  split; [reflexivity|]. split; [reflexivity|]. split; [exact H3|].
  split; [reflexivity|].
  exact (ProductWritesSpec.permission_notice_ignores_the_code nowSample 250
           nowSample policyViolation acceptUpdate newTea "owner"
           eq_refl eq_refl H3).
Defined.

Lemma generatedId_collisions_witness :
  0 <= 250 < 10000 /\ 100 <= 250 /\
  exists r2, 0 <= r2 < 10000 /\
    ProductWrites.generatedId (nowSample + 1) r2
    = ProductWrites.generatedId nowSample 250.
Proof.
  assert (H1 : 0 <= 250 < 10000) by lia.
  assert (H2 : 100 <= 250) by lia.
  split; [exact H1|]. split; [exact H2|].
  exact (proj2 (ProductWritesSpec.generatedId_collisions nowSample 250 H1)
           H2).
Defined.

Lemma image_notice_only_for_stored_files_witness :
  uploadFailed "owner" smallFile (uploaded (Some storedUrl)) = false /\
  includes storedUrl "placeholder" = true /\
  ProductForm.formError
    (ProductForm.handleSubmit accept acceptUpdate true (Some "owner"%string)
       None blankForm (Some smallFile) (uploaded (Some storedUrl)))
  = Some ProductForm.error_image_upload.
Proof.
  split; [reflexivity|]. split; [reflexivity|].
  apply (proj2
    (ProductFormMore.image_notice_only_for_stored_files accept acceptUpdate
       true (Some "owner"%string) None blankForm (Some smallFile)
       (uploaded (Some storedUrl)))).
  split; [reflexivity|]. exists "owner"%string, smallFile, storedUrl.
  repeat (split; [reflexivity|]). reflexivity.
Defined.

End WitnessMore.
